(** * pdfs-manga-to-ebook: the EPUB assembly of [main.py]

    A shallow embedding of [main.py] and the properties of its chapter
    ordering, page-id scheme, manifest / spine / NCX generation, zip layout
    and error propagation.

    Conventions of the model.
    - A Python [str] is a [string]; its characters are read as the code
      points 0..255, where [\d] is exactly [0-9].  Text written to the
      terminal or to the archive is the UTF-8 byte string.
    - A Python [int] that is never negative is an [N].
    - Exceptions are values of [exn]; a call that can raise returns a
      [result].  Code with effects runs in the monad [M] over the [World]
      (terminal output, files written, number of identifiers drawn); an
      exception keeps the effects that happened before it.
    - What the program obtains from its libraries and from the machine
      (directory listings, the PDF renderer, the PNG encoder, the XML
      serializer, the configuration file) is a field of [Env]. *)

From Stdlib Require Import String Ascii List NArith ZArith Arith Bool Lia.
From Stdlib Require Import Permutation Sorted.
From Stdlib Require Import Decimal DecimalString DecimalN.
From Stdlib Require Import DecimalPos Ring.
Import ListNotations.
Open Scope string_scope.
Set Warnings "-register-all".

(** ** Python built-ins used by the program *)

Module Py.

(** The double quote and the line feed, which a string literal here cannot hold. *)
Definition dq : string := String "034"%char EmptyString.
Definition nl : string := String "010"%char EmptyString.

(** [\d] and [str.isspace] on the code points 0..255. *)
Definition isdigit (c : ascii) : bool :=
  let n := nat_of_ascii c in ((48 <=? n) && (n <=? 57))%nat.

Definition isspace (c : ascii) : bool :=
  let n := nat_of_ascii c in
  (((9 <=? n) && (n <=? 13)) || ((28 <=? n) && (n <=? 32))
   || (n =? 133) || (n =? 160))%nat.

(** [s.startswith(pre)] *)
Fixpoint startswith (s pre : string) {struct pre} : bool :=
  match pre with
  | EmptyString => true
  | String a pre' =>
      match s with
      | EmptyString => false
      | String b s' => (a =? b)%char && startswith s' pre'
      end
  end.

(** [s.replace(old, new)] for a non-empty [old] (every call of the program):
    the occurrences are found from the left and do not overlap.  [skip] counts
    the characters of a matched occurrence that are still to be dropped. *)
Fixpoint replace_from (old new : string) (skip : nat) (s : string) : string :=
  match s with
  | EmptyString => EmptyString
  | String c s' =>
      match skip with
      | S k => replace_from old new k s'
      | O =>
          if startswith s old
          then new ++ replace_from old new (String.length old - 1) s'
          else String c (replace_from old new 0 s')
      end
  end.

Definition replace (old new s : string) : string := replace_from old new 0 s.

(** [s.strip()] *)
Fixpoint lstrip (s : string) : string :=
  match s with
  | EmptyString => EmptyString
  | String c s' => if isspace c then lstrip s' else s
  end.

Fixpoint rstrip (s : string) : string :=
  match s with
  | EmptyString => EmptyString
  | String c s' =>
      match rstrip s' with
      | EmptyString => if isspace c then EmptyString else String c EmptyString
      | r => String c r
      end
  end.

Definition strip (s : string) : string := rstrip (lstrip s).

(** [s.endswith(suffix)] *)
Fixpoint endswith (s suffix : string) : bool :=
  (s =? suffix)
  || match s with
     | EmptyString => false
     | String _ s' => endswith s' suffix
     end.

(** [re.search(r"\d+", s)]: the leftmost, longest run of digits, [None]
    when [s] has no digit; the value is what [.group()] returns. *)
Fixpoint take_digits (s : string) : string :=
  match s with
  | EmptyString => EmptyString
  | String c s' => if isdigit c then String c (take_digits s') else EmptyString
  end.

Fixpoint search_digits (s : string) : option string :=
  match s with
  | EmptyString => None
  | String c s' => if isdigit c then Some (take_digits s) else search_digits s'
  end.

(** [int(s)] on a string of decimal digits. *)
Fixpoint int_from (acc : N) (s : string) : N :=
  match s with
  | EmptyString => acc
  | String c s' => int_from (acc * 10 + (N_of_ascii c - 48)) s'
  end.

Definition int (s : string) : N := int_from 0 s.

(** [str(n)] and [f"{n}"] for an [int] that is not negative. *)
Definition str (n : N) : string := NilEmpty.string_of_uint (N.to_uint n).

(** [os.path.join(a, b)] (posixpath). *)
Definition path_join (a b : string) : string :=
  if startswith b "/" then b
  else if (a =? EmptyString) || endswith a "/" then a ++ b
  else a ++ "/" ++ b.

(** Whether [re.search(r"\d+", s)] finds a match. *)
Definition has_digit (s : string) : bool :=
  match search_digits s with Some _ => true | None => false end.

End Py.

Import Py.

(** ** Exceptions and results *)

Inductive exn : Type :=
| AttributeError          (* [None.group()], [.get] or [.items] on a value that has none *)
| IndexError              (* [page_ids[0]] on an empty list *)
| TypeError               (* [os.path.abspath] of a value that is no string *)
| OSError                 (* the directory or the configuration file cannot be read *)
| YAMLError               (* the configuration file is no YAML *)
| PDFError                (* the renderer cannot rasterize the file *)
| Exception (msg : string).

Inductive result (A : Type) : Type :=
| Ok (a : A)
| Raise (e : exn).
Arguments Ok {A} a.
Arguments Raise {A} e.

(** ** XML trees ([xml.etree.ElementTree.Element]) *)

Inductive Element : Type :=
| Elem (tag : string) (attrib : list (string * string)) (text : option string)
       (children : list Element).

Definition tag (e : Element) : string := let (t, _, _, _) := e in t.
Definition attrib (e : Element) : list (string * string) := let (_, a, _, _) := e in a.
Definition text (e : Element) : option string := let (_, _, t, _) := e in t.
Definition children (e : Element) : list Element := let (_, _, _, c) := e in c.

(** [e.get(key)] *)
Fixpoint assoc {V : Type} (key : string) (d : list (string * V)) : option V :=
  match d with
  | [] => None
  | (k, v) :: d' => if k =? key then Some v else assoc key d'
  end.

Definition get_attr (key : string) (e : Element) : option string := assoc key (attrib e).

(** [SubElement(parent, ...)] makes [child] the last child of [parent]. *)
Definition append_child (parent child : Element) : Element :=
  Elem (tag parent) (attrib parent) (text parent) (children parent ++ [child])%list.

(** ** Zip archives ([zipfile.ZipFile]) and the files written *)

Inductive Compression : Type := ZIP_STORED | ZIP_DEFLATED.

Record ZipEntry : Type := mkZipEntry {
  arcname : string;
  data : string;
  compress_type : Compression
}.

(** An archive opened for writing: the file it writes to and the compression
    of an entry written with no [compress_type]. *)
Record ZipFile : Type := mkZipFile {
  filename : string;
  compression : Compression
}.

(** The files written by the program, the last one created first.  An archive
    on disk is the list of its entries in the order they were written. *)
Definition Disk : Type := list (string * list ZipEntry).

Definition disk_read (file : string) (d : Disk) : option (list ZipEntry) := assoc file d.

Definition disk_remove (file : string) (d : Disk) : Disk :=
  filter (fun kv => negb (fst kv =? file)) d.

(** Mode ["w"]: the file is created, or emptied when it exists. *)
Definition disk_create (file : string) (d : Disk) : Disk :=
  (file, []) :: disk_remove file d.

Definition disk_append (file : string) (e : ZipEntry) (d : Disk) : Disk :=
  map (fun kv => if fst kv =? file then (fst kv, (snd kv ++ [e])%list) else kv) d.

(** ** YAML values ([yaml.safe_load]) *)

Inductive Yaml : Type :=
| YNone
| YBool (b : bool)
| YInt (z : Z)
| YStr (s : string)
| YList (l : list Yaml)
| YDict (d : list (string * Yaml)).

(** Truth value, as in [if not v]. *)
Definition truthy (v : Yaml) : bool :=
  match v with
  | YNone => false
  | YBool b => b
  | YInt z => negb (z =? 0)%Z
  | YStr s => negb (s =? EmptyString)
  | YList l => match l with [] => false | _ => true end
  | YDict d => match d with [] => false | _ => true end
  end.

(** [v.get(key)]: only a mapping has the method. *)
Definition yaml_get (key : string) (v : Yaml) : result Yaml :=
  match v with
  | YDict d => match assoc key d with Some x => Ok x | None => Ok YNone end
  | _ => Raise AttributeError
  end.

(** [v.items()] *)
Definition yaml_items (v : Yaml) : result (list (string * Yaml)) :=
  match v with
  | YDict d => Ok d
  | _ => Raise AttributeError
  end.

(** ** The environment and the world *)

Record Env : Type := mkEnv {
  Image : Type;
  (* pdf2image.convert_from_path(path, dpi=...) *)
  convert_from_path : string -> N -> result (list Image);
  (* img.save(buffer, format="PNG", optimize=True); buffer.getvalue() *)
  png_bytes : Image -> string;
  (* xml.etree.ElementTree.tostring(element, encoding="unicode") *)
  tostring : Element -> string;
  (* os.listdir, os.path.exists, os.path.abspath *)
  listdir : string -> result (list string);
  path_exists : string -> bool;
  abspath : string -> string;
  (* the n-th call of uuid4().hex *)
  uuid4_hex : nat -> string;
  (* open("config.yaml") and yaml.safe_load *)
  config_yaml : result Yaml
}.

Record World : Type := mkWorld {
  stdout : list string;
  disk : Disk;
  uuid_calls : nat
}.

(** ** The monad of effects *)

Definition M (A : Type) : Type := World -> World * result A.

Definition ret {A : Type} (a : A) : M A := fun w => (w, Ok a).

Definition bind {A B : Type} (m : M A) (k : A -> M B) : M B :=
  fun w =>
    match m w with
    | (w', Ok a) => k a w'
    | (w', Raise e) => (w', Raise e)
    end.

Definition lift {A : Type} (r : result A) : M A := fun w => (w, r).

Declare Scope monad_scope.
Delimit Scope monad_scope with monad.
Notation "x <- m ;; k" := (bind m (fun x => k))
  (at level 61, m at next level, right associativity) : monad_scope.
Notation "m ;; k" := (bind m (fun _ => k))
  (at level 61, right associativity) : monad_scope.
Notation "' pat <- m ;; k" := (bind m (fun x => match x with pat => k end))
  (at level 61, pat pattern, m at next level, right associativity) : monad_scope.
Open Scope monad_scope.

(** [for x in xs: body(state, x)] where the body updates [state]. *)
Fixpoint for_fold {S A : Type} (body : S -> A -> M S) (xs : list A) (s : S) : M S :=
  match xs with
  | [] => ret s
  | x :: xs' => s' <- body s x ;; for_fold body xs' s'
  end.

(** [for x in xs: body(x)] *)
Fixpoint for_each {A : Type} (body : A -> M unit) (xs : list A) : M unit :=
  match xs with
  | [] => ret tt
  | x :: xs' => body x ;; for_each body xs'
  end.

Definition print (line : string) : M unit :=
  fun w => (mkWorld (stdout w ++ [line])%list (disk w) (uuid_calls w), Ok tt).

(** [zipfile.ZipFile(file, "w")] *)
Definition zip_open (file : string) : M ZipFile :=
  fun w => (mkWorld (stdout w) (disk_create file (disk w)) (uuid_calls w),
            Ok (mkZipFile file ZIP_STORED)).

(** [file.writestr(name, data, compress_type=...)] *)
Definition writestr (file : ZipFile) (name content : string)
    (compress_type : option Compression) : M unit :=
  fun w =>
    let c := match compress_type with Some c => c | None => compression file end in
    (mkWorld (stdout w) (disk_append (filename file) (mkZipEntry name content c) (disk w))
             (uuid_calls w),
     Ok tt).

Definition uuid4 (env : Env) : M string :=
  fun w => (mkWorld (stdout w) (disk w) (S (uuid_calls w)), Ok (uuid4_hex env (uuid_calls w))).

(** [enumerate(xs)] *)
Fixpoint enumerate_from {A : Type} (i : N) (xs : list A) : list (N * A) :=
  match xs with
  | [] => []
  | x :: xs' => (i, x) :: enumerate_from (i + 1) xs'
  end.

Definition enumerate {A : Type} (xs : list A) : list (N * A) := enumerate_from 0 xs.

(** [len(xs)] *)
Definition len {A : Type} (xs : list A) : N := N.of_nat (List.length xs).

(** ** Constants of the program *)

Definition HTML_PAGE_TEMPLATE_format (chapter_title : string) (page_number : N) (image_url : string) : string :=
  String.concat nl
    [ EmptyString;
      "<html xmlns=" ++ dq ++ "http://www.w3.org/1999/xhtml" ++ dq ++ " style=" ++ dq ++ "display: flex; justify-content: center; width: 100vw; height: 100%;" ++ dq ++ ">";
      "    <head>";
      "        <title>" ++ chapter_title ++ " - Page " ++ str page_number ++ "</title>";
      "        <style>";
      "           img {";
      "                display: block;";
      "                margin: 0 auto;";
      "                width: 100%;";
      "                height: auto;";
      "                max-height: none !important;";
      "              }";
      "      </style>";
      EmptyString;
      "    </head>";
      "    <body style=" ++ dq ++ "display: flex; justify-content: center; width: 70vw; height: 100%;" ++ dq ++ ">";
      "       <div style=" ++ dq ++ "display: block; margin: auto; width: 100%; height: 100%; overflow: scroll;" ++ dq ++ ">";
      "          <img id=" ++ dq ++ image_url ++ dq ++ " src=" ++ dq ++ image_url ++ dq ++ " style=" ++ dq ++ "max-width: 100%; height: auto; display: block; margin: 0 auto; max-height: unset !important; width: 100%;" ++ dq ++ " alt=" ++ dq ++ "Page image" ++ dq ++ " onload=" ++ dq ++ "init()" ++ dq ++ "/>";
      "        </div>";
      EmptyString;
      "        <script>";
      "         function init(){";
      "          const id = " ++ dq ++ image_url ++ dq ++ ";";
      "          const image = document.getElementById(id);";
      EmptyString;
      "          image.style.maxHeight = " ++ dq ++ "unset !important" ++ dq;
      "          ";
      EmptyString;
      "         }";
      "        </script>";
      "    </body>";
      "</html>";
      EmptyString ].

Definition MIMETYPE : string := "application/epub+zip".

Definition CONTAINER_XML : string :=
  String.concat nl
    [ "<?xml version=" ++ dq ++ "1.0" ++ dq ++ "?>";
      "<container version=" ++ dq ++ "1.0" ++ dq ++ " xmlns=" ++ dq ++ "urn:oasis:names:tc:opendocument:xmlns:container" ++ dq ++ ">";
      "  <rootfiles>";
      "    <rootfile full-path=" ++ dq ++ "OEBPS/content.opf" ++ dq ++ " media-type=" ++ dq ++ "application/oebps-package+xml" ++ dq ++ "/>";
      "  </rootfiles>";
      "</container>";
      EmptyString ].

Definition IMAGE_DPI : N := 150.

(** The seven bytes that stand before [EPUB created] in the last message. *)
Definition EPUB_CREATED_MARK : string :=
  String "195" (String "162" (String "197" (String "147"
    (String "226" (String "128" (String "166" EmptyString)))))).

(** ** ChapterTOC and ManifestItem *)

Module ChapterTOC.

Record t : Type := mk {
  page_ids : list string;
  chapter_title : string
}.

End ChapterTOC.

Module ManifestItem.

Record t : Type := mk {
  id : string;
  href : string;
  media_type : string
}.

(** The default of the field [media_type]. *)
Definition xhtml : string := "application/xhtml+xml".

Definition to_xml_content_dict (self : t) : list (string * string) :=
  [("id", id self); ("href", href self); ("media-type", media_type self)].

End ManifestItem.

(** ** ChapterData *)

Module ChapterData.

Record t : Type := mk {
  name : string;
  path : string;
  chapter_number : N;
  chapter_title : string
}.

(** [__init__]: [re.search] returns [None] on a name without a digit, and
    [None.group()] raises. *)
Definition init (name path : string) : result t :=
  match search_digits (strip (replace ".pdf" EmptyString (replace "Ch" EmptyString name))) with
  | None => Raise AttributeError
  | Some group =>
      let chapter_number := int group in
      Ok (mk name path chapter_number ("Chapter " ++ str chapter_number))
  end.

Definition page_id_of (chapter_number page_number : N) : string :=
  replace " " EmptyString
    ("chapter_" ++ str chapter_number ++ "_page_" ++ str page_number).

Section Methods.
Variable env : Env.

Definition create_png_img (img : Image env) : string := png_bytes env img.

(** The body of the loop of [create_chapter]; [acc] is
    [(manifest_items, page_ids)]. *)
Definition create_page (self : t) (epub_file : ZipFile)
    (acc : list ManifestItem.t * list string) (item : N * Image env)
    : M (list ManifestItem.t * list string) :=
  let '(manifest_items, page_ids) := acc in
  let '(index, image) := item in
  let page_number := (index + 1)%N in
  let page_id := page_id_of (chapter_number self) page_number in
  let file_name := page_id ++ ".xhtml" in
  let image_url := "static/" ++ page_id ++ ".png" in
  let file_title := chapter_title self ++ " - Page " ++ str page_number in
  print ("creating: " ++ file_title) ;;
  let content := HTML_PAGE_TEMPLATE_format (chapter_title self) page_number image_url in
  let xhtml_path := "OEBPS/" ++ file_name in
  let image_path := "OEBPS/" ++ image_url in
  writestr epub_file xhtml_path content (Some ZIP_DEFLATED) ;;
  writestr epub_file image_path (create_png_img image) (Some ZIP_DEFLATED) ;;
  let page_ids := (page_ids ++ [page_id])%list in
  let manifest_item := ManifestItem.mk page_id file_name ManifestItem.xhtml in
  let manifest_items := (manifest_items ++ [manifest_item])%list in
  let img_manifest_item := ManifestItem.mk (page_id ++ "_img") image_url "image/png" in
  let manifest_items := (manifest_items ++ [img_manifest_item])%list in
  ret (manifest_items, page_ids).

Definition create_chapter (self : t) (epub_file : ZipFile)
    : M (list ManifestItem.t * list string) :=
  images <- lift (convert_from_path env (path self) IMAGE_DPI) ;;
  print ("creating chapter: " ++ chapter_title self ++ ", with "
         ++ str (len images) ++ " images") ;;
  for_fold (create_page self epub_file) (enumerate images) ([], []).

End Methods.

End ChapterData.

(** ** EbookXMLManager *)

Module EbookXMLManager.

(** [self.metadata], [self.manifest] and [self.spine] are the three children
    of [self.package], in this order, and the program changes the package
    only through them: the record keeps the children, and [package] is the
    tree they form. *)
Record t : Type := mk {
  package_attrib : list (string * string);
  metadata : Element;
  manifest : Element;
  spine : Element;
  ncx : Element
}.

Definition package (self : t) : Element :=
  Elem "package" (package_attrib self) None [metadata self; manifest self; spine self].

(** The attributes of the element that [create_package] returns. *)
Definition create_package (book_id : string) : list (string * string) :=
  [("xmlns", "http://www.idpf.org/2007/opf");
   ("version", "2.0");
   ("unique-identifier", book_id)].

Definition create_metadata (title book_id : string) : Element :=
  Elem "metadata"
    [("xmlns:dc", "http://purl.org/dc/elements/1.1/");
     ("xmlns:opf", "http://www.idpf.org/2007/opf")]
    None
    [Elem "dc:title" [] (Some title) [];
     Elem "dc:language" [] (Some "en") [];
     Elem "dc:identifier" [("id", book_id)] (Some book_id) []].

Definition build_ncx (title book_id : string) : Element :=
  Elem "ncx"
    [("xmlns", "http://www.daisy.org/z3986/2005/ncx/"); ("version", "2005-1")]
    None
    [Elem "head" [] None [Elem "meta" [("name", "dtb:uid"); ("content", book_id)] None []];
     Elem "docTitle" [] None [Elem "text" [] (Some title) []]].

Definition init (book_id name : string) : t :=
  mk (create_package book_id)
     (create_metadata name book_id)
     (Elem "manifest" [] None [])
     (Elem "spine" [("toc", "ncx")] None [])
     (build_ncx name book_id).

Definition create_manifest_item (self : t) (content : list (string * string)) : t :=
  mk (package_attrib self) (metadata self)
     (append_child (manifest self) (Elem "item" content None []))
     (spine self) (ncx self).

Definition create_itemref (self : t) (item_id : string) : t :=
  mk (package_attrib self) (metadata self) (manifest self)
     (append_child (spine self) (Elem "itemref" [("idref", item_id)] None []))
     (ncx self).

Definition XML_DECL : string :=
  "<?xml version=" ++ dq ++ "1.0" ++ dq ++ "?>" ++ nl.

Definition XML_DECL_UTF8 : string :=
  "<?xml version=" ++ dq ++ "1.0" ++ dq ++ " encoding=" ++ dq ++ "UTF-8" ++ dq ++ "?>" ++ nl.

(** The first page of a chapter entry: [chapter_toc.page_ids[0]]. *)
Definition first_page_id (chapter_toc : ChapterTOC.t) : result string :=
  match ChapterTOC.page_ids chapter_toc with
  | [] => Raise IndexError
  | page_id :: _ => Ok page_id
  end.

(** The [navPoint] of a chapter with its two children. *)
Definition nav_point (chapter_index play_order : N) (chapter_title first_page_url : string)
    : Element :=
  Elem "navPoint"
    [("id", "navPoint-" ++ str (chapter_index + 1)); ("playOrder", str play_order)]
    None
    [Elem "navLabel" [] None [Elem "text" [] (Some chapter_title) []];
     Elem "content" [("src", first_page_url)] None []].

(** The loop of [build_ncx_data] over [enumerate(toc)], from the state
    [(nav_map, play_order)]. *)
Fixpoint build_nav_map (nav_map : Element) (play_order : N)
    (toc : list (N * ChapterTOC.t)) : result Element :=
  match toc with
  | [] => Ok nav_map
  | (chapter_index, chapter_toc) :: toc' =>
      match first_page_id chapter_toc with
      | Raise e => Raise e
      | Ok page_id =>
          let first_page_url := page_id ++ ".xhtml" in
          let nav_map :=
            append_child nav_map
              (nav_point chapter_index play_order
                 (ChapterTOC.chapter_title chapter_toc) first_page_url) in
          build_nav_map nav_map (play_order + 1) toc'
      end
  end.

Section Methods.
Variable env : Env.

(** Returns the serialized package document and the manager after the call. *)
Definition build_manifest_data (self : t) (manifest_items : list ManifestItem.t)
    (spine_items : list string) : string * t :=
  let self :=
    create_manifest_item self
      [("id", "ncx"); ("href", "toc.ncx"); ("media-type", "application/x-dtbncx+xml")] in
  let self :=
    fold_left (fun self manifest_item =>
                 create_manifest_item self (ManifestItem.to_xml_content_dict manifest_item))
              manifest_items self in
  let self := fold_left create_itemref spine_items self in
  (XML_DECL ++ tostring env (package self), self).

(** Returns the serialized navigation document and the manager after the
    call, or the exception of the first chapter entry without a page. *)
Definition build_ncx_data (self : t) (toc : list ChapterTOC.t) : result (string * t) :=
  match build_nav_map (Elem "navMap" [] None []) 1 (enumerate toc) with
  | Raise e => Raise e
  | Ok nav_map =>
      let self :=
        mk (package_attrib self) (metadata self) (manifest self) (spine self)
           (append_child (ncx self) nav_map) in
      Ok (XML_DECL_UTF8 ++ tostring env (ncx self), self)
  end.

End Methods.

End EbookXMLManager.

(** ** EbookManager *)

Module EbookManager.

Record t : Type := mk {
  name : string;
  pdfs_path : string;
  book_id : string;
  spine : list string;
  xml_manager : EbookXMLManager.t;
  toc : list ChapterTOC.t;
  manifest_items : list ManifestItem.t;
  output_name : string;
  pdf_files : list ChapterData.t
}.

(** The sort key: the first run of digits of the file name as it stands. *)
Definition chapter_sorting (value : ChapterData.t) : result N :=
  match search_digits (ChapterData.name value) with
  | None => Raise AttributeError
  | Some group => Ok (int group)
  end.

(** [sorted(xs, key=key)]: the keys are computed first, for every element in
    turn; the sort is stable. *)
Fixpoint decorate {A : Type} (key : A -> result N) (xs : list A) : result (list (N * A)) :=
  match xs with
  | [] => Ok []
  | x :: xs' =>
      match key x with
      | Raise e => Raise e
      | Ok k =>
          match decorate key xs' with
          | Raise e => Raise e
          | Ok kxs => Ok ((k, x) :: kxs)
          end
      end
  end.

Fixpoint insert_by_key {A : Type} (kx : N * A) (kxs : list (N * A)) : list (N * A) :=
  match kxs with
  | [] => [kx]
  | ky :: kxs' =>
      if (fst kx <=? fst ky)%N then kx :: kxs else ky :: insert_by_key kx kxs'
  end.

Definition sort_by_key {A : Type} (kxs : list (N * A)) : list (N * A) :=
  fold_right insert_by_key [] kxs.

Definition sorted {A : Type} (xs : list A) (key : A -> result N) : result (list A) :=
  match decorate key xs with
  | Raise e => Raise e
  | Ok kxs => Ok (map snd (sort_by_key kxs))
  end.

(** The loop of [init_pdf_list] over the directory entries. *)
Fixpoint collect_pdf_files (pdfs_path : string) (files : list string)
    (pdf_files : list ChapterData.t) : result (list ChapterData.t) :=
  match files with
  | [] => Ok pdf_files
  | pdf_file :: files' =>
      if negb (endswith pdf_file ".pdf") then collect_pdf_files pdfs_path files' pdf_files
      else
        match ChapterData.init pdf_file (path_join pdfs_path pdf_file) with
        | Raise e => Raise e
        | Ok chapter_data =>
            collect_pdf_files pdfs_path files' (pdf_files ++ [chapter_data])%list
        end
  end.

Section Methods.
Variable env : Env.

Definition init_pdf_list (pdfs_path : string) : result (list ChapterData.t) :=
  match listdir env pdfs_path with
  | Raise e => Raise e
  | Ok files =>
      match collect_pdf_files pdfs_path files [] with
      | Raise e => Raise e
      | Ok pdf_files => sorted pdf_files chapter_sorting
      end
  end.

Definition init (name pdfs_path : string) : M t :=
  book_id <- uuid4 env ;;
  pdf_files <- lift (init_pdf_list pdfs_path) ;;
  ret (mk name pdfs_path book_id [] (EbookXMLManager.init book_id name) [] []
          (name ++ ".epub") pdf_files).

Definition handle_chapter (epub_file : ZipFile) (self : t) (chapter : ChapterData.t) : M t :=
  '(manifest_items, page_ids) <- ChapterData.create_chapter env chapter epub_file ;;
  let chapter_toc := ChapterTOC.mk page_ids (ChapterData.chapter_title chapter) in
  ret (mk (name self) (pdfs_path self) (book_id self)
          (spine self ++ page_ids)%list
          (xml_manager self)
          (toc self ++ [chapter_toc])%list
          (EbookManager.manifest_items self ++ manifest_items)%list
          (output_name self) (pdf_files self)).

Definition add_mime_type (file : ZipFile) : M unit :=
  writestr file "mimetype" MIMETYPE (Some ZIP_STORED).

Definition add_container (file : ZipFile) : M unit :=
  writestr file "META-INF/container.xml" CONTAINER_XML None.

Definition add_manifest (file : ZipFile) (manifest_data : string) : M unit :=
  writestr file "OEBPS/content.opf" manifest_data (Some ZIP_DEFLATED).

Definition add_navigation (file : ZipFile) (ncx_data : string) : M unit :=
  writestr file "OEBPS/toc.ncx" ncx_data (Some ZIP_DEFLATED).

Definition with_xml_manager (self : t) (xml_manager : EbookXMLManager.t) : t :=
  mk (name self) (pdfs_path self) (book_id self) (spine self) xml_manager (toc self)
     (manifest_items self) (output_name self) (pdf_files self).

Definition build (self : t) (epub_file : ZipFile) : M t :=
  '(ncx_data, xml_manager) <-
     lift (EbookXMLManager.build_ncx_data env (xml_manager self) (toc self)) ;;
  let '(manifest_data, xml_manager) :=
    EbookXMLManager.build_manifest_data env xml_manager (manifest_items self) (spine self) in
  add_manifest epub_file manifest_data ;;
  add_navigation epub_file ncx_data ;;
  ret (with_xml_manager self xml_manager).

(** The archive is closed when the [with] block is left, also by an
    exception: the file keeps the entries written until then. *)
Definition create_ebook (self : t) : M t :=
  print ("create_ebook: " ++ name self) ;;
  epub_file <- zip_open (output_name self) ;;
  add_mime_type epub_file ;;
  add_container epub_file ;;
  self <- for_fold (handle_chapter epub_file) (pdf_files self) self ;;
  self <- build self epub_file ;;
  print (EPUB_CREATED_MARK ++ " EPUB created: " ++ output_name self) ;;
  ret self.

End Methods.

End EbookManager.

(** ** The entry point *)

Section Start.
Variable env : Env.

Definition get_config_file : M Yaml :=
  config <- lift (config_yaml env) ;;
  if negb (truthy config) then lift (Raise (Exception "Can't load config"))
  else
    ebooks <- lift (yaml_get "ebooks" config) ;;
    if negb (truthy ebooks) then lift (Raise (Exception "Can't find ebooks section data"))
    else ret config.

(** [os.path.abspath(path)] takes a string. *)
Definition os_path_abspath (path : Yaml) : result string :=
  match path with
  | YStr s => Ok (abspath env s)
  | _ => Raise TypeError
  end.

(** The body of the loop of [start]. *)
Definition start_book (item : string * Yaml) : M unit :=
  let '(name, ebook_def) := item in
  path <- lift (yaml_get "path" ebook_def) ;;
  if negb (truthy path) then print ("skipping " ++ name ++ ", path is missing")
  else
    absolute_path <- lift (os_path_abspath path) ;;
    if negb (path_exists env absolute_path)
    then print ("skipping " ++ name ++ ", path doesn't exists")
    else
      ebook_manager <- EbookManager.init env name absolute_path ;;
      EbookManager.create_ebook env ebook_manager ;;
      ret tt.

Definition start : M unit :=
  config <- get_config_file ;;
  ebooks <- lift (yaml_get "ebooks" config) ;;
  items <- lift (yaml_items ebooks) ;;
  for_each start_book items.

End Start.

(** ** What a chapter and a book contribute, in closed form

    These definitions say what the loops of the program leave behind; the
    lemmas [create_chapter_eq], [chapters_loop_eq] and [create_ebook_eq]
    prove that the program computes exactly this. *)

Section ClosedForms.
Variable env : Env.

Definition all_digits (s : string) : bool :=
  forallb isdigit (list_ascii_of_string s).

Definition page_log (ch : ChapterData.t) (item : N * Image env) : string :=
  "creating: " ++ (ChapterData.chapter_title ch ++ " - Page " ++ str (fst item + 1)).

Definition page_files (ch : ChapterData.t) (item : N * Image env) : list ZipEntry :=
  let page_id := ChapterData.page_id_of (ChapterData.chapter_number ch) (fst item + 1) in
  [mkZipEntry ("OEBPS/" ++ (page_id ++ ".xhtml"))
     (HTML_PAGE_TEMPLATE_format (ChapterData.chapter_title ch) (fst item + 1)
        ("static/" ++ page_id ++ ".png"))
     ZIP_DEFLATED;
   mkZipEntry ("OEBPS/" ++ ("static/" ++ page_id ++ ".png"))
     (png_bytes env (snd item)) ZIP_DEFLATED].

(** The document entry and the image entry of a page. *)
Definition page_document (page_id : string) : ManifestItem.t :=
  ManifestItem.mk page_id (page_id ++ ".xhtml") "application/xhtml+xml".

Definition page_image (page_id : string) : ManifestItem.t :=
  ManifestItem.mk (page_id ++ "_img") ("static/" ++ page_id ++ ".png") "image/png".

Definition page_manifest (page_id : string) : list ManifestItem.t :=
  [page_document page_id; page_image page_id].

(** The page ids of a chapter with [n] pages: pages 1 to [n]. *)
Definition page_ids_upto (chapter_number : N) (n : nat) : list string :=
  map (fun k => ChapterData.page_id_of chapter_number (N.of_nat k)) (seq 1 n).

Definition chapter_page_ids (ch : ChapterData.t) (images : list (Image env)) : list string :=
  map (fun item => ChapterData.page_id_of (ChapterData.chapter_number ch) (fst item + 1))
      (enumerate images).

Definition chapter_files (ch : ChapterData.t) (images : list (Image env)) : list ZipEntry :=
  flat_map (page_files ch) (enumerate images).

Definition chapter_manifest (ch : ChapterData.t) (images : list (Image env))
    : list ManifestItem.t :=
  flat_map page_manifest (chapter_page_ids ch images).

Definition chapter_log (ch : ChapterData.t) (images : list (Image env)) : list string :=
  ("creating chapter: " ++ ChapterData.chapter_title ch ++ ", with "
   ++ str (len images) ++ " images")
  :: map (page_log ch) (enumerate images).

Definition chapter_toc (ch : ChapterData.t) (images : list (Image env)) : ChapterTOC.t :=
  ChapterTOC.mk (chapter_page_ids ch images) (ChapterData.chapter_title ch).

(** The chapters rendered before the first one that the renderer refuses,
    each with its pages, and the exception of that one. *)
Fixpoint rendered (chapters : list ChapterData.t)
    : list (ChapterData.t * list (Image env)) * option exn :=
  match chapters with
  | [] => ([], None)
  | ch :: chapters' =>
      match convert_from_path env (ChapterData.path ch) IMAGE_DPI with
      | Raise e => ([], Some e)
      | Ok images =>
          let (done, failure) := rendered chapters' in ((ch, images) :: done, failure)
      end
  end.

Definition book_page_ids (done : list (ChapterData.t * list (Image env))) : list string :=
  flat_map (fun ci => chapter_page_ids (fst ci) (snd ci)) done.

Definition book_files (done : list (ChapterData.t * list (Image env))) : list ZipEntry :=
  flat_map (fun ci => chapter_files (fst ci) (snd ci)) done.

Definition book_manifest (done : list (ChapterData.t * list (Image env)))
    : list ManifestItem.t :=
  flat_map (fun ci => chapter_manifest (fst ci) (snd ci)) done.

Definition book_log (done : list (ChapterData.t * list (Image env))) : list string :=
  flat_map (fun ci => chapter_log (fst ci) (snd ci)) done.

Definition book_toc (done : list (ChapterData.t * list (Image env))) : list ChapterTOC.t :=
  map (fun ci => chapter_toc (fst ci) (snd ci)) done.

(** The two entries that open every archive. *)
Definition archive_head : list ZipEntry :=
  [mkZipEntry "mimetype" MIMETYPE ZIP_STORED;
   mkZipEntry "META-INF/container.xml" CONTAINER_XML ZIP_STORED].

(** The [item] and [itemref] elements of the package document. *)
Definition item_element (m : ManifestItem.t) : Element :=
  Elem "item" (ManifestItem.to_xml_content_dict m) None [].

Definition ncx_item_element : Element :=
  Elem "item"
    [("id", "ncx"); ("href", "toc.ncx"); ("media-type", "application/x-dtbncx+xml")]
    None [].

Definition itemref_element (item_id : string) : Element :=
  Elem "itemref" [("idref", item_id)] None [].

End ClosedForms.

(** [disk_append], for several entries at once. *)
Definition disk_extend (file : string) (es : list ZipEntry) (d : Disk) : Disk :=
  map (fun kv => if fst kv =? file then (fst kv, (snd kv ++ es)%list) else kv) d.

(** The number of elements of [l] that satisfy [p]. *)
Definition count {A : Type} (p : A -> bool) (l : list A) : nat := List.length (filter p l).

Definition has_id (i : string) (e : Element) : bool :=
  match get_attr "id" e with Some j => j =? i | None => false end.

(** The keys of a list are in ascending order (equal keys may follow each other). *)
Fixpoint ascending (ks : list N) : bool :=
  match ks with
  | [] => true
  | k :: ks' =>
      match ks' with
      | [] => true
      | k' :: _ => (k <=? k')%N && ascending ks'
      end
  end.

(** The world after [log] was printed and [es] were written to the archive [file]. *)
Definition effects (log : list string) (file : string) (es : list ZipEntry) (w : World)
    : World :=
  mkWorld (stdout w ++ log)%list (disk_extend file es (disk w)) (uuid_calls w).

(** The manager after the chapters [done] were handled. *)
Definition absorb (env : Env) (self : EbookManager.t)
    (done : list (ChapterData.t * list (Image env))) : EbookManager.t :=
  EbookManager.mk (EbookManager.name self) (EbookManager.pdfs_path self)
    (EbookManager.book_id self)
    (EbookManager.spine self ++ book_page_ids env done)%list
    (EbookManager.xml_manager self)
    (EbookManager.toc self ++ book_toc env done)%list
    (EbookManager.manifest_items self ++ book_manifest env done)%list
    (EbookManager.output_name self) (EbookManager.pdf_files self).

(** A chapter entry with at least one page. *)
Definition has_page (chapter_toc : ChapterTOC.t) : bool :=
  match ChapterTOC.page_ids chapter_toc with [] => false | _ :: _ => true end.

(** The [navPoint] elements of the chapter entries [toc], the first of them
    with index [chapter_index] and play order [play_order]. *)
Fixpoint nav_points (chapter_index play_order : N) (toc : list ChapterTOC.t) : list Element :=
  match toc with
  | [] => []
  | chapter_toc :: toc' =>
      EbookXMLManager.nav_point chapter_index play_order
        (ChapterTOC.chapter_title chapter_toc)
        (hd EmptyString (ChapterTOC.page_ids chapter_toc) ++ ".xhtml")
      :: nav_points (chapter_index + 1) (play_order + 1) toc'
  end.

(** The navigation tree of a book: the tree of [build_ncx] with the
    [navMap] of [toc] as its last child. *)
Definition ncx_tree (ncx : Element) (toc : list ChapterTOC.t) : Element :=
  append_child ncx (Elem "navMap" [] None (nav_points 0 1 toc)).

(** The package tree of a book: the manifest and the spine filled in. *)
Definition package_manager (xm : EbookXMLManager.t) (manifest_items : list ManifestItem.t)
    (spine_items : list string) : EbookXMLManager.t :=
  EbookXMLManager.mk (EbookXMLManager.package_attrib xm) (EbookXMLManager.metadata xm)
    (Elem (tag (EbookXMLManager.manifest xm)) (attrib (EbookXMLManager.manifest xm))
          (text (EbookXMLManager.manifest xm))
          (children (EbookXMLManager.manifest xm)
           ++ ncx_item_element :: map item_element manifest_items)%list)
    (Elem (tag (EbookXMLManager.spine xm)) (attrib (EbookXMLManager.spine xm))
          (text (EbookXMLManager.spine xm))
          (children (EbookXMLManager.spine xm) ++ map itemref_element spine_items)%list)
    (EbookXMLManager.ncx xm).

(** The first and the last line that [create_ebook] prints. *)
Definition start_line (name : string) : string := "create_ebook: " ++ name.

Definition created_line (output_name : string) : string :=
  EPUB_CREATED_MARK ++ " EPUB created: " ++ output_name.

(** The two entries that close an archive. *)
Definition opf_entry (env : Env) (xm : EbookXMLManager.t) : ZipEntry :=
  mkZipEntry "OEBPS/content.opf"
    (EbookXMLManager.XML_DECL ++ tostring env (EbookXMLManager.package xm)) ZIP_DEFLATED.

Definition ncx_entry (env : Env) (xm : EbookXMLManager.t) : ZipEntry :=
  mkZipEntry "OEBPS/toc.ncx"
    (EbookXMLManager.XML_DECL_UTF8 ++ tostring env (EbookXMLManager.ncx xm)) ZIP_DEFLATED.

(** The XML manager of a book after [build]. *)
Definition final_xml (self : EbookManager.t) : EbookXMLManager.t :=
  let xm := EbookManager.xml_manager self in
  package_manager
    (EbookXMLManager.mk (EbookXMLManager.package_attrib xm) (EbookXMLManager.metadata xm)
       (EbookXMLManager.manifest xm) (EbookXMLManager.spine xm)
       (ncx_tree (EbookXMLManager.ncx xm) (EbookManager.toc self)))
    (EbookManager.manifest_items self) (EbookManager.spine self).

(** The world when the build of [self] stops after the chapters [done]. *)
Definition partial_world (env : Env) (self : EbookManager.t)
    (done : list (ChapterData.t * list (Image env))) (w : World) : World :=
  mkWorld (stdout w ++ start_line (EbookManager.name self) :: book_log env done)%list
    ((EbookManager.output_name self, (archive_head ++ book_files env done)%list)
     :: disk_remove (EbookManager.output_name self) (disk w))
    (uuid_calls w).

(** The world when the build of [self] is complete. *)
Definition complete_world (env : Env) (self : EbookManager.t)
    (done : list (ChapterData.t * list (Image env))) (w : World) : World :=
  let xm := final_xml (absorb env self done) in
  mkWorld
    (stdout w ++ start_line (EbookManager.name self) :: book_log env done
     ++ [created_line (EbookManager.output_name self)])%list
    ((EbookManager.output_name self,
      (archive_head ++ book_files env done ++ [opf_entry env xm; ncx_entry env xm])%list)
     :: disk_remove (EbookManager.output_name self) (disk w))
    (uuid_calls w).

(** [ch] is what [ChapterData] makes of a chapter file of the directory. *)
Definition made_from (pdfs_path : string) (files : list string) (ch : ChapterData.t) : Prop :=
  exists pdf_file,
    In pdf_file files /\ endswith pdf_file ".pdf" = true
    /\ ChapterData.init pdf_file (path_join pdfs_path pdf_file) = Ok ch.

(** The number that [ChapterData] reads in a file name, when there is one. *)
Definition parsable (pdf_file : string) : bool :=
  has_digit (strip (replace ".pdf" EmptyString (replace "Ch" EmptyString pdf_file))).

(** The manager that [EbookManager.init] returns for the chapters [pdf_files]. *)
Definition fresh_manager (name pdfs_path book_id : string) (pdf_files : list ChapterData.t)
    : EbookManager.t :=
  EbookManager.mk name pdfs_path book_id [] (EbookXMLManager.init book_id name) [] []
    (name ++ ".epub") pdf_files.

(** The world after one more identifier was drawn. *)
Definition after_uuid4 (w : World) : World :=
  mkWorld (stdout w) (disk w) (S (uuid_calls w)).

(** The world after one more line was printed. *)
Definition after_print (line : string) (w : World) : World :=
  mkWorld (stdout w ++ [line])%list (disk w) (uuid_calls w).

(** The manager of a fresh book after a complete build that rendered [done]. *)
Definition built_manager (env : Env) (name pdfs_path book_id : string)
    (pdf_files : list ChapterData.t) (done : list (ChapterData.t * list (Image env)))
    : EbookManager.t :=
  EbookManager.mk name pdfs_path book_id (book_page_ids env done)
    (EbookXMLManager.mk (EbookXMLManager.create_package book_id)
       (EbookXMLManager.create_metadata name book_id)
       (Elem "manifest" [] None (ncx_item_element :: map item_element (book_manifest env done)))
       (Elem "spine" [("toc", "ncx")] None (map itemref_element (book_page_ids env done)))
       (ncx_tree (EbookXMLManager.build_ncx name book_id) (book_toc env done)))
    (book_toc env done) (book_manifest env done) (name ++ ".epub") pdf_files.

(** A string of the form [chapter_{n}_page_{k}]. *)
Definition is_page_id (s : string) : Prop :=
  exists n k : N, s = ChapterData.page_id_of n k.

(** The names of the two archive entries of a page. *)
Definition page_entry_names (page_id : string) : list string :=
  ["OEBPS/" ++ page_id ++ ".xhtml"; "OEBPS/static/" ++ page_id ++ ".png"].


(** A page id is listed once in the spine and twice in the manifest: as the
    id of its document entry and, with [_img], as the id of its image entry;
    the entry that carries the page id itself is the document entry. *)
Definition page_listed (page_id : string) (spine : list string) (manifest : list Element)
    : Prop :=
  count_occ string_dec spine page_id = 1
  /\ count (has_id page_id) manifest = 1
  /\ count (has_id (page_id ++ "_img")) manifest = 1
  /\ count (fun e => has_id page_id e || has_id (page_id ++ "_img") e) manifest = 2
  /\ In (Elem "item"
           [("id", page_id); ("href", page_id ++ ".xhtml");
            ("media-type", "application/xhtml+xml")] None []) manifest
  /\ In (Elem "item"
           [("id", page_id ++ "_img"); ("href", "static/" ++ page_id ++ ".png");
            ("media-type", "image/png")] None []) manifest
  /\ (forall e, In e manifest -> has_id page_id e = true ->
                e = Elem "item"
                      [("id", page_id); ("href", page_id ++ ".xhtml");
                       ("media-type", "application/xhtml+xml")] None []).



(** ** A sample machine

    A small file system, renderer and serializer on which the program can be
    run by evaluation. *)

Module Sample.

(** A serializer that writes every element with its attributes, text and
    children (without the escapes of the library). *)
Fixpoint show (e : Element) : string :=
  match e with
  | Elem t a x c =>
      "<" ++ t
      ++ String.concat EmptyString (map (fun kv => " " ++ fst kv ++ "=" ++ dq ++ snd kv ++ dq) a)
      ++ ">"
      ++ match x with Some s => s | None => EmptyString end
      ++ String.concat EmptyString (map show c)
      ++ "</" ++ t ++ ">"
  end.

(** The directories of the sample machine and their entries. *)
Definition directories : list (string * list string) :=
  [("/books/manga", ["Ch2.pdf"; "notes.txt"; "Ch1.pdf"]);
   ("/books/volumes", ["Vol2Ch1.pdf"; "Vol1Ch10.pdf"]);
   ("/books/nodigits", ["cover.pdf"]);
   ("/books/broken", ["Ch1.pdf"; "Ch2.pdf"]);
   ("/books/empty", ["readme.txt"]);
   ("/books/blank", ["Ch1.pdf"])].

(** The pages of each PDF file, a page being a number; a file that is not
    listed cannot be rendered. *)
Definition documents : list (string * list nat) :=
  [("/books/manga/Ch1.pdf", [11; 12]);
   ("/books/manga/Ch2.pdf", [21; 22; 23]);
   ("/books/volumes/Vol1Ch10.pdf", [110]);
   ("/books/volumes/Vol2Ch1.pdf", [21]);
   ("/books/broken/Ch1.pdf", [1]);
   ("/books/blank/Ch1.pdf", [])].

Definition env (config : result Yaml) : Env :=
  mkEnv nat
    (fun path _ => match assoc path documents with Some pages => Ok pages | None => Raise PDFError end)
    (fun page => "PNG" ++ str (N.of_nat page))
    show
    (fun path => match assoc path directories with Some files => Ok files | None => Raise OSError end)
    (fun path => match assoc path directories with Some _ => true | None => false end)
    (fun path => path)
    (fun n => "uuid" ++ str (N.of_nat n))
    config.

Definition config_of (ebooks : list (string * Yaml)) : result Yaml :=
  Ok (YDict [("ebooks", YDict ebooks)]).

Definition book (name path : string) : string * Yaml := (name, YDict [("path", YStr path)]).

Definition world0 : World := mkWorld [] [] 0.

(** An archive written by an earlier run. *)
Definition old_archive : list ZipEntry :=
  [mkZipEntry "mimetype" MIMETYPE ZIP_STORED;
   mkZipEntry "META-INF/container.xml" CONTAINER_XML ZIP_STORED;
   mkZipEntry "OEBPS/content.opf" "old package document" ZIP_DEFLATED;
   mkZipEntry "OEBPS/toc.ncx" "old navigation document" ZIP_DEFLATED].

(** The book of the directory [/books/manga] after the constructor. *)
Definition manga_chapters : list ChapterData.t :=
  [ChapterData.mk "Ch1.pdf" "/books/manga/Ch1.pdf" 1 "Chapter 1";
   ChapterData.mk "Ch2.pdf" "/books/manga/Ch2.pdf" 2 "Chapter 2"].

Definition manga_self : EbookManager.t :=
  fresh_manager "manga" "/books/manga" "uuid0" manga_chapters.

(** A machine without a configuration file, for the builds of single books. *)
Definition machine : Env := env (Raise OSError).

(** A book with a chapter file without a number, configured before a book
    that can be built. *)
Definition config_unparsable_first : result Yaml :=
  config_of [book "nodigits" "/books/nodigits"; book "manga" "/books/manga"].

Definition config_manga : result Yaml := config_of [book "manga" "/books/manga"].

(** A book whose second chapter cannot be rendered, and a world in which an
    archive of that book exists already. *)
Definition config_broken : result Yaml := config_of [book "broken" "/books/broken"].

Definition world_with_old_archive : World := mkWorld [] [("broken.epub", old_archive)] 0.

(** A book whose directory holds no chapter file. *)
Definition config_empty_directory : result Yaml := config_of [book "empty" "/books/empty"].

(** A book without a path and a book whose path does not exist, configured
    before a book that can be built. *)
Definition config_skips : result Yaml :=
  config_of [("nopath", YDict [("title", YStr "No path")]);
             book "ghost" "/books/ghost";
             book "manga" "/books/manga"].

End Sample.

(** ** Further notions used in the properties *)

(** The digits of a string, in their order. *)
Fixpoint digits_of (s : string) : string :=
  match s with
  | EmptyString => EmptyString
  | String c s' => if isdigit c then String c (digits_of s') else digits_of s'
  end.

(** The name as [ChapterData] reads it: without [Ch], without [.pdf],
    without blanks at its ends. *)
Definition cleaned (name : string) : string :=
  strip (replace ".pdf" EmptyString (replace "Ch" EmptyString name)).

(** What [replace] still has to drop of an occurrence of [old] it found: the
    next [skip] characters of the string are the last [skip] characters of
    [old], here a string [t] without digit. *)
Definition dropping (skip : nat) (s t : string) : Prop :=
  String.length t = skip /\ has_digit t = false /\ startswith s t = true.


(** The digits of a file name stand in one run: the match of [\d+] holds
    all of them. *)
Definition single_run (name : string) : bool :=
  match search_digits name with
  | Some d => d =? digits_of name
  | None => false
  end.

(** [name.endswith(".pdf")], the test of [init_pdf_list]. *)
Definition is_pdf (name : string) : bool := endswith name ".pdf".

(** What two builds of a book have in common when they differ in the
    identifier of the book only: the result, up to the identifier. *)
Definition same_structure (r1 r2 : result EbookManager.t) : Prop :=
  match r1, r2 with
  | Ok s1, Ok s2 =>
      EbookManager.spine s1 = EbookManager.spine s2
      /\ EbookManager.toc s1 = EbookManager.toc s2
      /\ EbookManager.manifest_items s1 = EbookManager.manifest_items s2
      /\ EbookXMLManager.manifest (EbookManager.xml_manager s1)
         = EbookXMLManager.manifest (EbookManager.xml_manager s2)
      /\ EbookXMLManager.spine (EbookManager.xml_manager s1)
         = EbookXMLManager.spine (EbookManager.xml_manager s2)
      /\ nth_error (children (EbookXMLManager.ncx (EbookManager.xml_manager s1))) 2
         = nth_error (children (EbookXMLManager.ncx (EbookManager.xml_manager s2))) 2
  | Raise e1, Raise e2 => e1 = e2
  | _, _ => False
  end.

(** The name and the compression of every entry of an archive. *)
Definition layout (archive : option (list ZipEntry)) : option (list (string * Compression)) :=
  option_map (map (fun e => (arcname e, compress_type e))) archive.

(** The values of the attribute [key] of the elements [es], in their order. *)
Definition attr_values (key : string) (es : list Element) : list string :=
  flat_map (fun e => match get_attr key e with Some v => [v] | None => [] end) es.

(** The [src] of every [content] element under a [navPoint] of a [navMap]
    of the navigation tree. *)
Definition nav_sources (ncx : Element) : list string :=
  attr_values "src"
    (flat_map children
       (flat_map children (filter (fun e => tag e =? "navMap") (children ncx)))).

(** The sort key of the file name [name] is [k]. *)
Definition key_is (k : N) (name : string) : bool :=
  match search_digits name with
  | Some d => (int d =? k)%N
  | None => false
  end.

(** * Properties *)

(** ** The built-ins on examples *)

Example replace_Ch : Py.replace "Ch" "" "Ch1Ch5.pdf" = "15.pdf".
Proof. reflexivity. Qed.

Example replace_overlap : Py.replace "aa" "b" "aaaaa" = "bba".
Proof. reflexivity. Qed.

Example strip_both : Py.strip "  Ch 12 " = "Ch 12".
Proof. reflexivity. Qed.

Example endswith_pdf : Py.endswith "Ch1.pdf" ".pdf" = true /\ Py.endswith "Ch1.pdf.bak" ".pdf" = false.
Proof. split; reflexivity. Qed.

Example search_first_run : Py.search_digits "Vol2Ch013.pdf" = Some "2".
Proof. reflexivity. Qed.

Example int_leading_zeros : Py.int "013" = 13%N.
Proof. reflexivity. Qed.

Example str_120 : Py.str 120 = "120" /\ Py.str 0 = "0".
Proof. split; reflexivity. Qed.


(** ** Strings *)

Lemma append_nil_r (s : string) : s ++ EmptyString = s.
Proof. induction s as [|c s IH]; simpl; [reflexivity | now rewrite IH]. Qed.

Lemma append_assoc (a b c : string) : (a ++ b) ++ c = a ++ (b ++ c).
Proof. induction a as [|x a IH]; simpl; [reflexivity | now rewrite IH]. Qed.

Lemma length_append (a b : string) :
  String.length (a ++ b) = String.length a + String.length b.
Proof. induction a as [|x a IH]; simpl; [reflexivity | now rewrite IH]. Qed.

Lemma append_inj_l (a b c : string) : a ++ b = a ++ c -> b = c.
Proof. induction a as [|x a IH]; simpl; intros H; [exact H | injection H as H; auto]. Qed.

Lemma append_inj_r (a b c : string) : a ++ c = b ++ c -> a = b.
Proof.
  revert b; induction a as [|x a IH]; intros [|y b] H; simpl in H.
  - reflexivity.
  - apply (f_equal String.length) in H; simpl in H; rewrite length_append in H; lia.
  - apply (f_equal String.length) in H; simpl in H; rewrite length_append in H; lia.
  - injection H as -> H. f_equal. now apply IH.
Qed.

Lemma all_digits_cons (c : ascii) (s : string) :
  all_digits (String c s) = isdigit c && all_digits s.
Proof. reflexivity. Qed.

Lemma all_digits_append (a b : string) :
  all_digits (a ++ b) = all_digits a && all_digits b.
Proof.
  induction a as [|x a IH]; simpl; [reflexivity|].
  rewrite !all_digits_cons, IH. now rewrite andb_assoc.
Qed.

Lemma string_of_uint_digits (d : uint) : all_digits (NilEmpty.string_of_uint d) = true.
Proof. induction d; simpl; try reflexivity; rewrite all_digits_cons, IHd; reflexivity. Qed.

Lemma str_digits (n : N) : all_digits (str n) = true.
Proof. apply string_of_uint_digits. Qed.

Lemma str_inj (n m : N) : str n = str m -> n = m.
Proof.
  unfold str; intros H.
  apply DecimalN.Unsigned.to_uint_inj.
  assert (E : Some (N.to_uint n) = Some (N.to_uint m))
    by (rewrite <- !NilEmpty.usu; now rewrite H).
  now injection E.
Qed.

(** Two strings that start with digits and go on with a character that is no
    digit split in one way only. *)
Lemma digits_split (a a' : string) (c c' : ascii) (r r' : string) :
  all_digits a = true -> all_digits a' = true ->
  isdigit c = false -> isdigit c' = false ->
  a ++ String c r = a' ++ String c' r' -> a = a' /\ r = r'.
Proof.
  revert a'; induction a as [|x a IH]; intros [|y a'] Ha Ha' Hc Hc' H; simpl in H.
  - injection H as _ H. auto.
  - injection H as -> _. rewrite all_digits_cons in Ha'.
    apply andb_true_iff in Ha' as [Hy _]. congruence.
  - injection H as -> _. rewrite all_digits_cons in Ha.
    apply andb_true_iff in Ha as [Hx _]. congruence.
  - injection H as -> H. rewrite all_digits_cons in Ha, Ha'.
    apply andb_true_iff in Ha as [_ Ha]. apply andb_true_iff in Ha' as [_ Ha'].
    destruct (IH a' Ha Ha' Hc Hc' H) as [-> ->]. auto.
Qed.

(** [replace] leaves a string without a blank as it is. *)
Lemma replace_space_cons (c : ascii) (s : string) :
  replace_from " " EmptyString 0 (String c s)
  = if (" " =? c)%char then replace_from " " EmptyString 0 s
    else String c (replace_from " " EmptyString 0 s).
Proof.
  cbn [replace_from startswith]. rewrite ?andb_true_r.
  destruct (" " =? c)%char; reflexivity.
Qed.

Lemma replace_space_free (s : string) :
  forallb (fun c => negb (c =? " ")%char) (list_ascii_of_string s) = true ->
  replace " " EmptyString s = s.
Proof.
  unfold replace. induction s as [|c s IH]; [reflexivity|].
  cbn [list_ascii_of_string forallb]. intros H. apply andb_true_iff in H as [Hc Hs].
  rewrite replace_space_cons, Ascii.eqb_sym.
  apply negb_true_iff in Hc. rewrite Hc. now rewrite IH.
Qed.

Lemma no_space_append (a b : string) :
  forallb (fun c => negb (c =? " ")%char) (list_ascii_of_string (a ++ b))
  = forallb (fun c => negb (c =? " ")%char) (list_ascii_of_string a)
    && forallb (fun c => negb (c =? " ")%char) (list_ascii_of_string b).
Proof.
  induction a as [|x a IH]; simpl; [reflexivity|]. rewrite IH. now rewrite andb_assoc.
Qed.

Lemma digits_no_space (s : string) :
  all_digits s = true ->
  forallb (fun c => negb (c =? " ")%char) (list_ascii_of_string s) = true.
Proof.
  induction s as [|c s IH]; simpl; [reflexivity|].
  rewrite all_digits_cons. intros H. apply andb_true_iff in H as [Hc Hs].
  rewrite (IH Hs), andb_true_r.
  destruct (c =? " ")%char eqn:E; [|reflexivity].
  apply Ascii.eqb_eq in E; subst c. discriminate.
Qed.

(** The page id is the text of the f-string: it has no blank to remove. *)
Lemma page_id_of_eq (n k : N) :
  ChapterData.page_id_of n k = "chapter_" ++ str n ++ "_page_" ++ str k.
Proof.
  unfold ChapterData.page_id_of. apply replace_space_free.
  rewrite !no_space_append.
  rewrite (digits_no_space (str n)), (digits_no_space (str k)) by apply str_digits.
  reflexivity.
Qed.

Lemma page_id_of_inj (n k n' k' : N) :
  ChapterData.page_id_of n k = ChapterData.page_id_of n' k' -> n = n' /\ k = k'.
Proof.
  rewrite !page_id_of_eq. intros H.
  apply append_inj_l in H.
  apply digits_split in H as [Hn Hk]; try apply str_digits; try reflexivity.
  apply (append_inj_l "page_") in Hk.
  split; now apply str_inj.
Qed.

Lemma page_id_of_not_img (n k n' k' : N) :
  ChapterData.page_id_of n k <> ChapterData.page_id_of n' k' ++ "_img".
Proof.
  rewrite !page_id_of_eq. intros H.
  change (("chapter_" ++ str n' ++ "_page_" ++ str k') ++ "_img")
    with ("chapter_" ++ ((str n' ++ "_page_" ++ str k') ++ "_img")) in H.
  apply append_inj_l in H.
  rewrite append_assoc in H.
  apply digits_split in H as [_ Hk]; try apply str_digits; try reflexivity.
  change (("page_" ++ str k') ++ "_img") with ("page_" ++ (str k' ++ "_img")) in Hk.
  apply (append_inj_l "page_") in Hk.
  pose proof (str_digits k) as D. rewrite Hk, all_digits_append in D.
  apply andb_true_iff in D as [_ D]. discriminate.
Qed.

Lemma page_id_of_not_ncx (n k : N) : ChapterData.page_id_of n k <> "ncx".
Proof. rewrite page_id_of_eq. discriminate. Qed.

Lemma page_id_img_not_ncx (n k : N) : ChapterData.page_id_of n k ++ "_img" <> "ncx".
Proof. rewrite page_id_of_eq. discriminate. Qed.

(** ** The files written and the world *)

Lemma disk_append_extend (file : string) (e : ZipEntry) (d : Disk) :
  disk_append file e d = disk_extend file [e] d.
Proof. reflexivity. Qed.

Lemma disk_extend_nil (file : string) (d : Disk) : disk_extend file [] d = d.
Proof.
  unfold disk_extend. induction d as [|[k v] d IH]; simpl; [reflexivity|].
  rewrite IH, app_nil_r. now destruct (k =? file).
Qed.

Lemma disk_extend_extend (file : string) (es1 es2 : list ZipEntry) (d : Disk) :
  disk_extend file es2 (disk_extend file es1 d) = disk_extend file (es1 ++ es2) d.
Proof.
  unfold disk_extend. rewrite map_map. apply map_ext. intros [k v]; simpl.
  destruct (k =? file) eqn:E; simpl; [|now rewrite E].
  now rewrite E, app_assoc.
Qed.

Lemma disk_extend_remove (file : string) (es : list ZipEntry) (d : Disk) :
  disk_extend file es (disk_remove file d) = disk_remove file d.
Proof.
  unfold disk_extend, disk_remove. induction d as [|[k v] d IH]; simpl; [reflexivity|].
  destruct (k =? file) eqn:E; simpl; [exact IH|]. now rewrite E, IH.
Qed.

Lemma disk_extend_create (file : string) (es : list ZipEntry) (d : Disk) :
  disk_extend file es (disk_create file d) = (file, es) :: disk_remove file d.
Proof.
  unfold disk_create. change (disk_extend file es ((file, []) :: disk_remove file d))
    with ((if file =? file then (file, es) else (file, []))
          :: disk_extend file es (disk_remove file d)).
  now rewrite String.eqb_refl, disk_extend_remove.
Qed.

Lemma disk_read_remove (file : string) (d : Disk) :
  disk_read file (disk_remove file d) = None.
Proof.
  unfold disk_read, disk_remove. induction d as [|[k v] d IH]; simpl; [reflexivity|].
  destruct (k =? file) eqn:E; simpl; [exact IH|]. now rewrite E.
Qed.

Lemma disk_read_remove_other (file other : string) (d : Disk) :
  other <> file -> disk_read other (disk_remove file d) = disk_read other d.
Proof.
  intros N. unfold disk_read, disk_remove.
  induction d as [|[k v] d IH]; simpl; [reflexivity|].
  destruct (k =? file) eqn:E; simpl.
  - apply String.eqb_eq in E; subst k.
    destruct (file =? other) eqn:F; [apply String.eqb_eq in F; congruence | exact IH].
  - now rewrite IH.
Qed.

Lemma effects_nil (file : string) (w : World) : effects [] file [] w = w.
Proof. unfold effects. rewrite app_nil_r, disk_extend_nil. now destruct w. Qed.

Lemma effects_effects (l1 l2 : list string) (file : string) (e1 e2 : list ZipEntry)
    (w : World) :
  effects l2 file e2 (effects l1 file e1 w) = effects (l1 ++ l2) file (e1 ++ e2) w.
Proof. unfold effects; simpl. now rewrite app_assoc, disk_extend_extend. Qed.

(** ** The monad *)

Lemma bind_ok {A B : Type} (m : M A) (k : A -> M B) (w w' : World) (a : A) :
  m w = (w', Ok a) -> bind m k w = k a w'.
Proof. unfold bind; now intros ->. Qed.

Lemma bind_raise {A B : Type} (m : M A) (k : A -> M B) (w w' : World) (e : exn) :
  m w = (w', Raise e) -> bind m k w = (w', Raise e).
Proof. unfold bind; now intros ->. Qed.

Lemma for_each_app {A : Type} (body : A -> M unit) (xs ys : list A) (w w' : World) :
  for_each body xs w = (w', Ok tt) ->
  for_each body (xs ++ ys) w = for_each body ys w'.
Proof.
  revert w; induction xs as [|x xs IH]; intros w; simpl.
  - unfold ret. now intros [= ->].
  - unfold bind. destruct (body x w) as [w1 [[]|e]]; [apply IH | discriminate].
Qed.

(** ** A chapter *)

Section Chapter.
Variable env : Env.

Lemma create_page_eq (ch : ChapterData.t) (zf : ZipFile)
    (manifest_items : list ManifestItem.t) (page_ids : list string)
    (item : N * Image env) (w : World) :
  ChapterData.create_page env ch zf (manifest_items, page_ids) item w
  = (effects [page_log env ch item] (filename zf) (page_files env ch item) w,
     Ok (manifest_items
           ++ page_manifest (ChapterData.page_id_of (ChapterData.chapter_number ch) (fst item + 1)),
         page_ids ++ [ChapterData.page_id_of (ChapterData.chapter_number ch) (fst item + 1)])%list).
Proof.
  destruct item as [index image]. unfold ChapterData.create_page, effects.
  unfold bind, print, writestr, ret; simpl stdout; simpl disk; simpl uuid_calls.
  rewrite !disk_append_extend, disk_extend_extend, <- app_assoc.
  reflexivity.
Qed.

Lemma create_pages_eq (ch : ChapterData.t) (zf : ZipFile)
    (items : list (N * Image env)) :
  forall (manifest_items : list ManifestItem.t) (page_ids : list string) (w : World),
  for_fold (ChapterData.create_page env ch zf) items (manifest_items, page_ids) w
  = (effects (map (page_log env ch) items) (filename zf)
       (flat_map (page_files env ch) items) w,
     Ok (manifest_items
           ++ flat_map page_manifest
                (map (fun item =>
                        ChapterData.page_id_of (ChapterData.chapter_number ch) (fst item + 1))
                     items),
         page_ids
           ++ map (fun item =>
                     ChapterData.page_id_of (ChapterData.chapter_number ch) (fst item + 1))
                  items)%list).
Proof.
  induction items as [|item items IH]; intros manifest_items page_ids w.
  - simpl. unfold ret. now rewrite effects_nil, !app_nil_r.
  - cbn [for_fold]. erewrite bind_ok by apply create_page_eq.
    rewrite IH, effects_effects. cbn [map flat_map].
    now rewrite <- !app_assoc.
Qed.

Lemma create_chapter_eq (ch : ChapterData.t) (zf : ZipFile) (w : World) :
  ChapterData.create_chapter env ch zf w
  = match convert_from_path env (ChapterData.path ch) IMAGE_DPI with
    | Raise e => (w, Raise e)
    | Ok images =>
        (effects (chapter_log env ch images) (filename zf) (chapter_files env ch images) w,
         Ok (chapter_manifest env ch images, chapter_page_ids env ch images))
    end.
Proof.
  unfold ChapterData.create_chapter, bind at 1, lift.
  destruct (convert_from_path env (ChapterData.path ch) IMAGE_DPI) as [images|e];
    [|reflexivity].
  unfold bind, print. rewrite create_pages_eq.
  unfold effects, chapter_log; simpl. now rewrite <- app_assoc.
Qed.

End Chapter.

(** ** The navigation and the package document *)

Lemma build_nav_map_eq (toc : list ChapterTOC.t) :
  forall (nav_map : Element) (play_order chapter_index : N),
  EbookXMLManager.build_nav_map nav_map play_order (enumerate_from chapter_index toc)
  = if forallb has_page toc
    then Ok (Elem (tag nav_map) (attrib nav_map) (text nav_map)
               (children nav_map ++ nav_points chapter_index play_order toc))
    else Raise IndexError.
Proof.
  induction toc as [|c toc IH]; intros nav_map play_order chapter_index.
  - simpl. rewrite app_nil_r. now destruct nav_map.
  - cbn [enumerate_from EbookXMLManager.build_nav_map forallb nav_points].
    destruct c as [[|page_id rest] title]; [reflexivity|].
    cbn [EbookXMLManager.first_page_id has_page ChapterTOC.page_ids
         ChapterTOC.chapter_title andb hd].
    rewrite IH. destruct (forallb has_page toc); [|reflexivity].
    unfold append_child; simpl. now rewrite <- app_assoc.
Qed.

Lemma build_ncx_data_eq (env : Env) (xm : EbookXMLManager.t) (toc : list ChapterTOC.t) :
  EbookXMLManager.build_ncx_data env xm toc
  = if forallb has_page toc
    then Ok (EbookXMLManager.XML_DECL_UTF8
               ++ tostring env (ncx_tree (EbookXMLManager.ncx xm) toc),
             EbookXMLManager.mk (EbookXMLManager.package_attrib xm)
               (EbookXMLManager.metadata xm) (EbookXMLManager.manifest xm)
               (EbookXMLManager.spine xm) (ncx_tree (EbookXMLManager.ncx xm) toc))
    else Raise IndexError.
Proof.
  unfold EbookXMLManager.build_ncx_data, enumerate. rewrite build_nav_map_eq.
  destruct (forallb has_page toc); reflexivity.
Qed.

Lemma fold_create_manifest_item (items : list ManifestItem.t) :
  forall xm : EbookXMLManager.t,
  fold_left (fun self manifest_item =>
               EbookXMLManager.create_manifest_item self
                 (ManifestItem.to_xml_content_dict manifest_item))
            items xm
  = EbookXMLManager.mk (EbookXMLManager.package_attrib xm) (EbookXMLManager.metadata xm)
      (Elem (tag (EbookXMLManager.manifest xm)) (attrib (EbookXMLManager.manifest xm))
            (text (EbookXMLManager.manifest xm))
            (children (EbookXMLManager.manifest xm) ++ map item_element items))
      (EbookXMLManager.spine xm) (EbookXMLManager.ncx xm).
Proof.
  induction items as [|m items IH]; intros xm; simpl.
  - rewrite app_nil_r. destruct xm as [a md [t at' tx c] sp nx]; reflexivity.
  - rewrite IH. unfold EbookXMLManager.create_manifest_item, append_child; simpl.
    now rewrite <- app_assoc.
Qed.

Lemma fold_create_itemref (ids : list string) :
  forall xm : EbookXMLManager.t,
  fold_left EbookXMLManager.create_itemref ids xm
  = EbookXMLManager.mk (EbookXMLManager.package_attrib xm) (EbookXMLManager.metadata xm)
      (EbookXMLManager.manifest xm)
      (Elem (tag (EbookXMLManager.spine xm)) (attrib (EbookXMLManager.spine xm))
            (text (EbookXMLManager.spine xm))
            (children (EbookXMLManager.spine xm) ++ map itemref_element ids))
      (EbookXMLManager.ncx xm).
Proof.
  induction ids as [|i ids IH]; intros xm; simpl.
  - rewrite app_nil_r. destruct xm as [a md mf [t at' tx c] nx]; reflexivity.
  - rewrite IH. unfold EbookXMLManager.create_itemref, append_child; simpl.
    now rewrite <- app_assoc.
Qed.

Lemma build_manifest_data_eq (env : Env) (xm : EbookXMLManager.t)
    (manifest_items : list ManifestItem.t) (spine_items : list string) :
  EbookXMLManager.build_manifest_data env xm manifest_items spine_items
  = (EbookXMLManager.XML_DECL
       ++ tostring env (EbookXMLManager.package (package_manager xm manifest_items spine_items)),
     package_manager xm manifest_items spine_items).
Proof.
  unfold EbookXMLManager.build_manifest_data.
  rewrite fold_create_itemref, fold_create_manifest_item.
  unfold package_manager, EbookXMLManager.create_manifest_item, append_child; simpl.
  now rewrite <- app_assoc.
Qed.

(** ** A book *)

Section Book.
Variable env : Env.

Lemma absorb_nil (self : EbookManager.t) : absorb env self [] = self.
Proof. unfold absorb; simpl. rewrite !app_nil_r. now destruct self. Qed.

Lemma handle_chapter_eq (zf : ZipFile) (self : EbookManager.t) (ch : ChapterData.t)
    (w : World) :
  EbookManager.handle_chapter env zf self ch w
  = match convert_from_path env (ChapterData.path ch) IMAGE_DPI with
    | Raise e => (w, Raise e)
    | Ok images =>
        (effects (chapter_log env ch images) (filename zf) (chapter_files env ch images) w,
         Ok (absorb env self [(ch, images)]))
    end.
Proof.
  unfold EbookManager.handle_chapter, bind. rewrite create_chapter_eq.
  destruct (convert_from_path env (ChapterData.path ch) IMAGE_DPI) as [images|e];
    [|reflexivity].
  unfold ret, absorb, book_page_ids, book_toc, book_manifest; simpl.
  now rewrite !app_nil_r.
Qed.

Lemma absorb_cons (self : EbookManager.t) (ci : ChapterData.t * list (Image env))
    (done : list (ChapterData.t * list (Image env))) :
  absorb env (absorb env self [ci]) done = absorb env self (ci :: done).
Proof.
  unfold absorb, book_page_ids, book_toc, book_manifest; simpl.
  now rewrite !app_nil_r, <- !app_assoc.
Qed.

(** The loop over the chapters stops at the first chapter that cannot be
    rendered; the pages of the chapters before it are written. *)
Lemma chapters_loop_eq (zf : ZipFile) (chapters : list ChapterData.t) :
  forall (self : EbookManager.t) (w : World),
  for_fold (EbookManager.handle_chapter env zf) chapters self w
  = (effects (book_log env (fst (rendered env chapters))) (filename zf)
       (book_files env (fst (rendered env chapters))) w,
     match snd (rendered env chapters) with
     | Some e => Raise e
     | None => Ok (absorb env self (fst (rendered env chapters)))
     end).
Proof.
  induction chapters as [|ch chapters IH]; intros self w.
  - simpl. unfold ret. now rewrite effects_nil, absorb_nil.
  - cbn [for_fold rendered]. unfold bind at 1. rewrite handle_chapter_eq.
    destruct (convert_from_path env (ChapterData.path ch) IMAGE_DPI) as [images|e].
    + rewrite IH, effects_effects.
      destruct (rendered env chapters) as [done failure]; simpl fst; simpl snd.
      unfold book_log, book_files; cbn [flat_map fst snd].
      destruct failure; [reflexivity|]. now rewrite absorb_cons.
    + simpl. now rewrite effects_nil.
Qed.

(** [create_ebook], in closed form: the build stops at the first chapter
    that cannot be rendered, or at the navigation when a chapter has no
    page, and is complete otherwise. *)
Lemma create_ebook_eq (self : EbookManager.t) (w : World) :
  let done := fst (rendered env (EbookManager.pdf_files self)) in
  EbookManager.create_ebook env self w
  = match snd (rendered env (EbookManager.pdf_files self)) with
    | Some e => (partial_world env self done w, Raise e)
    | None =>
        if forallb has_page (EbookManager.toc (absorb env self done))
        then (complete_world env self done w,
              Ok (EbookManager.with_xml_manager (absorb env self done)
                    (final_xml (absorb env self done))))
        else (partial_world env self done w, Raise IndexError)
    end.
Proof.
  intros done. unfold partial_world, complete_world.
  set (file := EbookManager.output_name self).
  unfold EbookManager.create_ebook.
  unfold bind at 1, print at 1.
  unfold bind at 1, zip_open at 1; cbn [stdout disk uuid_calls].
  unfold bind at 1, EbookManager.add_mime_type, writestr at 1;
    cbn [stdout disk uuid_calls filename compression].
  unfold bind at 1, EbookManager.add_container, writestr at 1;
    cbn [stdout disk uuid_calls filename compression].
  rewrite !disk_append_extend, disk_extend_extend, disk_extend_create.
  unfold bind at 1. rewrite chapters_loop_eq. fold done.
  unfold effects; cbn [stdout disk uuid_calls filename].
  assert (E : forall es es', disk_extend file es' ((file, es) :: disk_remove file (disk w))
                             = (file, (es ++ es')%list) :: disk_remove file (disk w)).
  { intros es es'. unfold disk_extend at 1. cbn [map fst snd].
    rewrite String.eqb_refl. f_equal. apply disk_extend_remove. }
  rewrite E, <- app_assoc.
  destruct (snd (rendered env (EbookManager.pdf_files self))) as [e|]; [reflexivity|].
  unfold EbookManager.build, lift. rewrite build_ncx_data_eq.
  destruct (forallb has_page (EbookManager.toc (absorb env self done)));
    [|reflexivity].
  unfold bind at 1 2; cbv beta iota. rewrite build_manifest_data_eq.
  unfold bind, EbookManager.add_manifest, EbookManager.add_navigation, writestr, print, ret;
    cbn [stdout disk uuid_calls filename].
  rewrite !disk_append_extend, !E, <- !app_assoc.
  reflexivity.
Qed.

End Book.

(** ** Sorting and the discovery of the chapters *)

Section Sorting.
Context {A : Type}.

Lemma insert_by_key_perm (kx : N * A) (kxs : list (N * A)) :
  Permutation (EbookManager.insert_by_key kx kxs) (kx :: kxs).
Proof.
  induction kxs as [|ky kxs IH]; simpl; [reflexivity|].
  destruct (fst kx <=? fst ky)%N; [reflexivity|].
  rewrite IH. apply perm_swap.
Qed.

Lemma sort_by_key_perm (kxs : list (N * A)) :
  Permutation (EbookManager.sort_by_key kxs) kxs.
Proof.
  induction kxs as [|kx kxs IH]; simpl; [reflexivity|].
  rewrite insert_by_key_perm. now constructor.
Qed.

Lemma ascending_cons (k : N) (ks : list N) :
  ascending (k :: ks) = match ks with [] => true | k' :: _ => (k <=? k')%N && ascending ks end.
Proof. reflexivity. Qed.

Lemma insert_by_key_ascending (kx : N * A) (kxs : list (N * A)) :
  ascending (map fst kxs) = true ->
  ascending (map fst (EbookManager.insert_by_key kx kxs)) = true.
Proof.
  induction kxs as [|ky kxs IH]; intros H; [reflexivity|].
  cbn [EbookManager.insert_by_key]. destruct (fst kx <=? fst ky)%N eqn:E.
  - cbn [map]. rewrite ascending_cons. cbn [map] in H. now rewrite E, H.
  - cbn [map] in *. rewrite ascending_cons in *.
    assert (Hk : (fst ky <=? fst kx)%N = true) by (apply N.leb_le; apply N.leb_gt in E; lia).
    destruct kxs as [|kz kxs].
    + simpl. now rewrite Hk.
    + apply andb_true_iff in H as [H1 H2]. specialize (IH H2).
      cbn [EbookManager.insert_by_key] in *.
      destruct (fst kx <=? fst kz)%N; cbn [map] in *.
      * now rewrite Hk, IH.
      * now rewrite H1, IH.
Qed.

Lemma sort_by_key_ascending (kxs : list (N * A)) :
  ascending (map fst (EbookManager.sort_by_key kxs)) = true.
Proof.
  induction kxs as [|kx kxs IH]; [reflexivity|].
  apply insert_by_key_ascending, IH.
Qed.

Lemma decorate_ok (key : A -> result N) (xs : list A) (kxs : list (N * A)) :
  EbookManager.decorate key xs = Ok kxs ->
  map snd kxs = xs /\ Forall (fun kx => key (snd kx) = Ok (fst kx)) kxs.
Proof.
  revert kxs; induction xs as [|x xs IH]; intros kxs; simpl.
  - intros [= <-]. auto.
  - destruct (key x) as [k|e] eqn:K; [|discriminate].
    destruct (EbookManager.decorate key xs) as [l|e]; [|discriminate].
    intros [= <-]. destruct (IH l eq_refl) as [E F]. simpl. rewrite E. auto.
Qed.

Lemma decorate_total (key : A -> result N) (xs : list A) :
  Forall (fun x => exists k, key x = Ok k) xs ->
  exists kxs, EbookManager.decorate key xs = Ok kxs.
Proof.
  induction 1 as [|x xs [k K] _ [kxs IH]]; simpl; [eauto|].
  rewrite K, IH. eauto.
Qed.

(** [sorted] orders by the key and keeps the elements. *)
Lemma sorted_ok (key : A -> result N) (xs ys : list A) :
  EbookManager.sorted xs key = Ok ys ->
  Permutation xs ys
  /\ exists ks, Forall2 (fun y k => key y = Ok k) ys ks /\ ascending ks = true.
Proof.
  unfold EbookManager.sorted.
  destruct (EbookManager.decorate key xs) as [kxs|e] eqn:D; [|discriminate].
  intros [= <-]. destruct (decorate_ok _ _ _ D) as [E F]. split.
  - rewrite <- E. apply Permutation_map. symmetry. apply sort_by_key_perm.
  - exists (map fst (EbookManager.sort_by_key kxs)). split; [|apply sort_by_key_ascending].
    assert (G : Forall (fun kx => key (snd kx) = Ok (fst kx)) (EbookManager.sort_by_key kxs)).
    { rewrite Forall_forall in *. intros kx I. apply F.
      eapply Permutation_in; [apply sort_by_key_perm | exact I]. }
    induction G; simpl; constructor; auto.
Qed.

End Sorting.

(** A digit of the name after [replace] and [strip] is a digit of the name. *)
Lemma has_digit_cons (c : ascii) (s : string) :
  has_digit (String c s) = isdigit c || has_digit s.
Proof. unfold has_digit; simpl. now destruct (isdigit c). Qed.

Lemma has_digit_replace_from (old : string) (s : string) :
  forall skip, has_digit (replace_from old EmptyString skip s) = true -> has_digit s = true.
Proof.
  induction s as [|c s IH]; intros skip; [easy|].
  rewrite has_digit_cons. cbn [replace_from].
  destruct skip as [|k].
  - destruct (startswith (String c s) old).
    + cbn [append]. intros H. apply IH in H. rewrite H. apply orb_true_r.
    + rewrite has_digit_cons. intros H. apply orb_true_iff in H as [H|H].
      * now rewrite H.
      * apply IH in H. rewrite H. apply orb_true_r.
  - intros H. apply IH in H. rewrite H. apply orb_true_r.
Qed.

Lemma has_digit_lstrip (s : string) : has_digit (lstrip s) = true -> has_digit s = true.
Proof.
  induction s as [|c s IH]; [easy|]. cbn [lstrip].
  destruct (isspace c); [|easy].
  intros H. rewrite has_digit_cons, (IH H). apply orb_true_r.
Qed.

Lemma has_digit_rstrip (s : string) : has_digit (rstrip s) = true -> has_digit s = true.
Proof.
  induction s as [|c s IH]; [easy|]. cbn [rstrip].
  rewrite has_digit_cons.
  destruct (rstrip s) as [|d r].
  - destruct (isspace c); [easy|]. rewrite has_digit_cons.
    intros H. apply orb_true_iff in H as [H|H]; [now rewrite H | easy].
  - rewrite has_digit_cons. intros H. apply orb_true_iff in H as [H|H].
    + now rewrite H.
    + rewrite (IH H). apply orb_true_r.
Qed.

Lemma has_digit_stripped (name : string) :
  has_digit (strip (replace ".pdf" EmptyString (replace "Ch" EmptyString name))) = true ->
  has_digit name = true.
Proof.
  unfold strip, replace. intros H.
  apply has_digit_rstrip, has_digit_lstrip in H.
  now apply has_digit_replace_from, has_digit_replace_from in H.
Qed.

(** A chapter that [ChapterData.init] made has a sort key. *)
Lemma init_chapter_sorting (name path : string) (ch : ChapterData.t) :
  ChapterData.init name path = Ok ch -> exists k, EbookManager.chapter_sorting ch = Ok k.
Proof.
  unfold ChapterData.init, EbookManager.chapter_sorting.
  destruct (search_digits (strip _)) as [group|] eqn:S; [|discriminate].
  intros [= <-]. cbn [ChapterData.name].
  assert (H : has_digit name = true).
  { apply has_digit_stripped. unfold has_digit. now rewrite S. }
  unfold has_digit in H. destruct (search_digits name); [eauto | discriminate].
Qed.

(** ** The constructor of [EbookManager] *)


Lemma init_parsable (name path : string) :
  (exists ch, ChapterData.init name path = Ok ch) <-> parsable name = true.
Proof.
  unfold ChapterData.init, parsable, has_digit.
  destruct (search_digits _); split; eauto; try discriminate.
  now intros [ch H].
Qed.

Lemma collect_pdf_files_ok (pdfs_path : string) (files : list string) :
  forall acc chs,
  EbookManager.collect_pdf_files pdfs_path files acc = Ok chs ->
  exists new, chs = (acc ++ new)%list /\ Forall (made_from pdfs_path files) new.
Proof.
  induction files as [|f files IH]; intros acc chs; simpl.
  - intros [= <-]. exists []. now rewrite app_nil_r.
  - assert (W : forall new, Forall (made_from pdfs_path files) new ->
                            Forall (made_from pdfs_path (f :: files)) new).
    { intros new. apply Forall_impl. intros ch (g & I & E & C).
      exists g. simpl; auto. }
    destruct (endswith f ".pdf") eqn:E; simpl.
    + destruct (ChapterData.init f (path_join pdfs_path f)) as [ch|e] eqn:C; [|discriminate].
      intros H. apply IH in H as (new & -> & F).
      exists (ch :: new). rewrite <- app_assoc. split; [reflexivity|].
      constructor; [|auto]. exists f. simpl; auto.
    + intros H. apply IH in H as (new & -> & F). eauto.
Qed.

Lemma collect_pdf_files_none (pdfs_path : string) (files : list string) :
  (forall f, In f files -> endswith f ".pdf" = false) ->
  forall acc, EbookManager.collect_pdf_files pdfs_path files acc = Ok acc.
Proof.
  induction files as [|f files IH]; intros H acc; simpl; [reflexivity|].
  rewrite (H f) by (simpl; auto). simpl. apply IH. intros g I. apply H. simpl; auto.
Qed.

(** A chapter file without a number stops the discovery. *)
Lemma collect_pdf_files_unparsable (pdfs_path : string) (files : list string) :
  (exists f, In f files /\ endswith f ".pdf" = true /\ parsable f = false) ->
  forall acc, EbookManager.collect_pdf_files pdfs_path files acc = Raise AttributeError.
Proof.
  induction files as [|f files IH]; intros (g & I & E & P) acc; [destruct I|].
  simpl. destruct (endswith f ".pdf") eqn:Ef; simpl.
  - unfold ChapterData.init at 1. fold (has_digit (strip (replace ".pdf" EmptyString (replace "Ch" EmptyString f)))).
    destruct (search_digits (strip (replace ".pdf" EmptyString (replace "Ch" EmptyString f)))) eqn:S;
      [|reflexivity].
    apply IH. destruct I as [->|I]; [|eauto].
    unfold parsable, has_digit in P. rewrite S in P. discriminate.
  - apply IH. destruct I as [->|I]; [congruence | eauto].
Qed.

Section Init.
Variable env : Env.

Lemma init_eq (name pdfs_path : string) (w : World) :
  EbookManager.init env name pdfs_path w
  = (after_uuid4 w,
     match EbookManager.init_pdf_list env pdfs_path with
     | Raise e => Raise e
     | Ok pdf_files => Ok (fresh_manager name pdfs_path (uuid4_hex env (uuid_calls w)) pdf_files)
     end).
Proof.
  unfold EbookManager.init, bind, uuid4, lift, ret, after_uuid4; simpl.
  destruct (EbookManager.init_pdf_list env pdfs_path); reflexivity.
Qed.

(** The chapters of a book come from the chapter files of its directory and
    stand in the ascending order of their sort keys. *)
Lemma init_pdf_list_ok (pdfs_path : string) (chs : list ChapterData.t) :
  EbookManager.init_pdf_list env pdfs_path = Ok chs ->
  exists files,
    listdir env pdfs_path = Ok files
    /\ Forall (made_from pdfs_path files) chs
    /\ exists ks, Forall2 (fun ch k => EbookManager.chapter_sorting ch = Ok k) chs ks
                  /\ ascending ks = true.
Proof.
  unfold EbookManager.init_pdf_list.
  destruct (listdir env pdfs_path) as [files|e]; [|discriminate].
  destruct (EbookManager.collect_pdf_files pdfs_path files []) as [found|e] eqn:C;
    [|discriminate].
  intros H. exists files. split; [reflexivity|].
  apply collect_pdf_files_ok in C as (new & -> & F). simpl in H.
  apply sorted_ok in H as [P K]. split; [|exact K].
  rewrite Forall_forall in *. intros ch I. apply F.
  eapply Permutation_in; [symmetry; apply P | exact I].
Qed.

(** The discovery succeeds when every chapter file has a number. *)
Lemma init_pdf_list_total (pdfs_path : string) (files : list string) :
  listdir env pdfs_path = Ok files ->
  (forall f, In f files -> endswith f ".pdf" = true -> parsable f = true) ->
  exists chs, EbookManager.init_pdf_list env pdfs_path = Ok chs.
Proof.
  intros L P. unfold EbookManager.init_pdf_list. rewrite L.
  assert (C : forall acc, exists chs,
             EbookManager.collect_pdf_files pdfs_path files acc = Ok chs).
  { clear L. induction files as [|f files IH]; intros acc; simpl; [eauto|].
    destruct (endswith f ".pdf") eqn:E; simpl.
    - destruct (proj2 (init_parsable f (path_join pdfs_path f))) as [ch ->].
      { apply P; simpl; auto. }
      apply IH. intros g I. apply P. simpl; auto.
    - apply IH. intros g I. apply P. simpl; auto. }
  destruct (C []) as [found F]. rewrite F.
  apply collect_pdf_files_ok in F as (new & -> & M). simpl.
  unfold EbookManager.sorted.
  destruct (decorate_total EbookManager.chapter_sorting new) as [kxs ->]; [|eauto].
  eapply Forall_impl; [|exact M].
  intros ch (g & _ & _ & I). eapply init_chapter_sorting, I.
Qed.

End Init.

(** ** The pages of a book *)

Section Pages.
Variable env : Env.

Lemma rendered_complete (chapters : list ChapterData.t) :
  snd (rendered env chapters) = None ->
  map fst (fst (rendered env chapters)) = chapters
  /\ Forall (fun ci => convert_from_path env (ChapterData.path (fst ci)) IMAGE_DPI
                       = Ok (snd ci))
            (fst (rendered env chapters)).
Proof.
  induction chapters as [|ch chapters IH]; simpl; [auto|].
  destruct (convert_from_path env (ChapterData.path ch) IMAGE_DPI) as [images|e] eqn:C;
    [|discriminate].
  destruct (rendered env chapters) as [done failure]; simpl in *.
  intros H. destruct (IH H) as [E F]. rewrite E. auto.
Qed.

Lemma rendered_total (chapters : list ChapterData.t) :
  (forall ch, In ch chapters ->
              exists images, convert_from_path env (ChapterData.path ch) IMAGE_DPI = Ok images) ->
  snd (rendered env chapters) = None.
Proof.
  induction chapters as [|ch chapters IH]; intros H; simpl; [reflexivity|].
  destruct (H ch) as [images ->]; [simpl; auto|].
  specialize (IH (fun c I => H c (or_intror I))).
  destruct (rendered env chapters); simpl in *. exact IH.
Qed.

(** The chapters rendered are the first chapters of the book. *)
Lemma rendered_prefix (chapters : list ChapterData.t) :
  map fst (fst (rendered env chapters))
  = firstn (List.length (fst (rendered env chapters))) chapters.
Proof.
  induction chapters as [|ch chapters IH]; simpl; [reflexivity|].
  destruct (convert_from_path env (ChapterData.path ch) IMAGE_DPI); [|reflexivity].
  destruct (rendered env chapters); simpl in *. now rewrite <- IH.
Qed.

Lemma enumerate_from_length {A : Type} (xs : list A) (i : N) :
  List.length (enumerate_from i xs) = List.length xs.
Proof. revert i; induction xs; intros i; simpl; [reflexivity | now rewrite IHxs]. Qed.

Lemma enumerate_from_seq {A : Type} (xs : list A) (i : nat) :
  map (fun item => (fst item + 1)%N) (enumerate_from (N.of_nat i) xs)
  = map N.of_nat (seq (S i) (List.length xs)).
Proof.
  revert i; induction xs as [|x xs IH]; intros i; simpl; [reflexivity|].
  f_equal; [lia|]. rewrite <- IH. do 2 f_equal. lia.
Qed.

(** The pages of a chapter are numbered from 1, in the order of the renderer. *)
Lemma chapter_page_ids_upto (ch : ChapterData.t) (images : list (Image env)) :
  chapter_page_ids env ch images
  = page_ids_upto (ChapterData.chapter_number ch) (List.length images).
Proof.
  unfold chapter_page_ids, page_ids_upto, enumerate.
  rewrite <- (map_map (fun item => (fst item + 1)%N)
                      (ChapterData.page_id_of (ChapterData.chapter_number ch))).
  change (enumerate_from 0 images) with (enumerate_from (N.of_nat 0) images).
  rewrite (enumerate_from_seq images 0), map_map. reflexivity.
Qed.

Lemma page_ids_upto_length (n : N) (p : nat) : List.length (page_ids_upto n p) = p.
Proof. unfold page_ids_upto. now rewrite length_map, length_seq. Qed.

Lemma page_ids_upto_in (n : N) (p : nat) (s : string) :
  In s (page_ids_upto n p) <-> exists k, 1 <= k <= p /\ s = ChapterData.page_id_of n (N.of_nat k).
Proof.
  unfold page_ids_upto. rewrite in_map_iff. split.
  - intros (k & <- & I). apply in_seq in I. exists k. split; [lia | reflexivity].
  - intros (k & R & ->). exists k. split; [reflexivity|]. apply in_seq. lia.
Qed.

Lemma page_ids_upto_nodup (n : N) (p : nat) : NoDup (page_ids_upto n p).
Proof.
  unfold page_ids_upto. apply NoDup_map_NoDup_ForallPairs; [|apply seq_NoDup].
  intros a b _ _ H. apply page_id_of_inj in H as [_ H]. lia.
Qed.

End Pages.

(** ** The manifest, the spine and the navigation of a complete book *)

Section Complete.
Variable env : Env.

Lemma create_fresh_eq (name pdfs_path book_id : string) (chs : list ChapterData.t)
    (w : World) :
  let self := fresh_manager name pdfs_path book_id chs in
  let done := fst (rendered env chs) in
  EbookManager.create_ebook env self w
  = match snd (rendered env chs) with
    | Some e => (partial_world env self done w, Raise e)
    | None =>
        if forallb has_page (book_toc env done)
        then (complete_world env self done w,
              Ok (built_manager env name pdfs_path book_id chs done))
        else (partial_world env self done w, Raise IndexError)
    end.
Proof.
  intros self done. rewrite create_ebook_eq. reflexivity.
Qed.

(** A complete build, from the constructor on. *)
Lemma complete_build (name pdfs_path : string) (w0 w1 w2 : World)
    (self self' : EbookManager.t) :
  EbookManager.init env name pdfs_path w0 = (w1, Ok self) ->
  EbookManager.create_ebook env self w1 = (w2, Ok self') ->
  let done := fst (rendered env (EbookManager.pdf_files self)) in
  self = fresh_manager name pdfs_path (uuid4_hex env (uuid_calls w0))
           (EbookManager.pdf_files self)
  /\ EbookManager.init_pdf_list env pdfs_path = Ok (EbookManager.pdf_files self)
  /\ w1 = after_uuid4 w0
  /\ snd (rendered env (EbookManager.pdf_files self)) = None
  /\ forallb has_page (book_toc env done) = true
  /\ w2 = complete_world env self done w1
  /\ self' = built_manager env name pdfs_path (uuid4_hex env (uuid_calls w0))
               (EbookManager.pdf_files self) done.
Proof.
  rewrite init_eq. intros I C done.
  destruct (EbookManager.init_pdf_list env pdfs_path) as [chs|e]; [|discriminate].
  injection I as <- <-. subst done. cbn [EbookManager.pdf_files fresh_manager] in *.
  rewrite create_fresh_eq in C.
  destruct (snd (rendered env chs)); [discriminate|].
  destruct (forallb has_page (book_toc env (fst (rendered env chs)))); [|discriminate].
  injection C as <- <-. repeat split; reflexivity.
Qed.

Lemma book_manifest_pages (done : list (ChapterData.t * list (Image env))) :
  book_manifest env done = flat_map page_manifest (book_page_ids env done).
Proof.
  unfold book_manifest, book_page_ids, chapter_manifest.
  induction done as [|ci done IH]; simpl; [reflexivity|].
  now rewrite flat_map_app, IH.
Qed.

Lemma book_manifest_length (done : list (ChapterData.t * list (Image env))) :
  List.length (book_manifest env done) = 2 * List.length (book_page_ids env done).
Proof.
  rewrite book_manifest_pages.
  induction (book_page_ids env done) as [|p ps IH]; simpl; [reflexivity|].
  rewrite IH. lia.
Qed.

Lemma book_page_ids_in (done : list (ChapterData.t * list (Image env))) (s : string) :
  In s (book_page_ids env done) <->
  exists ch images k,
    In (ch, images) done /\ 1 <= k <= List.length images
    /\ s = ChapterData.page_id_of (ChapterData.chapter_number ch) (N.of_nat k).
Proof.
  unfold book_page_ids. rewrite in_flat_map. split.
  - intros ([ch images] & I & H). cbn [fst snd] in H.
    rewrite chapter_page_ids_upto, page_ids_upto_in in H.
    destruct H as (k & R & ->). eauto 6.
  - intros (ch & images & k & I & R & ->). exists (ch, images). split; [exact I|].
    cbn [fst snd]. rewrite chapter_page_ids_upto, page_ids_upto_in. eauto.
Qed.

Lemma book_page_ids_are_page_ids (done : list (ChapterData.t * list (Image env))) :
  Forall is_page_id (book_page_ids env done).
Proof.
  apply Forall_forall. intros s I. apply book_page_ids_in in I as (ch & images & k & _ & _ & ->).
  now exists (ChapterData.chapter_number ch), (N.of_nat k).
Qed.

(** Chapters with different numbers have no page id in common. *)
Lemma book_page_ids_nodup (done : list (ChapterData.t * list (Image env))) :
  NoDup (map (fun ci => ChapterData.chapter_number (fst ci)) done) ->
  NoDup (book_page_ids env done).
Proof.
  induction done as [|[ch images] done IH]; intros N; [constructor|].
  change (book_page_ids env ((ch, images) :: done))
    with (chapter_page_ids env ch images ++ book_page_ids env done)%list.
  cbn [map fst] in N. apply NoDup_cons_iff in N as [N1 N2].
  apply NoDup_app; [rewrite chapter_page_ids_upto; apply page_ids_upto_nodup | auto |].
  intros s I J. rewrite chapter_page_ids_upto, page_ids_upto_in in I.
  destruct I as (k & _ & ->).
  apply book_page_ids_in in J as (ch' & images' & k' & I' & _ & E).
  apply page_id_of_inj in E as [E _]. apply N1. rewrite E.
  apply (in_map (fun ci => ChapterData.chapter_number (fst ci)) _ _ I').
Qed.

Lemma book_page_ids_length (done : list (ChapterData.t * list (Image env))) :
  List.length (book_page_ids env done)
  = list_sum (map (fun ci => List.length (snd ci)) done).
Proof.
  unfold book_page_ids. induction done as [|[ch images] done IH]; simpl; [reflexivity|].
  now rewrite length_app, IH, chapter_page_ids_upto, page_ids_upto_length.
Qed.

Lemma book_page_ids_concat (done : list (ChapterData.t * list (Image env))) :
  book_page_ids env done
  = flat_map (fun ci => page_ids_upto (ChapterData.chapter_number (fst ci))
                          (List.length (snd ci))) done.
Proof.
  unfold book_page_ids. apply flat_map_ext. intros [ch images]. apply chapter_page_ids_upto.
Qed.

Lemma book_files_names (done : list (ChapterData.t * list (Image env))) :
  map arcname (book_files env done) = flat_map page_entry_names (book_page_ids env done).
Proof.
  unfold book_files, book_page_ids.
  induction done as [|[ch images] done IH]; [reflexivity|].
  cbn [flat_map fst snd]. rewrite map_app, flat_map_app, IH. f_equal.
  unfold chapter_files, chapter_page_ids.
  induction (enumerate images) as [|item items IHi]; [reflexivity|].
  cbn [flat_map map]. rewrite map_app, IHi. reflexivity.
Qed.

End Complete.

(** ** Counting the entries of the manifest *)

Lemma count_app {A : Type} (p : A -> bool) (l1 l2 : list A) :
  count p (l1 ++ l2) = count p l1 + count p l2.
Proof. unfold count. now rewrite filter_app, length_app. Qed.

Lemma has_id_item (i : string) (m : ManifestItem.t) :
  has_id i (item_element m) = (ManifestItem.id m =? i).
Proof. reflexivity. Qed.

Lemma count_document_id (page_id : string) (ps : list string) :
  is_page_id page_id -> Forall is_page_id ps ->
  count (has_id page_id) (map item_element (flat_map page_manifest ps))
  = count_occ string_dec ps page_id.
Proof.
  intros (n & k & ->). induction 1 as [|q ps (n' & k' & ->) _ IH]; [reflexivity|].
  cbn [flat_map count_occ].
  change (page_manifest (ChapterData.page_id_of n' k'))
    with [page_document (ChapterData.page_id_of n' k');
          page_image (ChapterData.page_id_of n' k')].
  unfold count in *. rewrite map_app, filter_app, length_app, IH.
  cbn [map filter]. rewrite !has_id_item.
  cbn [ManifestItem.id page_document page_image].
  assert (F : (ChapterData.page_id_of n' k' ++ "_img" =? ChapterData.page_id_of n k) = false).
  { apply String.eqb_neq. intros E. symmetry in E. now apply page_id_of_not_img in E. }
  rewrite F.
  destruct (string_dec (ChapterData.page_id_of n' k') (ChapterData.page_id_of n k)) as [E|E].
  - rewrite E, String.eqb_refl. reflexivity.
  - apply String.eqb_neq in E. now rewrite E.
Qed.

Lemma count_image_id (page_id : string) (ps : list string) :
  is_page_id page_id -> Forall is_page_id ps ->
  count (has_id (page_id ++ "_img")) (map item_element (flat_map page_manifest ps))
  = count_occ string_dec ps page_id.
Proof.
  intros (n & k & ->). induction 1 as [|q ps (n' & k' & ->) _ IH]; [reflexivity|].
  cbn [flat_map count_occ].
  change (page_manifest (ChapterData.page_id_of n' k'))
    with [page_document (ChapterData.page_id_of n' k');
          page_image (ChapterData.page_id_of n' k')].
  unfold count in *. rewrite map_app, filter_app, length_app, IH.
  cbn [map filter]. rewrite !has_id_item.
  cbn [ManifestItem.id page_document page_image].
  assert (F : (ChapterData.page_id_of n' k' =? ChapterData.page_id_of n k ++ "_img") = false).
  { apply String.eqb_neq. apply page_id_of_not_img. }
  rewrite F.
  destruct (string_dec (ChapterData.page_id_of n' k') (ChapterData.page_id_of n k)) as [E|E].
  - rewrite E, String.eqb_refl. reflexivity.
  - assert (G : (ChapterData.page_id_of n' k' ++ "_img"
                 =? ChapterData.page_id_of n k ++ "_img") = false).
    { apply String.eqb_neq. intros H. now apply append_inj_r in H. }
    now rewrite G.
Qed.

(** An entry of the manifest whose id is a page id is the document entry of
    that page. *)
Lemma manifest_id_is_document (page_id : string) (ps : list string) (e : Element) :
  is_page_id page_id -> Forall is_page_id ps ->
  In e (ncx_item_element :: map item_element (flat_map page_manifest ps)) ->
  has_id page_id e = true ->
  e = item_element (page_document page_id).
Proof.
  intros (n & k & ->) F [<-|I] H.
  - apply String.eqb_eq in H. symmetry in H. now apply page_id_of_not_ncx in H.
  - apply in_map_iff in I as (m & <- & I). rewrite has_id_item in H.
    apply String.eqb_eq in H.
    apply in_flat_map in I as (q & Q & I).
    rewrite Forall_forall in F. destruct (F q Q) as (n' & k' & ->).
    destruct I as [<-|[<-|[]]]; cbn [ManifestItem.id page_document page_image] in H.
    + now rewrite H.
    + symmetry in H. now apply page_id_of_not_img in H.
Qed.

Lemma count_occ_nodup (ps : list string) (s : string) :
  NoDup ps -> In s ps -> count_occ string_dec ps s = 1.
Proof.
  intros N I. apply (proj1 (NoDup_count_occ string_dec ps)) with (x := s) in N.
  apply (count_occ_In string_dec) in I. lia.
Qed.

(** ** The navigation points *)



Lemma count_or_disjoint {A : Type} (p q : A -> bool) (l : list A) :
  (forall x, In x l -> p x = true -> q x = false) ->
  count (fun x => p x || q x) l = count p l + count q l.
Proof.
  unfold count. induction l as [|x l IH]; intros D; [reflexivity|].
  cbn [filter]. specialize (IH (fun y I => D y (or_intror I))).
  pose proof (D x (or_introl eq_refl)) as Dx.
  destruct (p x) eqn:P; [rewrite (Dx eq_refl)|]; cbn [orb];
    [|destruct (q x)]; cbn [List.length]; rewrite IH; lia.
Qed.

Lemma page_listed_in (ps : list string) (page_id : string) :
  Forall is_page_id ps -> NoDup ps -> In page_id ps ->
  page_listed page_id ps (ncx_item_element :: map item_element (flat_map page_manifest ps)).
Proof.
  intros F N I.
  assert (P : is_page_id page_id) by (rewrite Forall_forall in F; auto).
  assert (Z : forall i, is_page_id page_id -> i = page_id \/ i = page_id ++ "_img" ->
                        has_id i ncx_item_element = false).
  { intros i (n & k & ->) [->| ->]; apply String.eqb_neq; intros E; symmetry in E;
      [now apply page_id_of_not_ncx in E | now apply page_id_img_not_ncx in E]. }
  assert (C1 : count (has_id page_id)
                 (ncx_item_element :: map item_element (flat_map page_manifest ps)) = 1).
  { change (ncx_item_element :: ?l) with ([ncx_item_element] ++ l)%list.
    rewrite count_app, count_document_id, count_occ_nodup by assumption.
    unfold count; cbn [filter]. now rewrite (Z page_id P (or_introl eq_refl)). }
  assert (C2 : count (has_id (page_id ++ "_img"))
                 (ncx_item_element :: map item_element (flat_map page_manifest ps)) = 1).
  { change (ncx_item_element :: ?l) with ([ncx_item_element] ++ l)%list.
    rewrite count_app, count_image_id, count_occ_nodup by assumption.
    unfold count; cbn [filter]. now rewrite (Z _ P (or_intror eq_refl)). }
  unfold page_listed. repeat split.
  - now apply count_occ_nodup.
  - exact C1.
  - exact C2.
  - rewrite count_or_disjoint, C1, C2; [reflexivity|].
    intros e _ H. unfold has_id in *. destruct (get_attr "id" e) as [j|]; [|reflexivity].
    apply String.eqb_eq in H; subst j. apply String.eqb_neq.
    destruct P as (n & k & ->). apply page_id_of_not_img.
  - right. apply (in_map item_element _ (page_document page_id)).
    apply in_flat_map. exists page_id. split; [exact I | left; reflexivity].
  - right. apply (in_map item_element _ (page_image page_id)).
    apply in_flat_map. exists page_id. split; [exact I | right; left; reflexivity].
  - intros e. now apply manifest_id_is_document.
Qed.

(** ** The claims *)

(** C2.  In a complete build of a book whose chapters have pairwise different
    numbers, the spine element lists the page ids of the book, and every page
    id stands once in the spine and twice in the manifest: once as the id of
    the document entry [{pageId}.xhtml] of type [application/xhtml+xml] and
    once, as [{pageId}_img], as the id of the image entry
    [static/{pageId}.png] of type [image/png]; the manifest entry that a
    spine reference names is the document entry, never the image entry. *)
Theorem C2_page_ids_in_spine_and_manifest
    (env : Env) (name pdfs_path : string) (w0 w1 w2 : World) (self self' : EbookManager.t) :
  EbookManager.init env name pdfs_path w0 = (w1, Ok self) ->
  EbookManager.create_ebook env self w1 = (w2, Ok self') ->
  NoDup (map ChapterData.chapter_number (EbookManager.pdf_files self)) ->
  children (EbookXMLManager.spine (EbookManager.xml_manager self'))
  = map (fun page_id => Elem "itemref" [("idref", page_id)] None []) (EbookManager.spine self')
  /\ forall page_id, In page_id (EbookManager.spine self') ->
       page_listed page_id (EbookManager.spine self')
         (children (EbookXMLManager.manifest (EbookManager.xml_manager self'))).
Proof.
  intros I C N.
  destruct (complete_build env _ _ _ _ _ _ _ I C) as (_ & _ & _ & R & _ & _ & ->).
  cbn [built_manager EbookManager.spine EbookManager.xml_manager EbookXMLManager.spine
       EbookXMLManager.manifest children].
  split; [reflexivity|].
  intros page_id P. rewrite book_manifest_pages.
  apply page_listed_in; [apply book_page_ids_are_page_ids | | exact P].
  apply book_page_ids_nodup.
  destruct (rendered_complete env _ R) as [E _].
  rewrite <- (map_map fst ChapterData.chapter_number), E. exact N.
Qed.

Lemma C2_witness :
  exists w1 w2 self self',
    EbookManager.init Sample.machine "manga" "/books/manga" Sample.world0
    = (w1, Ok self)
    /\ EbookManager.create_ebook Sample.machine self w1 = (w2, Ok self')
    /\ NoDup (map ChapterData.chapter_number (EbookManager.pdf_files self))
    /\ EbookManager.spine self'
       = ["chapter_1_page_1"; "chapter_1_page_2";
          "chapter_2_page_1"; "chapter_2_page_2"; "chapter_2_page_3"]
    /\ forall page_id, In page_id (EbookManager.spine self') ->
         page_listed page_id (EbookManager.spine self')
           (children (EbookXMLManager.manifest (EbookManager.xml_manager self'))).
Proof.
  do 4 eexists.
  split; [vm_compute; reflexivity|].
  split; [vm_compute; reflexivity|].
  assert (N : NoDup (map ChapterData.chapter_number
                       [ChapterData.mk "Ch1.pdf" "/books/manga/Ch1.pdf" 1 "Chapter 1";
                        ChapterData.mk "Ch2.pdf" "/books/manga/Ch2.pdf" 2 "Chapter 2"])).
  { repeat constructor; simpl; intuition discriminate. }
  split; [exact N|].
  split; [reflexivity|].
  eapply (C2_page_ids_in_spine_and_manifest Sample.machine
            "manga" "/books/manga" Sample.world0);
    [vm_compute; reflexivity | vm_compute; reflexivity | exact N].
Defined.

(** C5.  In every complete build, also of a book without any page, every
    page that the renderer returned contributes one entry to the spine and
    two entries to the manifest: the spine has one [itemref] per page id, so
    [S] entries, where [S] is the number of pages of all chapters; the
    manifest has the entry of the navigation document and then, page id by
    page id, the document entry and the image entry, so exactly
    [2 * S + 1] entries.  So the manifest has more entries than the spine. *)
Theorem C5_manifest_larger_than_spine
    (env : Env) (name pdfs_path : string) (w0 w1 w2 : World) (self self' : EbookManager.t) :
  EbookManager.init env name pdfs_path w0 = (w1, Ok self) ->
  EbookManager.create_ebook env self w1 = (w2, Ok self') ->
  let manifest := children (EbookXMLManager.manifest (EbookManager.xml_manager self')) in
  let spine := children (EbookXMLManager.spine (EbookManager.xml_manager self')) in
  List.length spine = List.length (EbookManager.spine self')
  /\ List.length manifest = 2 * List.length spine + 1
  /\ List.length spine < List.length manifest
  /\ hd_error manifest
     = Some (Elem "item"
               [("id", "ncx"); ("href", "toc.ncx"); ("media-type", "application/x-dtbncx+xml")]
               None [])
  /\ spine
     = map (fun page_id => Elem "itemref" [("idref", page_id)] None [])
         (EbookManager.spine self')
  /\ manifest
     = Elem "item"
         [("id", "ncx"); ("href", "toc.ncx"); ("media-type", "application/x-dtbncx+xml")]
         None []
       :: flat_map
            (fun page_id =>
               [Elem "item"
                  [("id", page_id); ("href", page_id ++ ".xhtml");
                   ("media-type", "application/xhtml+xml")] None [];
                Elem "item"
                  [("id", page_id ++ "_img"); ("href", "static/" ++ page_id ++ ".png");
                   ("media-type", "image/png")] None []])
            (EbookManager.spine self')
  /\ exists done,
       map fst done = EbookManager.pdf_files self
       /\ Forall (fun ci => convert_from_path env (ChapterData.path (fst ci)) IMAGE_DPI
                            = Ok (snd ci)) done
       /\ EbookManager.spine self'
          = flat_map (fun ci => page_ids_upto (ChapterData.chapter_number (fst ci))
                                  (List.length (snd ci))) done
       /\ List.length spine = list_sum (map (fun ci => List.length (snd ci)) done)
       /\ List.length manifest = 2 * list_sum (map (fun ci => List.length (snd ci)) done) + 1.
Proof.
  intros I C.
  destruct (complete_build env _ _ _ _ _ _ _ I C) as (_ & _ & _ & R & _ & _ & ->).
  destruct (rendered_complete env _ R) as [E F].
  cbn [built_manager EbookManager.spine EbookManager.xml_manager EbookXMLManager.spine
       EbookXMLManager.manifest children].
  cbv zeta. cbn [List.length]. rewrite !length_map, book_manifest_length.
  split; [reflexivity|]. split; [lia|]. split; [lia|]. split; [reflexivity|].
  split; [reflexivity|]. split.
  - f_equal. rewrite book_manifest_pages.
    induction (book_page_ids env (fst (rendered env (EbookManager.pdf_files self))))
      as [|page_id ps IH]; [reflexivity|].
    change (flat_map page_manifest (page_id :: ps))
      with (page_document page_id :: page_image page_id :: flat_map page_manifest ps).
    cbn [map flat_map app]. rewrite <- IH. reflexivity.
  - exists (fst (rendered env (EbookManager.pdf_files self))).
    split; [exact E|]. split; [exact F|]. split; [apply book_page_ids_concat|].
    rewrite book_page_ids_length. split; [reflexivity | lia].
Qed.

Lemma C5_witness :
  (exists w1 w2 self self',
     EbookManager.init Sample.machine "manga" "/books/manga" Sample.world0
     = (w1, Ok self)
     /\ EbookManager.create_ebook Sample.machine self w1 = (w2, Ok self')
     /\ map (fun ch => convert_from_path Sample.machine (ChapterData.path ch) IMAGE_DPI)
          (EbookManager.pdf_files self)
        = [Ok [11; 12]; Ok [21; 22; 23]]
     /\ EbookManager.spine self'
        = ["chapter_1_page_1"; "chapter_1_page_2";
           "chapter_2_page_1"; "chapter_2_page_2"; "chapter_2_page_3"]
     /\ map (get_attr "idref")
          (children (EbookXMLManager.spine (EbookManager.xml_manager self')))
        = map Some (EbookManager.spine self')
     /\ map (get_attr "id")
          (children (EbookXMLManager.manifest (EbookManager.xml_manager self')))
        = [Some "ncx";
           Some "chapter_1_page_1"; Some "chapter_1_page_1_img";
           Some "chapter_1_page_2"; Some "chapter_1_page_2_img";
           Some "chapter_2_page_1"; Some "chapter_2_page_1_img";
           Some "chapter_2_page_2"; Some "chapter_2_page_2_img";
           Some "chapter_2_page_3"; Some "chapter_2_page_3_img"]
     /\ List.length (children (EbookXMLManager.spine (EbookManager.xml_manager self'))) = 5
     /\ List.length (children (EbookXMLManager.manifest (EbookManager.xml_manager self')))
        = 2 * 5 + 1)
  /\ (exists w1 w2 self self',
        EbookManager.init Sample.machine "empty" "/books/empty" Sample.world0
        = (w1, Ok self)
        /\ EbookManager.create_ebook Sample.machine self w1 = (w2, Ok self')
        /\ EbookManager.spine self' = []
        /\ List.length (children (EbookXMLManager.spine (EbookManager.xml_manager self'))) = 0
        /\ List.length (children (EbookXMLManager.manifest (EbookManager.xml_manager self')))
           = 2 * 0 + 1).
Proof.
  split.
  - assert (C : exists w2 self',
              EbookManager.create_ebook Sample.machine Sample.manga_self
                (after_uuid4 Sample.world0) = (w2, Ok self')).
    { do 2 eexists. vm_compute. reflexivity. }
    destruct C as (w2 & self' & C).
    destruct (C5_manifest_larger_than_spine Sample.machine "manga" "/books/manga"
                Sample.world0 _ w2 Sample.manga_self self' eq_refl C)
      as (L1 & L2 & _ & _ & SP & MF & done & _ & _ & _ & _ & _).
    assert (S5 : EbookManager.spine self'
                 = ["chapter_1_page_1"; "chapter_1_page_2";
                    "chapter_2_page_1"; "chapter_2_page_2"; "chapter_2_page_3"]).
    { vm_compute in C. injection C as _ <-. reflexivity. }
    exists (after_uuid4 Sample.world0), w2, Sample.manga_self, self'.
    split; [reflexivity|]. split; [exact C|].
    split; [vm_compute; reflexivity|]. split; [exact S5|].
    split; [rewrite SP, S5; reflexivity|].
    split; [rewrite MF, S5; reflexivity|].
    rewrite L2, L1, S5. split; reflexivity.
  - assert (C : exists w2 self',
              EbookManager.create_ebook Sample.machine
                (fresh_manager "empty" "/books/empty" "uuid0" [])
                (after_uuid4 Sample.world0) = (w2, Ok self')).
    { do 2 eexists. vm_compute. reflexivity. }
    destruct C as (w2 & self' & C).
    destruct (C5_manifest_larger_than_spine Sample.machine "empty" "/books/empty"
                Sample.world0 _ w2 _ self' eq_refl C)
      as (L1 & L2 & _).
    assert (S0 : EbookManager.spine self' = []).
    { vm_compute in C. injection C as _ <-. reflexivity. }
    exists (after_uuid4 Sample.world0), w2,
      (fresh_manager "empty" "/books/empty" "uuid0" []), self'.
    split; [reflexivity|]. split; [exact C|]. split; [exact S0|].
    rewrite L2, L1, S0. split; reflexivity.
Defined.

Lemma book_toc_has_page (env : Env) (done : list (ChapterData.t * list (Image env))) :
  forallb has_page (book_toc env done)
  = forallb (fun ci => match snd ci with [] => false | _ :: _ => true end) done.
Proof.
  unfold book_toc. induction done as [|[ch images] done IH]; [reflexivity|].
  cbn [map forallb fst snd]. rewrite IH. f_equal. now destruct images.
Qed.

(** C10.  [build_ncx_data] returns the serialized navigation document when
    every chapter entry has a page id, and raises [IndexError], at the first
    page of the first entry without one, otherwise; [handle_chapter] appends
    an entry without a page id for a chapter whose PDF has no page.  So a
    book can be finalized only if every chapter handled has at least one
    page. *)
Theorem C10_navigation_needs_a_page_per_chapter
    (env : Env) (xm : EbookXMLManager.t) (toc : list ChapterTOC.t) :
  EbookXMLManager.build_ncx_data env xm toc
  = (if forallb has_page toc
     then Ok (EbookXMLManager.XML_DECL_UTF8
                ++ tostring env
                     (append_child (EbookXMLManager.ncx xm)
                        (Elem "navMap" [] None (nav_points 0 1 toc))),
              EbookXMLManager.mk (EbookXMLManager.package_attrib xm)
                (EbookXMLManager.metadata xm) (EbookXMLManager.manifest xm)
                (EbookXMLManager.spine xm)
                (append_child (EbookXMLManager.ncx xm)
                   (Elem "navMap" [] None (nav_points 0 1 toc))))
     else Raise IndexError)
  /\ (forallb has_page toc = true <-> forall c, In c toc -> ChapterTOC.page_ids c <> [])
  /\ forall zf self ch w,
       convert_from_path env (ChapterData.path ch) IMAGE_DPI = Ok [] ->
       exists self',
         EbookManager.handle_chapter env zf self ch w
         = (after_print ("creating chapter: " ++ ChapterData.chapter_title ch
                         ++ ", with 0 images") w,
            Ok self')
         /\ EbookManager.toc self'
            = (EbookManager.toc self ++ [ChapterTOC.mk [] (ChapterData.chapter_title ch)])%list.
Proof.
  split; [apply build_ncx_data_eq|]. split.
  - rewrite forallb_forall. unfold has_page.
    split; intros H c I; specialize (H c I); destruct (ChapterTOC.page_ids c); congruence.
  - intros zf self ch w C. rewrite handle_chapter_eq, C.
    eexists. split.
    + unfold effects, after_print; cbn [chapter_log chapter_files enumerate enumerate_from
                                       flat_map map].
      rewrite disk_extend_nil. reflexivity.
    + reflexivity.
Qed.

Lemma C10_witness :
  EbookXMLManager.build_ncx_data Sample.machine (EbookXMLManager.init "uuid0" "blank")
    [ChapterTOC.mk ["chapter_1_page_1"] "Chapter 1"; ChapterTOC.mk [] "Chapter 2"]
  = Raise IndexError
  /\ exists w,
       EbookManager.create_ebook Sample.machine
         (fresh_manager "blank" "/books/blank" "uuid0"
            [ChapterData.mk "Ch1.pdf" "/books/blank/Ch1.pdf" 1 "Chapter 1"])
         (after_uuid4 Sample.world0)
       = (w, Raise IndexError).
Proof.
  split.
  - rewrite (proj1 (C10_navigation_needs_a_page_per_chapter Sample.machine _ _)).
    reflexivity.
  - eexists. vm_compute. reflexivity.
Defined.

(** ** The order of the chapters and the spine *)

(** The spine of a complete build is the concatenation of the page ids of
    the chapters, in the order of [pdf_files]; its length is the sum of the
    numbers of pages. *)
Lemma spine_of_complete_build
    (env : Env) (name pdfs_path : string) (w0 w1 w2 : World) (self self' : EbookManager.t) :
  EbookManager.init env name pdfs_path w0 = (w1, Ok self) ->
  EbookManager.create_ebook env self w1 = (w2, Ok self') ->
  exists done,
    map fst done = EbookManager.pdf_files self
    /\ Forall (fun ci => convert_from_path env (ChapterData.path (fst ci)) IMAGE_DPI
                         = Ok (snd ci)) done
    /\ EbookManager.spine self'
       = flat_map (fun ci => page_ids_upto (ChapterData.chapter_number (fst ci))
                               (List.length (snd ci))) done
    /\ List.length (EbookManager.spine self')
       = list_sum (map (fun ci => List.length (snd ci)) done).
Proof.
  intros I C.
  destruct (complete_build env _ _ _ _ _ _ _ I C) as (_ & _ & _ & R & _ & _ & ->).
  destruct (rendered_complete env _ R) as [E F].
  exists (fst (rendered env (EbookManager.pdf_files self))).
  cbn [built_manager EbookManager.spine].
  repeat split; auto using book_page_ids_concat, book_page_ids_length.
Qed.

(** The chapters stand in the ascending order of their numbers when the sort
    key of every chapter is its number. *)
Lemma chapters_ascending_when_keys_agree (env : Env) (pdfs_path : string)
    (chs : list ChapterData.t) :
  EbookManager.init_pdf_list env pdfs_path = Ok chs ->
  (forall ch, In ch chs ->
     EbookManager.chapter_sorting ch = Ok (ChapterData.chapter_number ch)) ->
  ascending (map ChapterData.chapter_number chs) = true.
Proof.
  intros I A. destruct (init_pdf_list_ok env _ _ I) as (_ & _ & _ & ks & K & S).
  replace (map ChapterData.chapter_number chs) with ks; [exact S|].
  clear S I. induction K as [|ch k chs ks H K IH]; [reflexivity|].
  cbn [map]. rewrite (A ch (or_introl eq_refl)) in H. injection H as <-.
  f_equal. apply IH. intros c J. apply A. now right.
Qed.

(** The scenario of the specification: [Ch1.pdf] with 2 pages and [Ch2.pdf]
    with 3 pages, listed by the directory in another order. *)
Example scenario_Ch1_Ch2 :
  exists w1 self w2 self',
    EbookManager.init Sample.machine "manga" "/books/manga" Sample.world0 = (w1, Ok self)
    /\ EbookManager.create_ebook Sample.machine self w1 = (w2, Ok self')
    /\ EbookManager.spine self'
       = ["chapter_1_page_1"; "chapter_1_page_2";
          "chapter_2_page_1"; "chapter_2_page_2"; "chapter_2_page_3"]
    /\ map (fun c => (ChapterTOC.chapter_title c, hd_error (ChapterTOC.page_ids c)))
           (EbookManager.toc self')
       = [("Chapter 1", Some "chapter_1_page_1"); ("Chapter 2", Some "chapter_2_page_1")].
Proof.
  do 4 eexists.
  split; [vm_compute; reflexivity|].
  split; [vm_compute; reflexivity|].
  repeat (split; [vm_compute; reflexivity|]).
  vm_compute; reflexivity.
Qed.

(** C1.  The chapters are sorted by the first run of digits of the file name
    as it stands, while the chapter number is read after [Ch] and [.pdf] were
    removed from the name: for the files [Vol1Ch10.pdf] and [Vol2Ch1.pdf],
    of one page each, the chapter numbers are 110 and 21, the sort keys are
    1 and 2, and the spine lists chapter 110 before chapter 21. *)
Theorem C1_spine_not_in_chapter_number_order :
  exists w1 self w2 self',
    EbookManager.init Sample.machine "volumes" "/books/volumes" Sample.world0
    = (w1, Ok self)
    /\ EbookManager.create_ebook Sample.machine self w1 = (w2, Ok self')
    /\ map ChapterData.name (EbookManager.pdf_files self) = ["Vol1Ch10.pdf"; "Vol2Ch1.pdf"]
    /\ map ChapterData.chapter_number (EbookManager.pdf_files self) = [110%N; 21%N]
    /\ map EbookManager.chapter_sorting (EbookManager.pdf_files self) = [Ok 1%N; Ok 2%N]
    /\ ascending (map ChapterData.chapter_number (EbookManager.pdf_files self)) = false
    /\ EbookManager.spine self' = ["chapter_110_page_1"; "chapter_21_page_1"].
Proof.
  do 4 eexists.
  split; [vm_compute; reflexivity|].
  split; [vm_compute; reflexivity|].
  repeat (split; [vm_compute; reflexivity|]).
  vm_compute; reflexivity.
Qed.

(** C3.  The navigation document lists the chapters in the order of the
    chapter list, which is sorted by the first run of digits of the raw file
    name and not by the chapter number: for the files [Vol1Ch10.pdf] and
    [Vol2Ch1.pdf], of one page each, the [navMap] has two [navPoint]
    elements with the play orders 1 and 2, the first one for chapter 110 and
    the second one for chapter 21. *)
Theorem C3_navigation_not_in_chapter_number_order :
  exists w1 self w2 self' entries,
    EbookManager.init Sample.machine "volumes" "/books/volumes" Sample.world0
    = (w1, Ok self)
    /\ EbookManager.create_ebook Sample.machine self w1 = (w2, Ok self')
    /\ map ChapterData.name (EbookManager.pdf_files self) = ["Vol1Ch10.pdf"; "Vol2Ch1.pdf"]
    /\ map ChapterData.chapter_number (EbookManager.pdf_files self) = [110%N; 21%N]
    /\ map EbookManager.chapter_sorting (EbookManager.pdf_files self) = [Ok 1%N; Ok 2%N]
    /\ map (fun ch => convert_from_path Sample.machine (ChapterData.path ch) IMAGE_DPI)
         (EbookManager.pdf_files self)
       = [Ok [110]; Ok [21]]
    /\ ascending (map ChapterData.chapter_number (EbookManager.pdf_files self)) = false
    /\ nth_error (children (EbookXMLManager.ncx (EbookManager.xml_manager self'))) 2
       = Some
           (Elem "navMap" [] None
              [Elem "navPoint" [("id", "navPoint-1"); ("playOrder", "1")] None
                 [Elem "navLabel" [] None [Elem "text" [] (Some "Chapter 110") []];
                  Elem "content" [("src", "chapter_110_page_1.xhtml")] None []];
               Elem "navPoint" [("id", "navPoint-2"); ("playOrder", "2")] None
                 [Elem "navLabel" [] None [Elem "text" [] (Some "Chapter 21") []];
                  Elem "content" [("src", "chapter_21_page_1.xhtml")] None []]])
    /\ disk_read "volumes.epub" (disk w2) = Some entries
    /\ last entries (mkZipEntry EmptyString EmptyString ZIP_STORED)
       = mkZipEntry "OEBPS/toc.ncx"
           (EbookXMLManager.XML_DECL_UTF8
            ++ tostring Sample.machine (EbookXMLManager.ncx (EbookManager.xml_manager self')))
           ZIP_DEFLATED.
Proof.
  do 5 eexists.
  split; [vm_compute; reflexivity|].
  split; [vm_compute; reflexivity|].
  split; [vm_compute; reflexivity|].
  split; [vm_compute; reflexivity|].
  split; [vm_compute; reflexivity|].
  split; [vm_compute; reflexivity|].
  split; [vm_compute; reflexivity|].
  split; [vm_compute; reflexivity|].
  split; [vm_compute; reflexivity|].
  vm_compute; reflexivity.
Qed.

(** C4.  The archive holds the pages of the chapters in the order of the
    chapter list, which is sorted by the first run of digits of the raw file
    name and not by the chapter number: for the files [Vol1Ch10.pdf] and
    [Vol2Ch1.pdf], of one page each, the archive holds [mimetype] (stored)
    and [META-INF/container.xml], then the document and the image of the
    page of chapter 110, then those of the page of chapter 21, then
    [OEBPS/content.opf] and [OEBPS/toc.ncx]. *)
Theorem C4_archive_not_in_chapter_number_order :
  exists w1 self w2 self' entries,
    EbookManager.init Sample.machine "volumes" "/books/volumes" Sample.world0
    = (w1, Ok self)
    /\ EbookManager.create_ebook Sample.machine self w1 = (w2, Ok self')
    /\ map ChapterData.name (EbookManager.pdf_files self) = ["Vol1Ch10.pdf"; "Vol2Ch1.pdf"]
    /\ map ChapterData.chapter_number (EbookManager.pdf_files self) = [110%N; 21%N]
    /\ map EbookManager.chapter_sorting (EbookManager.pdf_files self) = [Ok 1%N; Ok 2%N]
    /\ ascending (map ChapterData.chapter_number (EbookManager.pdf_files self)) = false
    /\ disk_read "volumes.epub" (disk w2) = Some entries
    /\ map (fun e => (arcname e, compress_type e)) entries
       = [("mimetype", ZIP_STORED); ("META-INF/container.xml", ZIP_STORED);
          ("OEBPS/chapter_110_page_1.xhtml", ZIP_DEFLATED);
          ("OEBPS/static/chapter_110_page_1.png", ZIP_DEFLATED);
          ("OEBPS/chapter_21_page_1.xhtml", ZIP_DEFLATED);
          ("OEBPS/static/chapter_21_page_1.png", ZIP_DEFLATED);
          ("OEBPS/content.opf", ZIP_DEFLATED); ("OEBPS/toc.ncx", ZIP_DEFLATED)]
    /\ hd_error entries = Some (mkZipEntry "mimetype" "application/epub+zip" ZIP_STORED).
Proof.
  do 5 eexists.
  split; [vm_compute; reflexivity|].
  split; [vm_compute; reflexivity|].
  split; [vm_compute; reflexivity|].
  split; [vm_compute; reflexivity|].
  split; [vm_compute; reflexivity|].
  split; [vm_compute; reflexivity|].
  split; [vm_compute; reflexivity|].
  split; [vm_compute; reflexivity|].
  vm_compute; reflexivity.
Qed.

(** ** The run over the configured books *)

Section Run.
Variable env : Env.

(** The body of the loop of [start], case by case. *)
Lemma start_book_eq (name : string) (ebook_def : Yaml) (w : World) :
  start_book env (name, ebook_def) w
  = match yaml_get "path" ebook_def with
    | Raise e => (w, Raise e)
    | Ok path =>
        if truthy path
        then
          match os_path_abspath env path with
          | Raise e => (w, Raise e)
          | Ok absolute_path =>
              if path_exists env absolute_path
              then
                match EbookManager.init_pdf_list env absolute_path with
                | Raise e => (after_uuid4 w, Raise e)
                | Ok pdf_files =>
                    let r := EbookManager.create_ebook env
                               (fresh_manager name absolute_path
                                  (uuid4_hex env (uuid_calls w)) pdf_files)
                               (after_uuid4 w) in
                    (fst r, match snd r with Ok _ => Ok tt | Raise e => Raise e end)
                end
              else (after_print ("skipping " ++ name ++ ", path doesn't exists") w, Ok tt)
          end
        else (after_print ("skipping " ++ name ++ ", path is missing") w, Ok tt)
    end.
Proof.
  unfold start_book, bind at 1, lift.
  destruct (yaml_get "path" ebook_def) as [path|e]; [|reflexivity].
  destruct (truthy path); cbn [negb]; [|reflexivity].
  unfold bind at 1.
  destruct (os_path_abspath env path) as [absolute_path|e]; [|reflexivity].
  destruct (path_exists env absolute_path); cbn [negb]; [|reflexivity].
  unfold bind at 1. rewrite init_eq.
  destruct (EbookManager.init_pdf_list env absolute_path) as [pdf_files|e]; [|reflexivity].
  unfold bind, ret.
  destruct (EbookManager.create_ebook env _ (after_uuid4 w)) as [w' [self'|e]]; reflexivity.
Qed.

(** With a section of books that is not empty, [start] is the loop over
    the books. *)
Lemma start_eq (d items : list (string * Yaml)) (w : World) :
  config_yaml env = Ok (YDict d) ->
  assoc "ebooks" d = Some (YDict items) ->
  items <> [] ->
  start env w = for_each (start_book env) items w.
Proof.
  intros C E N. unfold start, get_config_file, bind, lift, ret. rewrite C.
  assert (T : truthy (YDict d) = true) by (destruct d; [discriminate | reflexivity]).
  rewrite T. cbn [negb yaml_get]. rewrite E.
  assert (T' : truthy (YDict items) = true) by (destruct items; [congruence | reflexivity]).
  rewrite T'. cbn [negb yaml_get]. rewrite E. reflexivity.
Qed.

Lemma for_each_raise {A : Type} (body : A -> M unit) (xs ys : list A) (x : A)
    (w w1 w2 : World) (e : exn) :
  for_each body xs w = (w1, Ok tt) ->
  body x w1 = (w2, Raise e) ->
  for_each body (xs ++ x :: ys) w = (w2, Raise e).
Proof.
  intros H B. rewrite (for_each_app body xs (x :: ys) w w1 H).
  cbn [for_each]. unfold bind. now rewrite B.
Qed.

End Run.

(** C9.  A configured book without a path, and a book whose path does not
    exist, are skipped with a message, and the run goes on with the next
    configured book.  An empty configuration and a configuration without a
    section of books stop the run with an exception before any book is
    processed: nothing is printed and nothing is written. *)
Theorem C9_skipped_books_and_startup_errors (env : Env) :
  (forall name d rest w,
     assoc "path" d = None ->
     for_each (start_book env) ((name, YDict d) :: rest) w
     = for_each (start_book env) rest
         (after_print ("skipping " ++ name ++ ", path is missing") w))
  /\ (forall name d p rest w,
        assoc "path" d = Some (YStr p) -> p <> EmptyString ->
        path_exists env (abspath env p) = false ->
        for_each (start_book env) ((name, YDict d) :: rest) w
        = for_each (start_book env) rest
            (after_print ("skipping " ++ name ++ ", path doesn't exists") w))
  /\ (forall config w,
        config_yaml env = Ok config -> truthy config = false ->
        start env w = (w, Raise (Exception "Can't load config")))
  /\ (forall d w,
        config_yaml env = Ok (YDict d) -> d <> [] ->
        match assoc "ebooks" d with Some ebooks => truthy ebooks = false | None => True end ->
        start env w = (w, Raise (Exception "Can't find ebooks section data"))).
Proof.
  repeat split.
  - intros name d rest w P. cbn [for_each]. unfold bind at 1.
    rewrite start_book_eq. cbn [yaml_get]. rewrite P. reflexivity.
  - intros name d p rest w P N X. cbn [for_each]. unfold bind at 1.
    rewrite start_book_eq. cbn [yaml_get]. rewrite P. cbn [truthy os_path_abspath].
    apply String.eqb_neq in N. rewrite N. cbn [negb]. rewrite X. reflexivity.
  - intros config w C T. unfold start, get_config_file, bind, lift. rewrite C, T.
    reflexivity.
  - intros d w C N E. unfold start, get_config_file, bind, lift. rewrite C.
    assert (T : truthy (YDict d) = true) by (destruct d; [congruence | reflexivity]).
    rewrite T. cbn [negb yaml_get].
    destruct (assoc "ebooks" d) as [ebooks|]; [rewrite E|]; reflexivity.
Qed.

Lemma C9_witness :
  start (Sample.env Sample.config_skips) Sample.world0
  = for_each (start_book (Sample.env Sample.config_skips))
      [Sample.book "manga" "/books/manga"]
      (after_print "skipping ghost, path doesn't exists"
         (after_print "skipping nopath, path is missing" Sample.world0))
  /\ snd (start (Sample.env Sample.config_skips) Sample.world0) = Ok tt
  /\ start (Sample.env (Ok YNone)) Sample.world0
     = (Sample.world0, Raise (Exception "Can't load config"))
  /\ start (Sample.env (Ok (YDict [("books", YNone)]))) Sample.world0
     = (Sample.world0, Raise (Exception "Can't find ebooks section data")).
Proof.
  destruct (C9_skipped_books_and_startup_errors (Sample.env Sample.config_skips))
    as (S1 & S2 & _ & _).
  split.
  - rewrite (start_eq (Sample.env Sample.config_skips) _ _ _ eq_refl eq_refl)
      by discriminate.
    etransitivity; [apply (S1 "nopath" [("title", YStr "No path")]); reflexivity|].
    apply (S2 "ghost" [("path", YStr "/books/ghost")] "/books/ghost");
      [reflexivity | discriminate | reflexivity].
  - split; [vm_compute; reflexivity|]. split.
    + apply (proj1 (proj2 (proj2 (C9_skipped_books_and_startup_errors
                                     (Sample.env (Ok YNone))))) YNone);
        reflexivity.
    + apply (proj2 (proj2 (proj2 (C9_skipped_books_and_startup_errors
                                     (Sample.env (Ok (YDict [("books", YNone)]))))))
               [("books", YNone)]);
        [reflexivity | discriminate | exact I].
Defined.

(** C6, as the program has it.  An exception of the build of a book is not
    caught: it stops the run.  When the books configured before a book were
    processed and the build of that book raises, [start] raises the same
    exception in the world of the failure, so no book configured after it
    is processed.  A chapter file without a number is such a failure: the
    constructor of the book raises [AttributeError]. *)
Theorem C6_book_error_stops_the_run (env : Env) :
  (forall d before item after w w1 w2 e,
     config_yaml env = Ok (YDict d) ->
     assoc "ebooks" d = Some (YDict (before ++ item :: after)) ->
     for_each (start_book env) before w = (w1, Ok tt) ->
     start_book env item w1 = (w2, Raise e) ->
     start env w = (w2, Raise e))
  /\ (forall name d p files f w,
        assoc "path" d = Some (YStr p) -> p <> EmptyString ->
        path_exists env (abspath env p) = true ->
        listdir env (abspath env p) = Ok files ->
        In f files -> endswith f ".pdf" = true -> parsable f = false ->
        start_book env (name, YDict d) w = (after_uuid4 w, Raise AttributeError)).
Proof.
  split.
  - intros d before item after w w1 w2 e C E B F.
    rewrite (start_eq env d (before ++ item :: after) w C E)
      by (destruct before; discriminate).
    now apply for_each_raise with (w1 := w1).
  - intros name d p files f w P N X L I S U.
    rewrite start_book_eq. cbn [yaml_get]. rewrite P. cbn [truthy os_path_abspath].
    apply String.eqb_neq in N. rewrite N. cbn [negb]. rewrite X.
    unfold EbookManager.init_pdf_list. rewrite L.
    rewrite collect_pdf_files_unparsable by eauto. reflexivity.
Qed.

Lemma C6_witness :
  start_book (Sample.env Sample.config_unparsable_first)
    (Sample.book "nodigits" "/books/nodigits") Sample.world0
  = (after_uuid4 Sample.world0, Raise AttributeError)
  /\ start (Sample.env Sample.config_unparsable_first) Sample.world0
     = (after_uuid4 Sample.world0, Raise AttributeError).
Proof.
  destruct (C6_book_error_stops_the_run (Sample.env Sample.config_unparsable_first))
    as [R U].
  assert (B : start_book (Sample.env Sample.config_unparsable_first)
                (Sample.book "nodigits" "/books/nodigits") Sample.world0
              = (after_uuid4 Sample.world0, Raise AttributeError)).
  { apply (U "nodigits" _ "/books/nodigits" ["cover.pdf"] "cover.pdf");
      [reflexivity | discriminate | reflexivity | reflexivity
       | left; reflexivity | reflexivity | reflexivity]. }
  split; [exact B|].
  apply (R [("ebooks", YDict [Sample.book "nodigits" "/books/nodigits";
                               Sample.book "manga" "/books/manga"])]
           [] (Sample.book "nodigits" "/books/nodigits")
           [Sample.book "manga" "/books/manga"] Sample.world0 Sample.world0);
    [reflexivity | reflexivity | reflexivity | exact B].
Defined.

(** C6 as stated fails: the first configured book has a chapter file
    without a number, the run stops with [AttributeError], and the second
    book, which is built when it is configured alone, gets no archive. *)
Lemma C6_counterexample :
  snd (start (Sample.env Sample.config_unparsable_first) Sample.world0)
  = Raise AttributeError
  /\ disk_read "manga.epub"
       (disk (fst (start (Sample.env Sample.config_unparsable_first) Sample.world0)))
     = None
  /\ snd (start (Sample.env Sample.config_manga) Sample.world0) = Ok tt
  /\ (exists entries,
        disk_read "manga.epub"
          (disk (fst (start (Sample.env Sample.config_manga) Sample.world0)))
        = Some entries).
Proof.
  split; [vm_compute; reflexivity|].
  split; [vm_compute; reflexivity|].
  split; [vm_compute; reflexivity|].
  eexists. vm_compute. reflexivity.
Qed.

Lemma rendered_ok (env : Env) (chapters : list ChapterData.t) :
  Forall (fun ci => convert_from_path env (ChapterData.path (fst ci)) IMAGE_DPI
                    = Ok (snd ci))
         (fst (rendered env chapters)).
Proof.
  induction chapters as [|ch chapters IH]; simpl; [constructor|].
  destruct (convert_from_path env (ChapterData.path ch) IMAGE_DPI) as [images|e] eqn:C;
    [|constructor].
  destruct (rendered env chapters) as [done failure]; simpl in *. auto.
Qed.

(** C7, as the program has it.  A chapter file without a number makes the
    constructor of the book raise [AttributeError] before the archive is
    opened: no file is created and an archive of an earlier run is left as it
    is.  A build that raises later (a chapter that cannot be rendered, a
    chapter without a page) leaves the archive under its final name with what
    was written until then: the two fixed entries and the pages of the
    chapters rendered before the failure, in place of any earlier archive;
    the other files are left as they are. *)
Theorem C7_failed_build_leaves_partial_archive
    (env : Env) (name pdfs_path : string) (w0 : World) :
  (forall files f,
     listdir env pdfs_path = Ok files ->
     In f files -> endswith f ".pdf" = true -> parsable f = false ->
     exists w1,
       EbookManager.init env name pdfs_path w0 = (w1, Raise AttributeError)
       /\ disk w1 = disk w0)
  /\ (forall w1 self w2 e,
        EbookManager.init env name pdfs_path w0 = (w1, Ok self) ->
        EbookManager.create_ebook env self w1 = (w2, Raise e) ->
        exists done,
          map fst done = firstn (List.length done) (EbookManager.pdf_files self)
          /\ Forall (fun ci => convert_from_path env (ChapterData.path (fst ci)) IMAGE_DPI
                               = Ok (snd ci)) done
          /\ disk_read (name ++ ".epub") (disk w2)
             = Some ([mkZipEntry "mimetype" "application/epub+zip" ZIP_STORED;
                      mkZipEntry "META-INF/container.xml" CONTAINER_XML ZIP_STORED]
                     ++ flat_map (fun ci => flat_map (page_files env (fst ci))
                                              (enumerate (snd ci))) done)%list
          /\ forall other, other <> name ++ ".epub" ->
                           disk_read other (disk w2) = disk_read other (disk w0)).
Proof.
  split.
  - intros files f L I S U. rewrite init_eq. unfold EbookManager.init_pdf_list. rewrite L.
    rewrite collect_pdf_files_unparsable by eauto.
    eexists. split; reflexivity.
  - intros w1 self w2 e. rewrite init_eq.
    destruct (EbookManager.init_pdf_list env pdfs_path) as [chs|e0]; [|discriminate].
    intros [= <- <-]. rewrite create_fresh_eq.
    assert (P : forall w,
              w = partial_world env (fresh_manager name pdfs_path
                                       (uuid4_hex env (uuid_calls w0)) chs)
                    (fst (rendered env chs)) (after_uuid4 w0) ->
              exists done,
                map fst done = firstn (List.length done) chs
                /\ Forall (fun ci => convert_from_path env (ChapterData.path (fst ci)) IMAGE_DPI
                                     = Ok (snd ci)) done
                /\ disk_read (name ++ ".epub") (disk w)
                   = Some (archive_head
                           ++ flat_map (fun ci => flat_map (page_files env (fst ci))
                                                    (enumerate (snd ci))) done)%list
                /\ forall other, other <> name ++ ".epub" ->
                                 disk_read other (disk w) = disk_read other (disk w0)).
    { intros w ->. exists (fst (rendered env chs)).
      split; [apply rendered_prefix|]. split; [apply rendered_ok|].
      cbn [partial_world disk disk_read assoc fresh_manager EbookManager.output_name
           after_uuid4].
      rewrite String.eqb_refl. split; [reflexivity|].
      intros other N. apply String.eqb_neq in N. rewrite String.eqb_sym in N.
      rewrite N. apply disk_read_remove_other. now apply String.eqb_neq in N;
        intros E; apply N; rewrite E. }
    cbn [EbookManager.pdf_files fresh_manager].
    destruct (snd (rendered env chs)) as [e1|].
    + intros [= <- _]. now apply P.
    + destruct (forallb has_page _); [discriminate|]. intros [= <- _]. now apply P.
Qed.

Lemma C7_witness :
  exists w2 done,
    EbookManager.init Sample.machine "broken" "/books/broken" Sample.world_with_old_archive
    = (after_uuid4 Sample.world_with_old_archive,
       Ok (fresh_manager "broken" "/books/broken" "uuid0"
             [ChapterData.mk "Ch1.pdf" "/books/broken/Ch1.pdf" 1 "Chapter 1";
              ChapterData.mk "Ch2.pdf" "/books/broken/Ch2.pdf" 2 "Chapter 2"]))
    /\ EbookManager.create_ebook Sample.machine
         (fresh_manager "broken" "/books/broken" "uuid0"
            [ChapterData.mk "Ch1.pdf" "/books/broken/Ch1.pdf" 1 "Chapter 1";
             ChapterData.mk "Ch2.pdf" "/books/broken/Ch2.pdf" 2 "Chapter 2"])
         (after_uuid4 Sample.world_with_old_archive)
       = (w2, Raise PDFError)
    /\ disk_read "broken.epub" (disk w2)
       = Some ([mkZipEntry "mimetype" "application/epub+zip" ZIP_STORED;
                mkZipEntry "META-INF/container.xml" CONTAINER_XML ZIP_STORED]
               ++ flat_map (fun ci => flat_map (page_files Sample.machine (fst ci))
                                        (enumerate (snd ci))) done)%list.
Proof.
  assert (C : exists w2,
            EbookManager.create_ebook Sample.machine
              (fresh_manager "broken" "/books/broken" "uuid0"
                 [ChapterData.mk "Ch1.pdf" "/books/broken/Ch1.pdf" 1 "Chapter 1";
                  ChapterData.mk "Ch2.pdf" "/books/broken/Ch2.pdf" 2 "Chapter 2"])
              (after_uuid4 Sample.world_with_old_archive)
            = (w2, Raise PDFError)).
  { eexists. vm_compute. reflexivity. }
  destruct C as [w2 C].
  destruct (proj2 (C7_failed_build_leaves_partial_archive Sample.machine
                     "broken" "/books/broken" Sample.world_with_old_archive)
              _ _ w2 PDFError eq_refl C) as (done & _ & _ & D & _).
  exists w2, done. split; [reflexivity|]. split; [exact C | exact D].
Defined.

(** C7 as stated fails: the second chapter of the book cannot be rendered,
    the run stops with [PDFError], and the archive of the earlier run is
    replaced by one with the four entries written before the failure,
    without package document and navigation document. *)
Lemma C7_counterexample :
  disk_read "broken.epub" (disk Sample.world_with_old_archive) = Some Sample.old_archive
  /\ snd (start (Sample.env Sample.config_broken) Sample.world_with_old_archive)
     = Raise PDFError
  /\ (exists entries,
        disk_read "broken.epub"
          (disk (fst (start (Sample.env Sample.config_broken) Sample.world_with_old_archive)))
        = Some entries
        /\ map arcname entries
           = ["mimetype"; "META-INF/container.xml"; "OEBPS/chapter_1_page_1.xhtml";
              "OEBPS/static/chapter_1_page_1.png"]
        /\ entries <> Sample.old_archive).
Proof.
  split; [reflexivity|].
  split; [vm_compute; reflexivity|].
  eexists. split; [vm_compute; reflexivity|].
  split; [vm_compute; reflexivity|]. discriminate.
Qed.

(** C8, as the program has it.  For a directory without a chapter file the
    book has no chapter and the build is complete: the archive holds the two
    fixed entries, a package document whose manifest has only the entry of
    the navigation document and whose spine is empty, and a navigation
    document without [navPoint]; the two lines printed are those of every
    complete build, and none of them tells that no chapter was found. *)
Theorem C8_book_without_chapter_files_is_built
    (env : Env) (name pdfs_path : string) (files : list string) (w0 : World) :
  listdir env pdfs_path = Ok files ->
  (forall f, In f files -> endswith f ".pdf" = false) ->
  exists self w2 self',
    EbookManager.init env name pdfs_path w0 = (after_uuid4 w0, Ok self)
    /\ EbookManager.pdf_files self = []
    /\ EbookManager.create_ebook env self (after_uuid4 w0) = (w2, Ok self')
    /\ stdout w2
       = (stdout w0 ++ [start_line name; created_line (name ++ ".epub")])%list
    /\ (exists opf ncx,
          disk_read (name ++ ".epub") (disk w2)
          = Some [mkZipEntry "mimetype" "application/epub+zip" ZIP_STORED;
                  mkZipEntry "META-INF/container.xml" CONTAINER_XML ZIP_STORED;
                  mkZipEntry "OEBPS/content.opf" opf ZIP_DEFLATED;
                  mkZipEntry "OEBPS/toc.ncx" ncx ZIP_DEFLATED])
    /\ children (EbookXMLManager.manifest (EbookManager.xml_manager self'))
       = [Elem "item"
            [("id", "ncx"); ("href", "toc.ncx"); ("media-type", "application/x-dtbncx+xml")]
            None []]
    /\ children (EbookXMLManager.spine (EbookManager.xml_manager self')) = []
    /\ nth_error (children (EbookXMLManager.ncx (EbookManager.xml_manager self'))) 2
       = Some (Elem "navMap" [] None []).
Proof.
  intros L P. rewrite init_eq. unfold EbookManager.init_pdf_list. rewrite L.
  rewrite (collect_pdf_files_none pdfs_path files P).
  cbn [EbookManager.sorted EbookManager.decorate EbookManager.sort_by_key fold_right map].
  do 3 eexists. split; [reflexivity|]. split; [reflexivity|].
  rewrite create_fresh_eq. cbn [rendered fst snd book_toc map forallb].
  split; [reflexivity|].
  split; [reflexivity|].
  split.
  - cbn [complete_world disk disk_read assoc fresh_manager EbookManager.output_name].
    rewrite String.eqb_refl. do 2 eexists. reflexivity.
  - repeat split; reflexivity.
Qed.

Lemma C8_witness :
  exists self w2 self',
    listdir Sample.machine "/books/empty" = Ok ["readme.txt"]
    /\ EbookManager.init Sample.machine "empty" "/books/empty" Sample.world0
       = (after_uuid4 Sample.world0, Ok self)
    /\ EbookManager.create_ebook Sample.machine self (after_uuid4 Sample.world0)
       = (w2, Ok self')
    /\ stdout w2
       = ["create_ebook: empty"; EPUB_CREATED_MARK ++ " EPUB created: empty.epub"].
Proof.
  destruct (C8_book_without_chapter_files_is_built Sample.machine "empty" "/books/empty"
              ["readme.txt"] Sample.world0 eq_refl)
    as (self & w2 & self' & I & _ & C & S & _).
  - intros f [<-|[]]. reflexivity.
  - exists self, w2, self'. split; [reflexivity|]. split; [exact I|]. split; [exact C|].
    exact S.
Defined.

(** C8 as stated fails: the directory of the book holds no chapter file, the
    run ends without an exception, an archive with four entries is written,
    and the two lines printed do not tell that no chapter was found. *)
Lemma C8_counterexample :
  listdir (Sample.env Sample.config_empty_directory) "/books/empty" = Ok ["readme.txt"]
  /\ snd (start (Sample.env Sample.config_empty_directory) Sample.world0) = Ok tt
  /\ stdout (fst (start (Sample.env Sample.config_empty_directory) Sample.world0))
     = ["create_ebook: empty"; EPUB_CREATED_MARK ++ " EPUB created: empty.epub"]
  /\ (exists entries,
        disk_read "empty.epub"
          (disk (fst (start (Sample.env Sample.config_empty_directory) Sample.world0)))
        = Some entries
        /\ map arcname entries
           = ["mimetype"; "META-INF/container.xml"; "OEBPS/content.opf"; "OEBPS/toc.ncx"]).
Proof.
  split; [reflexivity|].
  split; [vm_compute; reflexivity|].
  split; [vm_compute; reflexivity|].
  eexists. split; vm_compute; reflexivity.
Qed.

(** * Further properties of the program *)

(** ** The two readings of the number of a chapter file *)

Lemma isspace_not_digit (c : ascii) : isspace c = true -> isdigit c = false.
Proof. destruct c as [[] [] [] [] [] [] [] []]; try reflexivity; discriminate. Qed.

Lemma startswith_nil (s : string) : startswith s EmptyString = true.
Proof. now destruct s. Qed.

Lemma startswith_refl (s : string) : startswith s s = true.
Proof. induction s as [|c s IH]; [reflexivity|]. simpl. now rewrite Ascii.eqb_refl. Qed.

Lemma startswith_append (s pre : string) :
  startswith s pre = true -> exists r, s = pre ++ r.
Proof.
  revert s; induction pre as [|a pre IH]; intros s H; [now exists s|].
  destruct s as [|b s]; [discriminate|]. simpl in H.
  apply andb_true_iff in H as [E H]. apply Ascii.eqb_eq in E; subst b.
  destruct (IH s H) as [r ->]. now exists r.
Qed.

Lemma startswith_length (s pre : string) :
  startswith s pre = true -> String.length pre <= String.length s.
Proof.
  intros H. apply startswith_append in H as [r ->]. rewrite length_append. lia.
Qed.

Lemma startswith_antisym (a b : string) :
  startswith a b = true -> startswith b a = true -> a = b.
Proof.
  intros H K. apply startswith_length in K.
  apply startswith_append in H as [r ->]. rewrite length_append in K.
  destruct r; [now rewrite append_nil_r | simpl in K; lia].
Qed.

Lemma startswith_trans (a b c : string) :
  startswith a b = true -> startswith b c = true -> startswith a c = true.
Proof.
  revert a b; induction c as [|x c IH]; intros a b H K; [apply startswith_nil|].
  destruct b as [|y b]; [discriminate|]. destruct a as [|z a]; [discriminate|].
  simpl in *. apply andb_true_iff in H as [E1 H]. apply andb_true_iff in K as [E2 K].
  apply Ascii.eqb_eq in E1, E2; subst. rewrite Ascii.eqb_refl. simpl. eauto.
Qed.

Lemma has_digit_digits_of (s : string) :
  has_digit s = negb (digits_of s =? EmptyString).
Proof.
  induction s as [|c s IH]; [reflexivity|]. rewrite has_digit_cons. simpl.
  destruct (isdigit c); [reflexivity | exact IH].
Qed.

Lemma digits_of_append (a b : string) : digits_of (a ++ b) = digits_of a ++ digits_of b.
Proof.
  induction a as [|c a IH]; [reflexivity|]. simpl. rewrite IH. now destruct (isdigit c).
Qed.

Lemma digits_of_digits (s : string) : all_digits s = true -> digits_of s = s.
Proof.
  induction s as [|c s IH]; [reflexivity|]. rewrite all_digits_cons. intros H.
  apply andb_true_iff in H as [C H]. simpl. now rewrite C, IH.
Qed.

Lemma digits_of_none (s : string) : has_digit s = false -> digits_of s = EmptyString.
Proof.
  rewrite has_digit_digits_of. intros H. apply negb_false_iff in H.
  now apply String.eqb_eq in H.
Qed.

Lemma take_digits_digits (s : string) : all_digits (take_digits s) = true.
Proof.
  induction s as [|c s IH]; [reflexivity|]. simpl.
  destruct (isdigit c) eqn:C; [|reflexivity]. now rewrite all_digits_cons, C, IH.
Qed.

Lemma take_digits_prefix (s : string) : startswith (digits_of s) (take_digits s) = true.
Proof.
  induction s as [|c s IH]; [reflexivity|]. simpl.
  destruct (isdigit c); [|apply startswith_nil]. simpl. now rewrite Ascii.eqb_refl.
Qed.

(** The match of [\d+] is a run of digits, not empty, at the start of the
    digits of the string. *)
Lemma search_digits_some (s d : string) :
  search_digits s = Some d ->
  all_digits d = true /\ d <> EmptyString /\ startswith (digits_of s) d = true.
Proof.
  induction s as [|c s IH]; [discriminate|]. simpl.
  destruct (isdigit c) eqn:C.
  - intros [= <-]. rewrite all_digits_cons, C, take_digits_digits.
    repeat split; [discriminate|]. simpl. rewrite Ascii.eqb_refl. apply take_digits_prefix.
  - exact IH.
Qed.

Lemma dropping_zero (s : string) : dropping 0 s EmptyString.
Proof. repeat split. Qed.

Section Removal.
Variable old : string.
Hypothesis old_not_empty : old <> EmptyString.
Hypothesis old_no_digit : has_digit old = false.

(** One step of [replace old ""] on a string that is not empty. *)
Lemma replace_from_step (c : ascii) (s : string) (skip : nat) (t : string) :
  dropping skip (String c s) t ->
  (isdigit c = false /\ exists skip' t',
      dropping skip' s t'
      /\ replace_from old EmptyString skip (String c s)
         = replace_from old EmptyString skip' s)
  \/ (skip = 0 /\ dropping 0 s EmptyString
      /\ replace_from old EmptyString skip (String c s)
         = String c (replace_from old EmptyString 0 s)).
Proof.
  intros (L & D & P). destruct t as [|b t].
  - simpl in L; subst skip. cbn [replace_from].
    destruct (startswith (String c s) old) eqn:M.
    + left. destruct old as [|a old']; [congruence|].
      simpl in M. apply andb_true_iff in M as [E M]. apply Ascii.eqb_eq in E; subst a.
      rewrite has_digit_cons in old_no_digit.
      apply orb_false_iff in old_no_digit as [C O].
      split; [exact C|]. exists (String.length old'), old'.
      split; [repeat split; assumption|].
      cbn [append].
      replace (String.length (String c old') - 1) with (String.length old')
        by (simpl; lia).
      reflexivity.
    + right. repeat split.
  - left. simpl in L; subst skip. simpl in P.
    apply andb_true_iff in P as [E P]. apply Ascii.eqb_eq in E; subst b.
    rewrite has_digit_cons in D. apply orb_false_iff in D as [C D].
    split; [exact C|]. exists (String.length t), t. split; [repeat split; assumption|].
    reflexivity.
Qed.

(** Removing the occurrences of a string without digit keeps the digits. *)
Lemma digits_of_replace_from (s : string) :
  forall skip t, dropping skip s t ->
  digits_of (replace_from old EmptyString skip s) = digits_of s.
Proof.
  induction s as [|c s IH]; intros skip t H; [reflexivity|].
  destruct (replace_from_step c s skip t H) as [(C & k & u & H' & ->)|(-> & H' & ->)].
  - cbn [digits_of]. rewrite C. eauto.
  - cbn [digits_of]. rewrite (IH _ _ H'). reflexivity.
Qed.

Lemma take_digits_replace_from (s : string) :
  forall skip t, dropping skip s t ->
  startswith (take_digits (replace_from old EmptyString skip s)) (take_digits s) = true.
Proof.
  induction s as [|c s IH]; intros skip t H; [apply startswith_nil|].
  destruct (replace_from_step c s skip t H) as [(C & k & u & H' & ->)|(-> & H' & ->)].
  - cbn [take_digits]. rewrite C. apply startswith_nil.
  - cbn [take_digits]. destruct (isdigit c); [|reflexivity].
    simpl. rewrite Ascii.eqb_refl. simpl. eauto.
Qed.

(** The first run of digits can only grow at its end. *)
Lemma search_digits_replace_from (s : string) :
  forall skip t d, dropping skip s t ->
  search_digits s = Some d ->
  exists d', search_digits (replace_from old EmptyString skip s) = Some d'
             /\ startswith d' d = true.
Proof.
  induction s as [|c s IH]; intros skip t d H S; [discriminate|].
  destruct (replace_from_step c s skip t H) as [(C & k & u & H' & ->)|(-> & H' & ->)].
  - cbn [search_digits] in S. rewrite C in S. eauto.
  - cbn [search_digits] in *. destruct (isdigit c) eqn:C.
    + injection S as <-. eexists. split; [reflexivity|].
      cbn [take_digits]. rewrite C. simpl. rewrite Ascii.eqb_refl. simpl.
      eapply take_digits_replace_from, H'.
    + eauto.
Qed.

End Removal.

Lemma digits_of_lstrip (s : string) : digits_of (lstrip s) = digits_of s.
Proof.
  induction s as [|c s IH]; [reflexivity|]. cbn [lstrip].
  destruct (isspace c) eqn:W; [|reflexivity].
  cbn [digits_of]. now rewrite (isspace_not_digit c W).
Qed.

Lemma search_digits_lstrip (s : string) : search_digits (lstrip s) = search_digits s.
Proof.
  induction s as [|c s IH]; [reflexivity|]. cbn [lstrip].
  destruct (isspace c) eqn:W; [|reflexivity].
  cbn [search_digits]. now rewrite (isspace_not_digit c W).
Qed.

Lemma rstrip_cons (c : ascii) (s : string) :
  rstrip (String c s) = EmptyString /\ isspace c = true
  \/ rstrip (String c s) = String c (rstrip s).
Proof.
  cbn [rstrip]. destruct (rstrip s); [|now right].
  destruct (isspace c); [now left | now right].
Qed.

Lemma digits_of_rstrip (s : string) : digits_of (rstrip s) = digits_of s.
Proof.
  induction s as [|c s IH]; [reflexivity|].
  assert (E : rstrip s = EmptyString -> digits_of s = EmptyString)
    by (intros E; now rewrite <- IH, E).
  cbn [rstrip digits_of]. destruct (rstrip s) eqn:R.
  - rewrite (E eq_refl). destruct (isspace c) eqn:W.
    + now rewrite (isspace_not_digit c W).
    + reflexivity.
  - cbn [digits_of]. now rewrite <- IH.
Qed.

Lemma take_digits_rstrip (s : string) : take_digits (rstrip s) = take_digits s.
Proof.
  induction s as [|c s IH]; [reflexivity|].
  destruct (rstrip_cons c s) as [[E W]| E]; rewrite E; cbn [take_digits].
  - now rewrite (isspace_not_digit c W).
  - now rewrite IH.
Qed.

Lemma search_digits_rstrip (s : string) : search_digits (rstrip s) = search_digits s.
Proof.
  induction s as [|c s IH]; [reflexivity|].
  pose proof (take_digits_rstrip (String c s)) as T.
  destruct (rstrip_cons c s) as [[E W]| E]; rewrite E in *; cbn [search_digits take_digits] in *.
  - rewrite (isspace_not_digit c W).
    rewrite <- IH. cbn [rstrip] in E. destruct (rstrip s); [reflexivity | discriminate].
  - destruct (isdigit c); [now rewrite T | exact IH].
Qed.

Lemma digits_of_cleaned (name : string) : digits_of (cleaned name) = digits_of name.
Proof.
  unfold cleaned, strip, replace.
  rewrite digits_of_rstrip, digits_of_lstrip.
  rewrite (digits_of_replace_from ".pdf") with (t := EmptyString);
    [|discriminate | reflexivity | apply dropping_zero].
  apply (digits_of_replace_from "Ch") with (t := EmptyString);
    [discriminate | reflexivity | apply dropping_zero].
Qed.

Lemma search_digits_cleaned (name d : string) :
  search_digits name = Some d ->
  exists d', search_digits (cleaned name) = Some d' /\ startswith d' d = true.
Proof.
  intros S. unfold cleaned, strip, replace.
  rewrite search_digits_rstrip, search_digits_lstrip.
  destruct (search_digits_replace_from "Ch" ltac:(discriminate) eq_refl
              name 0 EmptyString d (dropping_zero _) S) as (d1 & S1 & P1).
  destruct (search_digits_replace_from ".pdf" ltac:(discriminate) eq_refl
              _ 0 EmptyString d1 (dropping_zero _) S1) as (d2 & S2 & P2).
  exists d2. split; [exact S2|]. eapply startswith_trans; eassumption.
Qed.

Lemma parsable_has_digit (name : string) : parsable name = has_digit name.
Proof.
  unfold parsable. fold (cleaned name).
  now rewrite !has_digit_digits_of, digits_of_cleaned.
Qed.

Lemma int_from_append (a b : string) (acc : N) :
  int_from acc (a ++ b) = int_from (int_from acc a) b.
Proof. revert acc; induction a as [|c a IH]; intros acc; simpl; [reflexivity | apply IH]. Qed.

Lemma int_from_le (s : string) (acc : N) : (acc <= int_from acc s)%N.
Proof.
  revert acc; induction s as [|c s IH]; intros acc; simpl; [lia|].
  etransitivity; [|apply IH]. lia.
Qed.

Lemma int_prefix_le (d d' : string) : startswith d' d = true -> (int d <= int d')%N.
Proof.
  intros H. apply startswith_append in H as [r ->]. unfold int.
  rewrite int_from_append. apply int_from_le.
Qed.

Lemma int_from_uint (d : uint) :
  forall acc : N,
  int_from acc (NilEmpty.string_of_uint d)
  = (acc * 10 ^ DecimalPos.Unsigned.usize d + Pos.of_uint d)%N.
Proof.
  induction d; intros acc;
    cbn [NilEmpty.string_of_uint int_from];
    [simpl; lia | rewrite IHd ..];
    cbn [Pos.of_uint DecimalPos.Unsigned.usize];
    rewrite ?DecimalPos.Unsigned.of_uint_acc_rev, <- ?DecimalPos.Unsigned.of_uint_alt;
    rewrite N.pow_succ_r';
    change (N_of_ascii "0" - 48)%N with 0%N;
    change (N_of_ascii "1" - 48)%N with 1%N;
    change (N_of_ascii "2" - 48)%N with 2%N;
    change (N_of_ascii "3" - 48)%N with 3%N;
    change (N_of_ascii "4" - 48)%N with 4%N;
    change (N_of_ascii "5" - 48)%N with 5%N;
    change (N_of_ascii "6" - 48)%N with 6%N;
    change (N_of_ascii "7" - 48)%N with 7%N;
    change (N_of_ascii "8" - 48)%N with 8%N;
    change (N_of_ascii "9" - 48)%N with 9%N;
    ring.
Qed.

(** [int] reads back what [str] writes. *)
Lemma int_str (n : N) : int (str n) = n.
Proof.
  unfold int, str. rewrite int_from_uint. simpl. apply DecimalN.Unsigned.of_to.
Qed.

Lemma str_not_empty (n : N) : str n <> EmptyString.
Proof.
  intros E. pose proof (int_str n) as H. rewrite E in H. cbn in H. subst n. discriminate.
Qed.

Lemma search_digits_no_digit (pre s : string) :
  has_digit pre = false -> search_digits (pre ++ s) = search_digits s.
Proof.
  induction pre as [|c pre IH]; [reflexivity|]. rewrite has_digit_cons.
  intros H. apply orb_false_iff in H as [C H]. simpl. now rewrite C, IH.
Qed.

Lemma take_digits_run (digits post : string) :
  all_digits digits = true -> has_digit post = false ->
  take_digits (digits ++ post) = digits.
Proof.
  intros D P. induction digits as [|c digits IH].
  - destruct post as [|x post]; [reflexivity|]. rewrite has_digit_cons in P.
    apply orb_false_iff in P as [X _]. simpl. now rewrite X.
  - rewrite all_digits_cons in D. apply andb_true_iff in D as [C D].
    simpl. now rewrite C, IH.
Qed.

(** A name whose digits stand in one run. *)
Lemma search_digits_single_run (pre digits post : string) :
  has_digit pre = false -> all_digits digits = true -> digits <> EmptyString ->
  has_digit post = false ->
  search_digits (pre ++ digits ++ post) = Some digits
  /\ digits_of (pre ++ digits ++ post) = digits.
Proof.
  intros P D N Q. split.
  - rewrite search_digits_no_digit by exact P.
    destruct digits as [|c digits]; [congruence|].
    pose proof (take_digits_run _ _ D Q) as T.
    rewrite all_digits_cons in D. apply andb_true_iff in D as [C _].
    cbn [append search_digits]. rewrite C. cbn [append] in T. now rewrite T.
  - rewrite !digits_of_append, (digits_of_none pre P), (digits_of_none post Q),
      (digits_of_digits digits D).
    apply append_nil_r.
Qed.

(** X1.  [ChapterData] can be made of a file name exactly when the name has a
    decimal digit: removing [Ch] and [.pdf] and the blanks at the ends
    neither removes nor brings a digit.  Without a digit the constructor
    raises [AttributeError], and it raises nothing else. *)
Theorem X1_chapter_needs_a_digit (name path : string) :
  ((exists ch, ChapterData.init name path = Ok ch) <-> has_digit name = true)
  /\ (ChapterData.init name path = Raise AttributeError <-> has_digit name = false)
  /\ (forall e, ChapterData.init name path = Raise e -> e = AttributeError)
  /\ (forall ch, ChapterData.init name path = Ok ch ->
        ChapterData.name ch = name /\ ChapterData.path ch = path
        /\ ChapterData.chapter_title ch
           = "Chapter " ++ str (ChapterData.chapter_number ch)).
Proof.
  rewrite <- parsable_has_digit. unfold parsable, has_digit, ChapterData.init.
  destruct (search_digits _) as [d|].
  - split; [split; eauto|]. split; [split; discriminate|].
    split; [discriminate|]. intros ch [= <-]. repeat split.
  - split; [split; [intros [ch H]; discriminate | discriminate]|].
    split; [split; intros; reflexivity|].
    split; [intros e [= <-]; reflexivity | discriminate].
Qed.

(** X2.  The sort key of a chapter is at most its chapter number: the run of
    digits that [chapter_sorting] reads in the file name is the start of the
    run that [ChapterData] reads after [Ch] and [.pdf] were removed.  So
    [chapter_sorting] raises for no chapter that was made. *)
Theorem X2_sort_key_starts_chapter_number (name path : string) (ch : ChapterData.t) :
  ChapterData.init name path = Ok ch ->
  exists d d',
    search_digits name = Some d
    /\ search_digits (cleaned name) = Some d'
    /\ startswith d' d = true
    /\ EbookManager.chapter_sorting ch = Ok (int d)
    /\ ChapterData.chapter_number ch = int d'
    /\ (int d <= int d')%N.
Proof.
  intros I.
  assert (H : has_digit name = true).
  { apply has_digit_stripped. apply (proj1 (init_parsable name path)). eauto. }
  unfold has_digit in H. destruct (search_digits name) as [d|] eqn:S; [|discriminate].
  destruct (search_digits_cleaned name d S) as (d' & S' & P).
  exists d, d'. unfold ChapterData.init in I. fold (cleaned name) in I.
  rewrite S' in I. injection I as <-.
  unfold EbookManager.chapter_sorting. cbn [ChapterData.name ChapterData.chapter_number].
  rewrite S. repeat split; auto using int_prefix_le.
Qed.

Lemma X2_witness :
  ChapterData.init "Vol1Ch10.pdf" "/books/volumes/Vol1Ch10.pdf"
  = Ok (ChapterData.mk "Vol1Ch10.pdf" "/books/volumes/Vol1Ch10.pdf" 110 "Chapter 110")
  /\ exists d d',
       search_digits "Vol1Ch10.pdf" = Some d
       /\ search_digits (cleaned "Vol1Ch10.pdf") = Some d'
       /\ startswith d' d = true
       /\ EbookManager.chapter_sorting
            (ChapterData.mk "Vol1Ch10.pdf" "/books/volumes/Vol1Ch10.pdf" 110 "Chapter 110")
          = Ok (int d)
       /\ 110%N = int d'
       /\ (int d <= int d')%N.
Proof.
  split; [reflexivity|].
  apply (X2_sort_key_starts_chapter_number "Vol1Ch10.pdf" "/books/volumes/Vol1Ch10.pdf"
           (ChapterData.mk "Vol1Ch10.pdf" "/books/volumes/Vol1Ch10.pdf" 110 "Chapter 110")).
  reflexivity.
Defined.

Lemma init_one_run (name digits path : string) :
  search_digits name = Some digits -> digits_of name = digits ->
  ChapterData.init name path
  = Ok (ChapterData.mk name path (int digits) ("Chapter " ++ str (int digits)))
  /\ EbookManager.chapter_sorting
       (ChapterData.mk name path (int digits) ("Chapter " ++ str (int digits)))
     = Ok (int digits).
Proof.
  intros S G.
  destruct (search_digits_cleaned _ _ S) as (d' & S' & H).
  assert (E : d' = digits).
  { apply startswith_antisym; [exact H|].
    destruct (search_digits_some _ _ S') as (_ & _ & K).
    now rewrite digits_of_cleaned, G in K. }
  subst d'. unfold ChapterData.init, EbookManager.chapter_sorting.
  fold (cleaned name). rewrite S'.
  cbn [ChapterData.name]. now rewrite S.
Qed.

Lemma init_single_run (pre digits post path : string) :
  has_digit pre = false -> all_digits digits = true -> digits <> EmptyString ->
  has_digit post = false ->
  ChapterData.init (pre ++ digits ++ post) path
  = Ok (ChapterData.mk (pre ++ digits ++ post) path (int digits)
          ("Chapter " ++ str (int digits)))
  /\ EbookManager.chapter_sorting
       (ChapterData.mk (pre ++ digits ++ post) path (int digits)
          ("Chapter " ++ str (int digits)))
     = Ok (int digits).
Proof.
  intros P D N Q.
  destruct (search_digits_single_run pre digits post P D N Q) as [S G].
  now apply init_one_run.
Qed.

(** X3.  When the digits of a file name stand in one run (the name is
    [pre ++ digits ++ post] with no digit in [pre] and [post]), the chapter
    number and the sort key are both the value of that run, whatever [Ch],
    [.pdf] or blanks the name holds; leading zeros do not count. *)
Theorem X3_single_run_number_is_key (pre digits post path : string) :
  has_digit pre = false -> all_digits digits = true -> digits <> EmptyString ->
  has_digit post = false ->
  ChapterData.init (pre ++ digits ++ post) path
  = Ok (ChapterData.mk (pre ++ digits ++ post) path (int digits)
          ("Chapter " ++ str (int digits)))
  /\ EbookManager.chapter_sorting
       (ChapterData.mk (pre ++ digits ++ post) path (int digits)
          ("Chapter " ++ str (int digits)))
     = Ok (int digits).
Proof. apply init_single_run. Qed.

Lemma X3_witness :
  ChapterData.init "my Ch. 007 .pdf" "/b/my Ch. 007 .pdf"
  = Ok (ChapterData.mk "my Ch. 007 .pdf" "/b/my Ch. 007 .pdf" 7 "Chapter 7")
  /\ EbookManager.chapter_sorting
       (ChapterData.mk "my Ch. 007 .pdf" "/b/my Ch. 007 .pdf" 7 "Chapter 7")
     = Ok 7%N.
Proof.
  apply (X3_single_run_number_is_key "my Ch. " "007" " .pdf" "/b/my Ch. 007 .pdf");
    [reflexivity | reflexivity | discriminate | reflexivity].
Defined.

(** X4.  The file [Ch{n}.pdf] is chapter [n]: its chapter number and its
    sort key are [n] and its title is [Chapter {n}], for every [n]. *)
Theorem X4_conventional_name (n : N) (path : string) :
  ChapterData.init ("Ch" ++ str n ++ ".pdf") path
  = Ok (ChapterData.mk ("Ch" ++ str n ++ ".pdf") path n ("Chapter " ++ str n))
  /\ EbookManager.chapter_sorting
       (ChapterData.mk ("Ch" ++ str n ++ ".pdf") path n ("Chapter " ++ str n))
     = Ok n.
Proof.
  pose proof (init_single_run "Ch" (str n) ".pdf" path eq_refl (str_digits n)
                (str_not_empty n) eq_refl) as H.
  now rewrite int_str in H.
Qed.

(** ** The discovery of the chapter files *)

Lemma init_name_path (name path : string) (ch : ChapterData.t) :
  ChapterData.init name path = Ok ch ->
  ChapterData.name ch = name /\ ChapterData.path ch = path.
Proof.
  unfold ChapterData.init. destruct (search_digits _); [|discriminate].
  now intros [= <-].
Qed.

Lemma collect_pdf_files_names (pdfs_path : string) (files : list string) :
  forall acc chs,
  EbookManager.collect_pdf_files pdfs_path files acc = Ok chs ->
  map ChapterData.name chs = (map ChapterData.name acc ++ filter is_pdf files)%list
  /\ map ChapterData.path chs
     = (map ChapterData.path acc ++ map (path_join pdfs_path) (filter is_pdf files))%list.
Proof.
  induction files as [|f files IH]; intros acc chs; cbn [EbookManager.collect_pdf_files filter].
  - intros [= <-]. now rewrite !app_nil_r.
  - assert (U : is_pdf f = endswith f ".pdf") by reflexivity. rewrite !U.
    destruct (endswith f ".pdf") eqn:E; cbn [negb].
    + destruct (ChapterData.init f (path_join pdfs_path f)) as [ch|e] eqn:C; [|discriminate].
      intros H. destruct (IH _ _ H) as [N P].
      destruct (init_name_path _ _ _ C) as [Nf Pf].
      rewrite N, P, !map_app, <- !app_assoc. cbn [map app]. rewrite Nf, Pf. split; reflexivity.
    + apply IH.
Qed.

(** X5.  The chapters of a book are made of the directory entries whose name
    ends with [.pdf], and of no other entry: when the directory can be listed
    and each of these names has a digit, the discovery returns one chapter
    per such entry, with the path of the entry in the directory, in the
    ascending order of the sort keys.  It raises [AttributeError] when one
    of these names has no digit, and the exception of [os.listdir] when the
    directory cannot be listed. *)
Theorem X5_discovery (env : Env) (pdfs_path : string) :
  (forall e, listdir env pdfs_path = Raise e ->
             EbookManager.init_pdf_list env pdfs_path = Raise e)
  /\ (forall files,
        listdir env pdfs_path = Ok files ->
        (forall f, In f files -> is_pdf f = true -> has_digit f = true) ->
        exists chs ks,
          EbookManager.init_pdf_list env pdfs_path = Ok chs
          /\ Permutation (map ChapterData.name chs) (filter is_pdf files)
          /\ (forall ch, In ch chs ->
                ChapterData.path ch = path_join pdfs_path (ChapterData.name ch))
          /\ Forall2 (fun ch k => EbookManager.chapter_sorting ch = Ok k) chs ks
          /\ ascending ks = true)
  /\ (forall files f,
        listdir env pdfs_path = Ok files ->
        In f files -> is_pdf f = true -> has_digit f = false ->
        EbookManager.init_pdf_list env pdfs_path = Raise AttributeError).
Proof.
  split; [|split].
  - intros e L. unfold EbookManager.init_pdf_list. now rewrite L.
  - intros files L D.
    destruct (init_pdf_list_total env pdfs_path files L) as [chs I].
    { intros f F P. rewrite parsable_has_digit. now apply D. }
    destruct (init_pdf_list_ok env _ _ I) as (files' & L' & M & ks & K & A).
    rewrite L in L'. injection L' as <-.
    exists chs, ks. split; [exact I|]. split; [|split; [|split; assumption]].
    + unfold EbookManager.init_pdf_list in I. rewrite L in I.
      destruct (EbookManager.collect_pdf_files pdfs_path files []) as [found|] eqn:C;
        [|discriminate].
      apply collect_pdf_files_names in C as [N _]. change (map ChapterData.name found = filter is_pdf files) in N. rewrite <- N.
      apply sorted_ok in I as [P _]. symmetry. now apply Permutation_map.
    + intros ch J. rewrite Forall_forall in M. destruct (M ch J) as (f & _ & _ & C).
      destruct (init_name_path _ _ _ C) as [-> ->]. reflexivity.
  - intros files f L F P D. unfold EbookManager.init_pdf_list. rewrite L.
    rewrite collect_pdf_files_unparsable; [reflexivity|].
    exists f. rewrite parsable_has_digit. auto.
Qed.

Lemma X5_witness :
  exists chs ks,
    listdir Sample.machine "/books/manga" = Ok ["Ch2.pdf"; "notes.txt"; "Ch1.pdf"]
    /\ EbookManager.init_pdf_list Sample.machine "/books/manga" = Ok chs
    /\ Permutation (map ChapterData.name chs) ["Ch2.pdf"; "Ch1.pdf"]
    /\ Forall2 (fun ch k => EbookManager.chapter_sorting ch = Ok k) chs ks
    /\ ascending ks = true.
Proof.
  destruct (proj1 (proj2 (X5_discovery Sample.machine "/books/manga"))
              ["Ch2.pdf"; "notes.txt"; "Ch1.pdf"] eq_refl)
    as (chs & ks & I & P & _ & K & A).
  - intros f [<-|[<-|[<-|[]]]]; intros; try reflexivity; discriminate.
  - exists chs, ks. repeat (split; [assumption || reflexivity|]). exact A.
Defined.

(** X6.  When the directory can be listed and the digits of every chapter
    file name stand in one run, the discovery returns the chapters in the
    ascending order of their chapter numbers, and the number of each chapter
    is the value of the digits of its file name. *)
Theorem X6_single_run_names_give_number_order
    (env : Env) (pdfs_path : string) (files : list string) :
  listdir env pdfs_path = Ok files ->
  (forall f, In f files -> is_pdf f = true -> single_run f = true) ->
  exists chs,
    EbookManager.init_pdf_list env pdfs_path = Ok chs
    /\ ascending (map ChapterData.chapter_number chs) = true
    /\ forall ch, In ch chs ->
         ChapterData.chapter_number ch = int (digits_of (ChapterData.name ch))
         /\ EbookManager.chapter_sorting ch = Ok (ChapterData.chapter_number ch).
Proof.
  intros L R.
  assert (Q : forall f, In f files -> is_pdf f = true ->
                search_digits f = Some (digits_of f)).
  { intros f F P. specialize (R f F P). unfold single_run in R.
    destruct (search_digits f) as [d|]; [|discriminate].
    apply String.eqb_eq in R. now subst d. }
  destruct (init_pdf_list_total env pdfs_path files L) as [chs I].
  { intros f F P. rewrite parsable_has_digit. unfold has_digit. now rewrite (Q f F P). }
  assert (A : forall ch, In ch chs ->
                ChapterData.chapter_number ch = int (digits_of (ChapterData.name ch))
                /\ EbookManager.chapter_sorting ch = Ok (ChapterData.chapter_number ch)).
  { intros ch J. destruct (init_pdf_list_ok env _ _ I) as (files' & L' & M & _).
    rewrite L in L'. injection L' as <-.
    rewrite Forall_forall in M. destruct (M ch J) as (f & F & P & C).
    destruct (init_one_run f (digits_of f) (path_join pdfs_path f) (Q f F P) eq_refl)
      as [C' K].
    rewrite C' in C. injection C as <-. split; [reflexivity | exact K]. }
  exists chs. split; [exact I|]. split; [|exact A].
  eapply chapters_ascending_when_keys_agree; [exact I|]. intros ch J. apply A, J.
Qed.

Lemma X6_witness :
  exists chs,
    listdir Sample.machine "/books/manga" = Ok ["Ch2.pdf"; "notes.txt"; "Ch1.pdf"]
    /\ EbookManager.init_pdf_list Sample.machine "/books/manga" = Ok chs
    /\ ascending (map ChapterData.chapter_number chs) = true.
Proof.
  destruct (X6_single_run_names_give_number_order Sample.machine "/books/manga"
              ["Ch2.pdf"; "notes.txt"; "Ch1.pdf"] eq_refl)
    as (chs & I & A & _).
  - intros f [<-|[<-|[<-|[]]]]; intros; try reflexivity; discriminate.
  - exists chs. split; [reflexivity|]. split; assumption.
Defined.

(** ** The pages of a chapter *)

(** X7.  The id of a page is the text [chapter_{n}_page_{k}] (it has no blank
    to remove), and it determines the chapter number and the page number.
    No page id is the id of an image entry ([{pageId}_img]) or the id [ncx]
    of the navigation entry, and no image id is [ncx]. *)
Theorem X7_page_id_scheme (n k n' k' : N) :
  ChapterData.page_id_of n k = "chapter_" ++ str n ++ "_page_" ++ str k
  /\ (ChapterData.page_id_of n k = ChapterData.page_id_of n' k' <-> n = n' /\ k = k')
  /\ ChapterData.page_id_of n k <> ChapterData.page_id_of n' k' ++ "_img"
  /\ ChapterData.page_id_of n k <> "ncx"
  /\ ChapterData.page_id_of n k ++ "_img" <> "ncx".
Proof.
  split; [apply page_id_of_eq|]. split; [|split; [|split]].
  - split; [apply page_id_of_inj | now intros [-> ->]].
  - apply page_id_of_not_img.
  - apply page_id_of_not_ncx.
  - apply page_id_img_not_ncx.
Qed.

Lemma disk_read_extend (file : string) (es : list ZipEntry) (d : Disk) :
  disk_read file (disk_extend file es d)
  = option_map (fun content => content ++ es)%list (disk_read file d).
Proof.
  unfold disk_read, disk_extend. induction d as [|[k v] d IH]; [reflexivity|].
  cbn [map fst snd]. destruct (k =? file) eqn:E; cbn [assoc]; rewrite E; [reflexivity|].
  exact IH.
Qed.

Lemma disk_read_extend_other (file other : string) (es : list ZipEntry) (d : Disk) :
  other <> file -> disk_read other (disk_extend file es d) = disk_read other d.
Proof.
  intros N. unfold disk_read, disk_extend. induction d as [|[k v] d IH]; [reflexivity|].
  cbn [map fst snd]. destruct (k =? file) eqn:E; cbn [assoc].
  - apply String.eqb_eq in E; subst k.
    assert (F : (file =? other) = false) by (apply String.eqb_neq; congruence).
    now rewrite F.
  - destruct (k =? other); [reflexivity | exact IH].
Qed.

Lemma chapter_files_length (env : Env) (ch : ChapterData.t) (images : list (Image env)) :
  List.length (chapter_files env ch images) = 2 * List.length images.
Proof.
  unfold chapter_files, enumerate. generalize 0%N.
  induction images as [|i images IH]; intros n; [reflexivity|].
  cbn [enumerate_from flat_map]. rewrite length_app, IH. simpl. lia.
Qed.

Lemma chapter_manifest_ids (env : Env) (ch : ChapterData.t) (images : list (Image env)) :
  map ManifestItem.id (chapter_manifest env ch images)
  = flat_map (fun page_id => [page_id; page_id ++ "_img"])
      (page_ids_upto (ChapterData.chapter_number ch) (List.length images)).
Proof.
  unfold chapter_manifest. rewrite chapter_page_ids_upto.
  induction (page_ids_upto _ _) as [|p ps IH]; [reflexivity|].
  cbn [flat_map]. rewrite map_app, IH. reflexivity.
Qed.

(** X8.  [create_chapter] does nothing when the renderer raises: it raises
    the same exception, and nothing is printed or written.  For a chapter of
    [p] pages it returns the page ids of the pages 1 to [p] and two manifest
    items per page (the document, then the image), appends two entries per
    page to the archive it was given and to no other file, and prints one
    line for the chapter and one per page. *)
Theorem X8_create_chapter (env : Env) (ch : ChapterData.t) (zf : ZipFile) (w : World) :
  (forall e, convert_from_path env (ChapterData.path ch) IMAGE_DPI = Raise e ->
             ChapterData.create_chapter env ch zf w = (w, Raise e))
  /\ (forall images,
        convert_from_path env (ChapterData.path ch) IMAGE_DPI = Ok images ->
        exists w' manifest_items written,
          ChapterData.create_chapter env ch zf w
          = (w', Ok (manifest_items,
                     page_ids_upto (ChapterData.chapter_number ch) (List.length images)))
          /\ map ManifestItem.id manifest_items
             = flat_map (fun page_id => [page_id; page_id ++ "_img"])
                 (page_ids_upto (ChapterData.chapter_number ch) (List.length images))
          /\ List.length written = 2 * List.length images
          /\ disk_read (filename zf) (disk w')
             = option_map (fun content => content ++ written)%list
                 (disk_read (filename zf) (disk w))
          /\ (forall other, other <> filename zf ->
                disk_read other (disk w') = disk_read other (disk w))
          /\ List.length (stdout w') = List.length (stdout w) + 1 + List.length images
          /\ uuid_calls w' = uuid_calls w).
Proof.
  split.
  - intros e C. now rewrite create_chapter_eq, C.
  - intros images C. rewrite create_chapter_eq, C.
    do 3 eexists. split; [rewrite chapter_page_ids_upto; reflexivity|].
    split; [apply chapter_manifest_ids|].
    split; [apply chapter_files_length|].
    cbn [effects disk stdout uuid_calls].
    split; [apply disk_read_extend|].
    split; [intros other N; now apply disk_read_extend_other|].
    split; [|reflexivity].
    unfold chapter_log. rewrite length_app. cbn [List.length].
    unfold enumerate. rewrite length_map, enumerate_from_length. lia.
Qed.

Lemma X8_witness :
  exists w' manifest_items written,
    convert_from_path Sample.machine "/books/manga/Ch2.pdf" IMAGE_DPI = Ok [21; 22; 23]
    /\ ChapterData.create_chapter Sample.machine
         (ChapterData.mk "Ch2.pdf" "/books/manga/Ch2.pdf" 2 "Chapter 2")
         (mkZipFile "manga.epub" ZIP_STORED)
         (mkWorld [] [("manga.epub", [])] 1)
       = (w', Ok (manifest_items, ["chapter_2_page_1"; "chapter_2_page_2"; "chapter_2_page_3"]))
    /\ List.length written = 6
    /\ disk_read "manga.epub" (disk w') = Some written.
Proof.
  destruct (proj2 (X8_create_chapter Sample.machine
                     (ChapterData.mk "Ch2.pdf" "/books/manga/Ch2.pdf" 2 "Chapter 2")
                     (mkZipFile "manga.epub" ZIP_STORED)
                     (mkWorld [] [("manga.epub", [])] 1))
              [21; 22; 23] eq_refl)
    as (w' & items & written & C & _ & L & D & _).
  exists w', items, written. split; [reflexivity|]. split; [exact C|].
  split; [exact L | exact D].
Defined.

(** ** The accumulators of a book and its two documents *)

Lemma book_toc_pages (env : Env) (done : list (ChapterData.t * list (Image env))) :
  concat (map ChapterTOC.page_ids (book_toc env done)) = book_page_ids env done
  /\ map ChapterTOC.chapter_title (book_toc env done)
     = map (fun ci => ChapterData.chapter_title (fst ci)) done.
Proof.
  unfold book_toc, book_page_ids. induction done as [|[ch images] done [IH1 IH2]];
    [split; reflexivity|].
  cbn [map concat flat_map fst snd chapter_toc ChapterTOC.page_ids ChapterTOC.chapter_title].
  now rewrite IH1, IH2.
Qed.

(** X9.  Handling chapters only appends to the accumulators of the book:
    when the loop over some chapters returns, the name, the directory, the
    identifier, the XML manager, the output name and the chapter list of the
    manager are as before; the spine, the manifest items and the table of
    contents are the former ones followed by what the chapters gave, one
    entry of the table per chapter, two manifest items per page id; and the
    page ids of the new entries of the table, taken together, are the new
    page ids of the spine. *)
Theorem X9_handling_chapters_appends
    (env : Env) (zf : ZipFile) (chapters : list ChapterData.t)
    (self self' : EbookManager.t) (w w' : World) :
  for_fold (EbookManager.handle_chapter env zf) chapters self w = (w', Ok self') ->
  EbookManager.name self' = EbookManager.name self
  /\ EbookManager.pdfs_path self' = EbookManager.pdfs_path self
  /\ EbookManager.book_id self' = EbookManager.book_id self
  /\ EbookManager.xml_manager self' = EbookManager.xml_manager self
  /\ EbookManager.output_name self' = EbookManager.output_name self
  /\ EbookManager.pdf_files self' = EbookManager.pdf_files self
  /\ exists page_ids manifest_items toc,
       EbookManager.spine self' = (EbookManager.spine self ++ page_ids)%list
       /\ EbookManager.manifest_items self'
          = (EbookManager.manifest_items self ++ manifest_items)%list
       /\ EbookManager.toc self' = (EbookManager.toc self ++ toc)%list
       /\ List.length toc = List.length chapters
       /\ map ChapterTOC.chapter_title toc = map ChapterData.chapter_title chapters
       /\ concat (map ChapterTOC.page_ids toc) = page_ids
       /\ List.length manifest_items = 2 * List.length page_ids.
Proof.
  rewrite chapters_loop_eq.
  destruct (snd (rendered env chapters)) as [e|] eqn:R; [discriminate|].
  intros [= _ <-]. destruct (rendered_complete env _ R) as [E _].
  set (done := fst (rendered env chapters)) in *.
  cbn [absorb EbookManager.name EbookManager.pdfs_path EbookManager.book_id
       EbookManager.xml_manager EbookManager.output_name EbookManager.pdf_files
       EbookManager.spine EbookManager.manifest_items EbookManager.toc].
  repeat (split; [reflexivity|]).
  exists (book_page_ids env done), (book_manifest env done), (book_toc env done).
  destruct (book_toc_pages env done) as [P T].
  repeat (split; [reflexivity|]).
  split; [unfold book_toc; now rewrite length_map, <- E, length_map|].
  split; [now rewrite T, <- E, map_map|].
  split; [exact P | apply book_manifest_length].
Qed.

Lemma X9_witness :
  exists w' self',
    for_fold (EbookManager.handle_chapter Sample.machine (mkZipFile "manga.epub" ZIP_STORED))
      Sample.manga_chapters Sample.manga_self (mkWorld [] [("manga.epub", [])] 1)
    = (w', Ok self')
    /\ EbookManager.xml_manager self' = EbookManager.xml_manager Sample.manga_self
    /\ EbookManager.spine self'
       = ["chapter_1_page_1"; "chapter_1_page_2";
          "chapter_2_page_1"; "chapter_2_page_2"; "chapter_2_page_3"].
Proof.
  do 2 eexists. split; [vm_compute; reflexivity|].
  split; [|reflexivity].
  eapply (X9_handling_chapters_appends Sample.machine (mkZipFile "manga.epub" ZIP_STORED)
            Sample.manga_chapters Sample.manga_self _ (mkWorld [] [("manga.epub", [])] 1)).
  vm_compute. reflexivity.
Defined.

Lemma build_eq (env : Env) (self : EbookManager.t) (zf : ZipFile) (w : World) :
  EbookManager.build env self zf w
  = if forallb has_page (EbookManager.toc self)
    then (mkWorld (stdout w)
            (disk_extend (filename zf)
               [opf_entry env (final_xml self); ncx_entry env (final_xml self)] (disk w))
            (uuid_calls w),
          Ok (EbookManager.with_xml_manager self (final_xml self)))
    else (w, Raise IndexError).
Proof.
  unfold EbookManager.build, lift. rewrite build_ncx_data_eq.
  destruct (forallb has_page (EbookManager.toc self)); [|reflexivity].
  unfold bind at 1 2; cbv beta iota. rewrite build_manifest_data_eq.
  unfold bind, EbookManager.add_manifest, EbookManager.add_navigation, writestr, ret;
    cbn [stdout disk uuid_calls filename].
  rewrite !disk_append_extend, disk_extend_extend. reflexivity.
Qed.

(** X10.  [build] writes both documents or none.  When a chapter entry of
    the table of contents has no page id, it raises [IndexError] and leaves
    the world as it is: the package document is not written either.
    Otherwise it appends [OEBPS/content.opf] and then [OEBPS/toc.ncx] to the
    archive, prints nothing, and changes the manager only in its XML
    manager. *)
Theorem X10_build_writes_both_or_none
    (env : Env) (self : EbookManager.t) (zf : ZipFile) (w : World) :
  (forallb has_page (EbookManager.toc self) = false ->
   EbookManager.build env self zf w = (w, Raise IndexError))
  /\ (forallb has_page (EbookManager.toc self) = true ->
      exists w' xml_manager opf ncx,
        EbookManager.build env self zf w
        = (w', Ok (EbookManager.with_xml_manager self xml_manager))
        /\ stdout w' = stdout w
        /\ disk_read (filename zf) (disk w')
           = option_map
               (fun content =>
                  content ++ [mkZipEntry "OEBPS/content.opf" opf ZIP_DEFLATED;
                              mkZipEntry "OEBPS/toc.ncx" ncx ZIP_DEFLATED])%list
               (disk_read (filename zf) (disk w))
        /\ opf = EbookXMLManager.XML_DECL
                 ++ tostring env (EbookXMLManager.package xml_manager)
        /\ ncx = EbookXMLManager.XML_DECL_UTF8
                 ++ tostring env (EbookXMLManager.ncx xml_manager)
        /\ forall other, other <> filename zf ->
             disk_read other (disk w') = disk_read other (disk w)).
Proof.
  rewrite build_eq. split; intros ->; [reflexivity|].
  do 4 eexists. split; [reflexivity|]. cbn [stdout disk].
  split; [reflexivity|]. split; [apply disk_read_extend|].
  split; [reflexivity|]. split; [reflexivity|].
  intros other N. now apply disk_read_extend_other.
Qed.

Lemma X10_witness :
  EbookManager.build Sample.machine
    (EbookManager.mk "blank" "/books/blank" "uuid0" [] (EbookXMLManager.init "uuid0" "blank")
       [ChapterTOC.mk [] "Chapter 1"] [] "blank.epub" [])
    (mkZipFile "blank.epub" ZIP_STORED) (mkWorld [] [("blank.epub", [])] 1)
  = (mkWorld [] [("blank.epub", [])] 1, Raise IndexError).
Proof.
  apply (proj1 (X10_build_writes_both_or_none Sample.machine _ _ _)). reflexivity.
Defined.

(** X11.  Neither document may be finalized twice: a second call of
    [build_manifest_data] with the same items appends the entry of the
    navigation document, every manifest item and every spine reference once
    more, and a second call of [build_ncx_data] appends a second [navMap]. *)
Theorem X11_finalizing_twice_duplicates
    (env : Env) (xm : EbookXMLManager.t) (manifest_items : list ManifestItem.t)
    (spine_items : list string) (toc : list ChapterTOC.t) :
  (let xm1 := snd (EbookXMLManager.build_manifest_data env xm manifest_items spine_items) in
   let xm2 := snd (EbookXMLManager.build_manifest_data env xm1 manifest_items spine_items) in
   children (EbookXMLManager.manifest xm2)
   = (children (EbookXMLManager.manifest xm)
      ++ (ncx_item_element :: map item_element manifest_items)
      ++ (ncx_item_element :: map item_element manifest_items))%list
   /\ children (EbookXMLManager.spine xm2)
      = (children (EbookXMLManager.spine xm)
         ++ map itemref_element spine_items ++ map itemref_element spine_items)%list)
  /\ (forallb has_page toc = true ->
      exists s1 xm1 s2 xm2,
        EbookXMLManager.build_ncx_data env xm toc = Ok (s1, xm1)
        /\ EbookXMLManager.build_ncx_data env xm1 toc = Ok (s2, xm2)
        /\ children (EbookXMLManager.ncx xm2)
           = (children (EbookXMLManager.ncx xm)
              ++ [Elem "navMap" [] None (nav_points 0 1 toc);
                  Elem "navMap" [] None (nav_points 0 1 toc)])%list).
Proof.
  split.
  - cbv zeta. rewrite build_manifest_data_eq. cbn [snd].
    rewrite build_manifest_data_eq.
    cbn [snd package_manager EbookXMLManager.manifest EbookXMLManager.spine children].
    split; now rewrite <- app_assoc.
  - intros H. rewrite !build_ncx_data_eq, H. do 4 eexists.
    split; [reflexivity|]. rewrite build_ncx_data_eq, H. split; [reflexivity|].
    cbn [EbookXMLManager.ncx ncx_tree append_child children]. now rewrite <- app_assoc.
Qed.

Lemma X11_witness :
  exists s1 xm1 s2 xm2,
    EbookXMLManager.build_ncx_data Sample.machine (EbookXMLManager.init "uuid0" "manga")
      [ChapterTOC.mk ["chapter_1_page_1"] "Chapter 1"] = Ok (s1, xm1)
    /\ EbookXMLManager.build_ncx_data Sample.machine xm1
         [ChapterTOC.mk ["chapter_1_page_1"] "Chapter 1"] = Ok (s2, xm2)
    /\ List.length (children (EbookXMLManager.ncx xm2)) = 4.
Proof.
  destruct (proj2 (X11_finalizing_twice_duplicates Sample.machine
                     (EbookXMLManager.init "uuid0" "manga") [] []
                     [ChapterTOC.mk ["chapter_1_page_1"] "Chapter 1"]) eq_refl)
    as (s1 & xm1 & s2 & xm2 & B1 & B2 & C).
  exists s1, xm1, s2, xm2. split; [exact B1|]. split; [exact B2|]. now rewrite C.
Defined.

(** X12.  [create_ebook] replaces the file of its output name and touches no
    other file: whether it returns or raises, every other file is as
    before, the identifiers drawn are as before, and neither its result nor
    the archive it leaves depends on the files that existed or on what was
    printed before. *)
Theorem X12_create_ebook_replaces_its_file
    (env : Env) (self : EbookManager.t) (w v : World) :
  (forall other, other <> EbookManager.output_name self ->
     disk_read other (disk (fst (EbookManager.create_ebook env self w)))
     = disk_read other (disk w))
  /\ uuid_calls (fst (EbookManager.create_ebook env self w)) = uuid_calls w
  /\ snd (EbookManager.create_ebook env self w) = snd (EbookManager.create_ebook env self v)
  /\ disk_read (EbookManager.output_name self)
       (disk (fst (EbookManager.create_ebook env self w)))
     = disk_read (EbookManager.output_name self)
         (disk (fst (EbookManager.create_ebook env self v)))
  /\ exists rest printed,
       disk_read (EbookManager.output_name self)
         (disk (fst (EbookManager.create_ebook env self w)))
       = Some (mkZipEntry "mimetype" MIMETYPE ZIP_STORED
               :: mkZipEntry "META-INF/container.xml" CONTAINER_XML ZIP_STORED :: rest)
       /\ stdout (fst (EbookManager.create_ebook env self w))
          = (stdout w ++ ("create_ebook: " ++ EbookManager.name self)%string :: printed)%list.
Proof.
  rewrite !create_ebook_eq.
  destruct (snd (rendered env (EbookManager.pdf_files self))) as [e|];
    [|destruct (forallb has_page _)];
    cbn [fst snd partial_world complete_world disk stdout uuid_calls disk_read assoc];
    rewrite ?String.eqb_refl;
    (split; [intros other N;
             assert (F : (EbookManager.output_name self =? other) = false)
               by (apply String.eqb_neq; congruence);
             rewrite F; now apply disk_read_remove_other|]);
    repeat (split; [reflexivity|]); do 2 eexists; split; reflexivity.
Qed.

(** ** What a build depends on *)

(** X13.  The structure of a book does not depend on its identifier: two
    builds of the same chapters that differ in the identifier drawn print
    the same lines, leave archives with the same entry names and
    compressions, and either raise the same exception or return managers
    with the same spine, table of contents, manifest items, manifest
    element, spine element and [navMap]. *)
Theorem X13_structure_independent_of_identifier
    (env : Env) (name pdfs_path id1 id2 : string) (chs : list ChapterData.t) (w : World) :
  let r1 := EbookManager.create_ebook env (fresh_manager name pdfs_path id1 chs) w in
  let r2 := EbookManager.create_ebook env (fresh_manager name pdfs_path id2 chs) w in
  stdout (fst r1) = stdout (fst r2)
  /\ layout (disk_read (name ++ ".epub") (disk (fst r1)))
     = layout (disk_read (name ++ ".epub") (disk (fst r2)))
  /\ same_structure (snd r1) (snd r2).
Proof.
  cbv zeta. rewrite !create_fresh_eq.
  destruct (snd (rendered env chs)) as [e|];
    [|destruct (forallb has_page _)];
    cbn [fst snd partial_world complete_world stdout disk disk_read assoc
         fresh_manager EbookManager.output_name EbookManager.name same_structure];
    rewrite ?String.eqb_refl; cbn [layout option_map];
    try (repeat split; reflexivity).
  split; [reflexivity|]. split; [|repeat split; reflexivity].
  f_equal. rewrite !map_app. reflexivity.
Qed.

(** ** The names in the archive *)

Lemma page_entry_names_inj (p q : string) (x : string) :
  is_page_id p -> is_page_id q ->
  In x (page_entry_names p) -> In x (page_entry_names q) -> p = q.
Proof.
  intros (n & k & ->) (n' & k' & ->).
  unfold page_entry_names. rewrite !page_id_of_eq.
  intros [<-|[<-|[]]] [E|[E|[]]].
  - apply (append_inj_l "OEBPS/") in E. now apply append_inj_r in E.
  - discriminate.
  - discriminate.
  - apply (append_inj_l "OEBPS/static/") in E. now apply append_inj_r in E.
Qed.

Lemma page_entry_names_nodup (ps : list string) :
  Forall is_page_id ps -> NoDup ps -> NoDup (flat_map page_entry_names ps).
Proof.
  induction 1 as [|p ps P F IH]; intros N; [constructor|].
  apply NoDup_cons_iff in N as [N1 N2]. cbn [flat_map].
  apply NoDup_app; [|auto|].
  - destruct P as (n & k & ->). unfold page_entry_names. rewrite page_id_of_eq.
    repeat constructor; simpl; intuition discriminate.
  - intros x I J. apply in_flat_map in J as (q & Q & J).
    rewrite Forall_forall in F.
    assert (p = q) by (eapply page_entry_names_inj; eauto). now subst q.
Qed.

Lemma page_entry_names_not_fixed (ps : list string) (x : string) :
  Forall is_page_id ps -> In x (flat_map page_entry_names ps) ->
  x <> "mimetype" /\ x <> "META-INF/container.xml"
  /\ x <> "OEBPS/content.opf" /\ x <> "OEBPS/toc.ncx".
Proof.
  intros F I. apply in_flat_map in I as (p & P & I).
  rewrite Forall_forall in F. destruct (F p P) as (n & k & ->).
  unfold page_entry_names in I. rewrite page_id_of_eq in I.
  destruct I as [<-|[<-|[]]]; repeat split; discriminate.
Qed.

Lemma NoDup_app_disjoint {A : Type} (l1 l2 : list A) (a : A) :
  NoDup (l1 ++ l2) -> In a l1 -> In a l2 -> False.
Proof.
  induction l1 as [|x l1 IH]; intros N I J; [destruct I|].
  cbn [app] in N. apply NoDup_cons_iff in N as [N1 N2]. destruct I as [->|I].
  - apply N1, in_or_app. now right.
  - now apply IH.
Qed.

(** The page ids of a book without the page ids of a chapter twice have no
    chapter number twice, when every chapter has a page. *)
Lemma chapter_numbers_nodup (env : Env) (done : list (ChapterData.t * list (Image env))) :
  forallb has_page (book_toc env done) = true ->
  NoDup (book_page_ids env done) ->
  NoDup (map (fun ci => ChapterData.chapter_number (fst ci)) done).
Proof.
  induction done as [|[ch images] done IH]; intros H N; [constructor|].
  change (book_page_ids env ((ch, images) :: done))
    with (chapter_page_ids env ch images ++ book_page_ids env done)%list in N.
  cbn [book_toc map forallb fst snd] in H. apply andb_true_iff in H as [H1 H2].
  cbn [map fst]. constructor; [|apply IH; [exact H2 | eapply NoDup_app_remove_l, N]].
  intros I. apply in_map_iff in I as ([ch' images'] & E & I). cbn [fst] in E.
  assert (P : forall c (im : list (Image env)),
            has_page (chapter_toc env c im) = true ->
            In (ChapterData.page_id_of (ChapterData.chapter_number c) 1)
               (chapter_page_ids env c im)).
  { intros c [|i im] Hp; [discriminate|]. left. reflexivity. }
  assert (H1' : has_page (chapter_toc env ch' images') = true).
  { rewrite forallb_forall in H2. apply H2.
    apply (in_map (fun ci => chapter_toc env (fst ci) (snd ci)) _ _ I). }
  apply (NoDup_app_disjoint _ _
           (ChapterData.page_id_of (ChapterData.chapter_number ch) 1) N).
  - now apply P.
  - unfold book_page_ids. apply in_flat_map. exists (ch', images').
    split; [exact I|]. cbn [fst snd]. rewrite <- E. now apply P.
Qed.

(** X14.  In a complete build the page ids of the spine are pairwise
    different exactly when the chapter numbers of the book are; and then no
    two entries of the archive have the same name. *)
Theorem X14_unique_names_iff_unique_numbers
    (env : Env) (name pdfs_path : string) (w0 w1 w2 : World) (self self' : EbookManager.t) :
  EbookManager.init env name pdfs_path w0 = (w1, Ok self) ->
  EbookManager.create_ebook env self w1 = (w2, Ok self') ->
  (NoDup (EbookManager.spine self')
   <-> NoDup (map ChapterData.chapter_number (EbookManager.pdf_files self)))
  /\ (NoDup (map ChapterData.chapter_number (EbookManager.pdf_files self)) ->
      exists entries,
        disk_read (name ++ ".epub") (disk w2) = Some entries
        /\ NoDup (map arcname entries)).
Proof.
  intros I C.
  destruct (complete_build env _ _ _ _ _ _ _ I C) as (F & _ & _ & R & H & -> & ->).
  destruct (rendered_complete env _ R) as [E _].
  set (done := fst (rendered env (EbookManager.pdf_files self))) in *.
  assert (M : map (fun ci => ChapterData.chapter_number (fst ci)) done
              = map ChapterData.chapter_number (EbookManager.pdf_files self)).
  { now rewrite <- E, map_map. }
  cbn [built_manager EbookManager.spine]. split.
  - rewrite <- M. split; [now apply chapter_numbers_nodup | apply book_page_ids_nodup].
  - intros N. rewrite <- M in N. apply book_page_ids_nodup in N.
    rewrite F. cbn [complete_world disk disk_read assoc fresh_manager
                    EbookManager.output_name].
    rewrite String.eqb_refl. eexists. split; [reflexivity|].
    rewrite !map_app, book_files_names. cbn [map archive_head arcname opf_entry ncx_entry app].
    pose proof (fun x => page_entry_names_not_fixed _ x
                          (book_page_ids_are_page_ids env done)) as X.
    pose proof (page_entry_names_nodup _ (book_page_ids_are_page_ids env done) N) as Y.
    set (names := flat_map page_entry_names (book_page_ids env done)) in *.
    assert (T : NoDup (names ++ ["OEBPS/content.opf"; "OEBPS/toc.ncx"])).
    { apply NoDup_app; [exact Y | repeat constructor; simpl; intuition discriminate|].
      intros x J [<-|[<-|[]]]; destruct (X _ J) as (_ & _ & A & B); congruence. }
    constructor; [|constructor; [|exact T]].
    + intros [J|J]; [discriminate|]. apply in_app_or in J as [J|[J|[J|[]]]];
        [destruct (X _ J) as (A & _); congruence | discriminate..].
    + intros J. apply in_app_or in J as [J|[J|[J|[]]]];
        [destruct (X _ J) as (_ & A & _); congruence | discriminate..].
Qed.

Lemma X14_witness :
  exists w2 self' entries,
    EbookManager.init Sample.machine "manga" "/books/manga" Sample.world0
    = (after_uuid4 Sample.world0, Ok Sample.manga_self)
    /\ EbookManager.create_ebook Sample.machine Sample.manga_self (after_uuid4 Sample.world0)
       = (w2, Ok self')
    /\ NoDup (EbookManager.spine self')
    /\ disk_read "manga.epub" (disk w2) = Some entries
    /\ NoDup (map arcname entries).
Proof.
  assert (C : exists w2 self',
            EbookManager.create_ebook Sample.machine Sample.manga_self
              (after_uuid4 Sample.world0) = (w2, Ok self')).
  { do 2 eexists. vm_compute. reflexivity. }
  destruct C as (w2 & self' & C).
  assert (N : NoDup (map ChapterData.chapter_number
                       (EbookManager.pdf_files Sample.manga_self))).
  { repeat constructor; simpl; intuition discriminate. }
  destruct (X14_unique_names_iff_unique_numbers Sample.machine "manga" "/books/manga"
              Sample.world0 _ w2 Sample.manga_self self' eq_refl C) as [S A].
  destruct (A N) as (entries & D & U).
  exists w2, self', entries. split; [reflexivity|]. split; [exact C|].
  split; [apply S, N|]. split; assumption.
Defined.

(** ** The identifier of a book *)

(** X15.  A complete build draws one identifier, and the documents carry it
    wherever they name the book: it is the [unique-identifier] of the
    package, the id and the text of [dc:identifier], and the content of the
    [dtb:uid] entry of the navigation document; the title of both documents
    is the name of the book, and the output file is [{name}.epub].  The
    package has the children [metadata], [manifest] and [spine], in this
    order, and the spine refers to the entry [ncx]. *)
Theorem X15_identifier_and_title
    (env : Env) (name pdfs_path : string) (w0 w1 w2 : World) (self self' : EbookManager.t) :
  EbookManager.init env name pdfs_path w0 = (w1, Ok self) ->
  EbookManager.create_ebook env self w1 = (w2, Ok self') ->
  let book_id := uuid4_hex env (uuid_calls w0) in
  let xm := EbookManager.xml_manager self' in
  EbookManager.book_id self' = book_id
  /\ EbookManager.name self' = name
  /\ EbookManager.output_name self' = name ++ ".epub"
  /\ uuid_calls w2 = S (uuid_calls w0)
  /\ EbookXMLManager.package xm
     = Elem "package"
         [("xmlns", "http://www.idpf.org/2007/opf"); ("version", "2.0");
          ("unique-identifier", book_id)]
         None
         [Elem "metadata"
            [("xmlns:dc", "http://purl.org/dc/elements/1.1/");
             ("xmlns:opf", "http://www.idpf.org/2007/opf")]
            None
            [Elem "dc:title" [] (Some name) [];
             Elem "dc:language" [] (Some "en") [];
             Elem "dc:identifier" [("id", book_id)] (Some book_id) []];
          Elem "manifest" [] None (children (EbookXMLManager.manifest xm));
          Elem "spine" [("toc", "ncx")] None (children (EbookXMLManager.spine xm))]
  /\ firstn 2 (children (EbookXMLManager.ncx xm))
     = [Elem "head" [] None
          [Elem "meta" [("name", "dtb:uid"); ("content", book_id)] None []];
        Elem "docTitle" [] None [Elem "text" [] (Some name) []]].
Proof.
  intros I C.
  destruct (complete_build env _ _ _ _ _ _ _ I C) as (_ & _ & -> & _ & _ & -> & ->).
  repeat split; reflexivity.
Qed.

Lemma X15_witness :
  exists w2 self',
    EbookManager.init Sample.machine "manga" "/books/manga" Sample.world0
    = (after_uuid4 Sample.world0, Ok Sample.manga_self)
    /\ EbookManager.create_ebook Sample.machine Sample.manga_self (after_uuid4 Sample.world0)
       = (w2, Ok self')
    /\ EbookManager.book_id self' = "uuid0"
    /\ uuid_calls w2 = 1.
Proof.
  assert (C : exists w2 self',
            EbookManager.create_ebook Sample.machine Sample.manga_self
              (after_uuid4 Sample.world0) = (w2, Ok self')).
  { do 2 eexists. vm_compute. reflexivity. }
  destruct C as (w2 & self' & C).
  destruct (X15_identifier_and_title Sample.machine "manga" "/books/manga"
              Sample.world0 _ w2 Sample.manga_self self' eq_refl C) as (B & _ & _ & U & _).
  exists w2, self'. split; [reflexivity|]. split; [exact C|]. split; [exact B | exact U].
Defined.

(** ** The configuration *)

Lemma get_config_file_eq (env : Env) (w : World) :
  get_config_file env w
  = (w,
     match config_yaml env with
     | Raise e => Raise e
     | Ok config =>
         if truthy config
         then
           match yaml_get "ebooks" config with
           | Raise e => Raise e
           | Ok ebooks =>
               if truthy ebooks then Ok config
               else Raise (Exception "Can't find ebooks section data")
           end
         else Raise (Exception "Can't load config")
     end).
Proof.
  unfold get_config_file, bind, lift, ret.
  destruct (config_yaml env) as [c|e]; [|reflexivity].
  destruct (truthy c); cbn [negb]; [|reflexivity].
  destruct (yaml_get "ebooks" c) as [ebooks|e]; [|reflexivity].
  destruct (truthy ebooks); reflexivity.
Qed.

(** X16.  [get_config_file] changes nothing in the world.  It returns the
    configuration exactly when the file holds a mapping with an entry
    [ebooks] whose value is not empty; a value that is no mapping and not
    empty either (a list, a string, a number) makes it raise
    [AttributeError], and an exception of reading the file is raised as it
    is. *)
Theorem X16_get_config_file (env : Env) (w : World) :
  fst (get_config_file env w) = w
  /\ (forall config,
        snd (get_config_file env w) = Ok config
        <-> config_yaml env = Ok config
            /\ exists d ebooks,
                 config = YDict d /\ assoc "ebooks" d = Some ebooks
                 /\ truthy ebooks = true)
  /\ (forall config,
        config_yaml env = Ok config -> truthy config = true ->
        (forall d, config <> YDict d) ->
        snd (get_config_file env w) = Raise AttributeError)
  /\ (forall e, config_yaml env = Raise e -> snd (get_config_file env w) = Raise e).
Proof.
  rewrite get_config_file_eq. cbn [fst snd].
  split; [reflexivity|]. split; [|split].
  - intros config. split.
    + destruct (config_yaml env) as [c|e]; [|discriminate].
      destruct (truthy c); [|discriminate].
      destruct c as [|b|z|s|l|d]; try discriminate. cbn [yaml_get].
      destruct (assoc "ebooks" d) as [ebooks|] eqn:A.
      * destruct (truthy ebooks) eqn:E; [|discriminate].
        intros [= <-]. split; [reflexivity|]. now exists d, ebooks.
      * discriminate.
    + intros (C & d & ebooks & -> & A & E). rewrite C. cbn [yaml_get]. rewrite A, E.
      destruct d; [discriminate A | reflexivity].
  - intros config C T N. rewrite C, T.
    destruct config; try reflexivity. now destruct (N d).
  - intros e C. now rewrite C.
Qed.

(** X17.  What [start] does with a book definition that is not well formed.
    A definition that is no mapping (a book with nothing after its name, a
    string, a list) raises [AttributeError]; a path that is present and
    empty, null, false or zero is treated as missing, and the book is
    skipped; a path that is neither empty nor a string raises [TypeError].
    In the two failing cases nothing is printed, nothing is written and no
    identifier is drawn. *)
Theorem X17_malformed_book_definition (env : Env) (name : string) (w : World) :
  (forall ebook_def,
     (forall d, ebook_def <> YDict d) ->
     start_book env (name, ebook_def) w = (w, Raise AttributeError))
  /\ (forall d path,
        assoc "path" d = Some path -> truthy path = false ->
        start_book env (name, YDict d) w
        = (after_print ("skipping " ++ name ++ ", path is missing") w, Ok tt))
  /\ (forall d path,
        assoc "path" d = Some path -> truthy path = true ->
        (forall s, path <> YStr s) ->
        start_book env (name, YDict d) w = (w, Raise TypeError)).
Proof.
  split; [|split].
  - intros ebook_def N. rewrite start_book_eq.
    destruct ebook_def; try reflexivity. now destruct (N d).
  - intros d path A T. rewrite start_book_eq. cbn [yaml_get]. now rewrite A, T.
  - intros d path A T N. rewrite start_book_eq. cbn [yaml_get]. rewrite A, T.
    destruct path; try reflexivity. now destruct (N s).
Qed.

Lemma X17_witness :
  start_book Sample.machine ("untitled", YNone) Sample.world0
  = (Sample.world0, Raise AttributeError)
  /\ start_book Sample.machine ("nowhere", YDict [("path", YStr EmptyString)]) Sample.world0
     = (after_print "skipping nowhere, path is missing" Sample.world0, Ok tt)
  /\ start_book Sample.machine ("numbered", YDict [("path", YInt 7)]) Sample.world0
     = (Sample.world0, Raise TypeError).
Proof.
  destruct (X17_malformed_book_definition Sample.machine "untitled" Sample.world0)
    as (A & _ & _).
  destruct (X17_malformed_book_definition Sample.machine "nowhere" Sample.world0)
    as (_ & B & _).
  destruct (X17_malformed_book_definition Sample.machine "numbered" Sample.world0)
    as (_ & _ & C).
  split; [apply A; discriminate|].
  split; [apply (B _ (YStr EmptyString)); reflexivity|].
  apply (C _ (YInt 7)); [reflexivity | reflexivity | discriminate].
Defined.

(** ** The references between the documents and the archive *)

Lemma attr_values_app (key : string) (es fs : list Element) :
  attr_values key (es ++ fs) = (attr_values key es ++ attr_values key fs)%list.
Proof. apply flat_map_app. Qed.

Lemma manifest_hrefs (ps : list string) :
  attr_values "href" (map item_element (flat_map page_manifest ps))
  = flat_map (fun p => [p ++ ".xhtml"; "static/" ++ p ++ ".png"]) ps.
Proof.
  induction ps as [|p ps IH]; [reflexivity|].
  cbn [flat_map]. rewrite map_app, attr_values_app, IH. reflexivity.
Qed.

Lemma manifest_ids (ps : list string) :
  attr_values "id" (map item_element (flat_map page_manifest ps))
  = flat_map (fun p => [p; p ++ "_img"]) ps.
Proof.
  induction ps as [|p ps IH]; [reflexivity|].
  cbn [flat_map]. rewrite map_app, attr_values_app, IH. reflexivity.
Qed.

Lemma spine_idrefs (ps : list string) :
  attr_values "idref" (map itemref_element ps) = ps.
Proof.
  induction ps as [|p ps IH]; [reflexivity|].
  change (p :: attr_values "idref" (map itemref_element ps) = p :: ps). now rewrite IH.
Qed.

Lemma nav_points_sources (toc : list ChapterTOC.t) :
  forall i p,
  attr_values "src" (flat_map children (nav_points i p toc))
  = map (fun c => hd EmptyString (ChapterTOC.page_ids c) ++ ".xhtml") toc.
Proof.
  induction toc as [|c toc IH]; intros i p; [reflexivity|].
  cbn [nav_points flat_map map]. rewrite attr_values_app, IH. reflexivity.
Qed.

Lemma first_page_in_book (env : Env) (done : list (ChapterData.t * list (Image env)))
    (c : ChapterTOC.t) :
  forallb has_page (book_toc env done) = true ->
  In c (book_toc env done) ->
  In (hd EmptyString (ChapterTOC.page_ids c)) (book_page_ids env done).
Proof.
  intros H I. rewrite forallb_forall in H. specialize (H c I).
  unfold book_toc in I. apply in_map_iff in I as ([ch images] & <- & I).
  unfold book_page_ids. apply in_flat_map. exists (ch, images). split; [exact I|].
  cbn [fst snd chapter_toc ChapterTOC.page_ids] in *.
  unfold has_page in H. cbn [chapter_toc ChapterTOC.page_ids] in H.
  destruct (chapter_page_ids env ch images); [discriminate | now left].
Qed.

(** X18.  The references of a complete book resolve.  Every [href] of the
    manifest names an entry of the archive under [OEBPS/]; every [idref] of
    the spine, and the [toc] attribute of the spine, is the id of a manifest
    entry; and every [src] of the navigation document is an [href] of the
    manifest and names an entry of the archive. *)
Theorem X18_references_resolve
    (env : Env) (name pdfs_path : string) (w0 w1 w2 : World) (self self' : EbookManager.t) :
  EbookManager.init env name pdfs_path w0 = (w1, Ok self) ->
  EbookManager.create_ebook env self w1 = (w2, Ok self') ->
  let xm := EbookManager.xml_manager self' in
  let hrefs := attr_values "href" (children (EbookXMLManager.manifest xm)) in
  let ids := attr_values "id" (children (EbookXMLManager.manifest xm)) in
  exists entries,
    disk_read (name ++ ".epub") (disk w2) = Some entries
    /\ (forall h, In h hrefs -> In ("OEBPS/" ++ h) (map arcname entries))
    /\ (forall i, In i (attr_values "idref" (children (EbookXMLManager.spine xm))) ->
                  In i ids)
    /\ (forall t, get_attr "toc" (EbookXMLManager.spine xm) = Some t -> In t ids)
    /\ (forall s, In s (nav_sources (EbookXMLManager.ncx xm)) ->
                  In s hrefs /\ In ("OEBPS/" ++ s) (map arcname entries)).
Proof.
  intros I C.
  destruct (complete_build env _ _ _ _ _ _ _ I C) as (F & _ & _ & _ & H & -> & ->).
  set (done := fst (rendered env (EbookManager.pdf_files self))) in *.
  cbv zeta.
  cbn [built_manager EbookManager.xml_manager EbookXMLManager.manifest
       EbookXMLManager.spine EbookXMLManager.ncx children].
  rewrite F. cbn [complete_world disk disk_read assoc fresh_manager
                  EbookManager.output_name].
  rewrite String.eqb_refl. eexists. split; [reflexivity|].
  rewrite !map_app, book_files_names, book_manifest_pages.
  set (ps := book_page_ids env done) in *.
  change (attr_values "href" (ncx_item_element :: ?l))
    with ("toc.ncx" :: attr_values "href" l).
  change (attr_values "id" (ncx_item_element :: ?l)) with ("ncx" :: attr_values "id" l).
  rewrite manifest_hrefs, manifest_ids, spine_idrefs.
  assert (A : forall h, In h ("toc.ncx" :: flat_map (fun p => [p ++ ".xhtml"; "static/" ++ p ++ ".png"]) ps) ->
              In ("OEBPS/" ++ h)
                 (map arcname archive_head
                  ++ flat_map page_entry_names ps
                  ++ map arcname [opf_entry env
                                    (final_xml (absorb env
                                       (fresh_manager name pdfs_path
                                          (uuid4_hex env (uuid_calls w0))
                                          (EbookManager.pdf_files self)) done));
                                  ncx_entry env
                                    (final_xml (absorb env
                                       (fresh_manager name pdfs_path
                                          (uuid4_hex env (uuid_calls w0))
                                          (EbookManager.pdf_files self)) done))])%list).
  { intros h [<-|J].
    - apply in_or_app. right. apply in_or_app. right. right. left. reflexivity.
    - apply in_flat_map in J as (p & P & J).
      apply in_or_app. right. apply in_or_app. left.
      apply in_flat_map. exists p. split; [exact P|].
      destruct J as [<-|[<-|[]]]; [left | right; left]; reflexivity. }
  split; [exact A|]. split; [|split].
  - intros i J. right. apply in_flat_map. exists i. split; [exact J | now left].
  - intros t [= <-]. now left.
  - intros s J.
    assert (K : In s (map (fun c => hd EmptyString (ChapterTOC.page_ids c) ++ ".xhtml")
                          (book_toc env done))).
    { unfold nav_sources, ncx_tree, append_child, EbookXMLManager.build_ncx in J.
      change (In s (attr_values "src"
                      (flat_map children (nav_points 0 1 (book_toc env done) ++ [])))) in J.
      rewrite app_nil_r in J. now rewrite nav_points_sources in J. }
    apply in_map_iff in K as (c & <- & K).
    pose proof (first_page_in_book env done c H K) as P. fold ps in P.
    assert (Q : In (hd EmptyString (ChapterTOC.page_ids c) ++ ".xhtml")
                   ("toc.ncx" :: flat_map (fun p => [p ++ ".xhtml"; "static/" ++ p ++ ".png"]) ps)).
    { right. apply in_flat_map. eexists. split; [exact P | now left]. }
    split; [exact Q | apply A, Q].
Qed.

Lemma X18_witness :
  exists w2 self' entries,
    EbookManager.init Sample.machine "manga" "/books/manga" Sample.world0
    = (after_uuid4 Sample.world0, Ok Sample.manga_self)
    /\ EbookManager.create_ebook Sample.machine Sample.manga_self (after_uuid4 Sample.world0)
       = (w2, Ok self')
    /\ disk_read "manga.epub" (disk w2) = Some entries
    /\ forall s, In s (nav_sources (EbookXMLManager.ncx (EbookManager.xml_manager self'))) ->
         In s (attr_values "href"
                 (children (EbookXMLManager.manifest (EbookManager.xml_manager self'))))
         /\ In ("OEBPS/" ++ s) (map arcname entries).
Proof.
  assert (C : exists w2 self',
            EbookManager.create_ebook Sample.machine Sample.manga_self
              (after_uuid4 Sample.world0) = (w2, Ok self')).
  { do 2 eexists. vm_compute. reflexivity. }
  destruct C as (w2 & self' & C).
  destruct (X18_references_resolve Sample.machine "manga" "/books/manga"
              Sample.world0 _ w2 Sample.manga_self self' eq_refl C)
    as (entries & D & _ & _ & _ & S).
  exists w2, self', entries. split; [reflexivity|]. split; [exact C|].
  split; [exact D | exact S].
Defined.

(** ** A book that can be built *)

Lemma all_pages_build (env : Env) (chs : list ChapterData.t) :
  (forall ch, In ch chs ->
     exists image images,
       convert_from_path env (ChapterData.path ch) IMAGE_DPI = Ok (image :: images)) ->
  snd (rendered env chs) = None
  /\ forallb has_page (book_toc env (fst (rendered env chs))) = true.
Proof.
  intros P.
  assert (R : snd (rendered env chs) = None).
  { apply rendered_total. intros ch I. destruct (P ch I) as (image & images & ->). eauto. }
  split; [exact R|]. destruct (rendered_complete env _ R) as [E F].
  rewrite book_toc_has_page. apply forallb_forall. intros [ch images] D.
  rewrite Forall_forall in F. specialize (F _ D). cbn [fst snd] in *.
  destruct (P ch) as (image & images' & C).
  - rewrite <- E. apply (in_map fst _ _ D).
  - rewrite C in F. now injection F as <-.
Qed.

(** The chapters that render with at least one page are all rendered. *)
Lemma all_pages_rendered (env : Env) (chs : list ChapterData.t) :
  (forall ch, In ch chs ->
     exists image images,
       convert_from_path env (ChapterData.path ch) IMAGE_DPI = Ok (image :: images)) ->
  map fst (fst (rendered env chs)) = chs
  /\ Forall (fun ci => convert_from_path env (ChapterData.path (fst ci)) IMAGE_DPI
                       = Ok (snd ci)
                       /\ snd ci <> [])
       (fst (rendered env chs)).
Proof.
  intros P. destruct (all_pages_build env chs P) as [R _].
  destruct (rendered_complete env _ R) as [E F]. split; [exact E|].
  apply Forall_forall. intros [ch images] D.
  rewrite Forall_forall in F. specialize (F _ D). cbn [fst snd] in *.
  split; [exact F|].
  destruct (P ch) as (image & images' & C).
  - rewrite <- E. apply (in_map fst _ _ D).
  - rewrite C in F. injection F as <-. discriminate.
Qed.

(** X19.  A configured book is built when its path is a string that is not
    empty and names an existing directory that can be listed, every chapter
    file name of the directory has a digit and every chapter file renders
    with at least one page: the body of the loop of [start] returns, one
    identifier is drawn, the first line printed names the book, the lines
    of the chapters follow and the last line tells that the archive was
    created.  The archive [{name}.epub] holds the two fixed entries; then,
    for every chapter of the chapter list in its order and every page that
    the renderer returned for it, the document and the image of the page,
    named after the page id; then the serialized package document and the
    serialized navigation document of the book, and nothing else. *)
Theorem X19_good_book_is_built
    (env : Env) (name : string) (d : list (string * Yaml)) (p : string)
    (files : list string) (w : World) :
  assoc "path" d = Some (YStr p) -> p <> EmptyString ->
  path_exists env (abspath env p) = true ->
  listdir env (abspath env p) = Ok files ->
  (forall f, In f files -> is_pdf f = true ->
     has_digit f = true
     /\ exists image images,
          convert_from_path env (path_join (abspath env p) f) IMAGE_DPI
          = Ok (image :: images)) ->
  exists w' chs done xm,
    start_book env (name, YDict d) w = (w', Ok tt)
    /\ uuid_calls w' = S (uuid_calls w)
    /\ EbookManager.init_pdf_list env (abspath env p) = Ok chs
    /\ map fst done = chs
    /\ Forall (fun ci => convert_from_path env (ChapterData.path (fst ci)) IMAGE_DPI
                         = Ok (snd ci)
                         /\ snd ci <> []) done
    /\ stdout w'
       = (stdout w
          ++ start_line name
             :: flat_map (fun ci => chapter_log env (fst ci) (snd ci)) done
             ++ [created_line (name ++ ".epub")])%list
    /\ disk_read (name ++ ".epub") (disk w')
       = Some ([mkZipEntry "mimetype" "application/epub+zip" ZIP_STORED;
                mkZipEntry "META-INF/container.xml" CONTAINER_XML ZIP_STORED]
               ++ flat_map (fun ci => flat_map (page_files env (fst ci)) (enumerate (snd ci)))
                    done
               ++ [mkZipEntry "OEBPS/content.opf"
                     (EbookXMLManager.XML_DECL ++ tostring env (EbookXMLManager.package xm))
                     ZIP_DEFLATED;
                   mkZipEntry "OEBPS/toc.ncx"
                     (EbookXMLManager.XML_DECL_UTF8 ++ tostring env (EbookXMLManager.ncx xm))
                     ZIP_DEFLATED])%list
    /\ xm = EbookManager.xml_manager
              (built_manager env name (abspath env p) (uuid4_hex env (uuid_calls w)) chs done)
    /\ map arcname
         (flat_map (fun ci => flat_map (page_files env (fst ci)) (enumerate (snd ci))) done)
       = flat_map page_entry_names
           (flat_map (fun ci => page_ids_upto (ChapterData.chapter_number (fst ci))
                                  (List.length (snd ci))) done).
Proof.
  intros A N X L G.
  rewrite start_book_eq. cbn [yaml_get]. rewrite A. cbn [truthy os_path_abspath].
  apply String.eqb_neq in N. rewrite N. cbn [negb]. rewrite X.
  destruct (init_pdf_list_total env _ files L) as [chs I].
  { intros f F P. rewrite parsable_has_digit. now apply G. }
  rewrite I.
  assert (P : forall ch, In ch chs ->
                exists image images,
                  convert_from_path env (ChapterData.path ch) IMAGE_DPI
                  = Ok (image :: images)).
  { intros ch J. destruct (init_pdf_list_ok env _ _ I) as (files' & L' & M & _).
    rewrite L in L'. injection L' as <-.
    rewrite Forall_forall in M. destruct (M ch J) as (f & F & Q & C).
    destruct (init_name_path _ _ _ C) as [_ ->]. now apply G. }
  destruct (all_pages_build env chs P) as [R H].
  destruct (all_pages_rendered env chs P) as [E F].
  cbv zeta. rewrite create_fresh_eq, R, H. cbn [fst snd].
  exists (complete_world env
            (fresh_manager name (abspath env p) (uuid4_hex env (uuid_calls w)) chs)
            (fst (rendered env chs)) (after_uuid4 w)),
    chs, (fst (rendered env chs)),
    (EbookManager.xml_manager
       (built_manager env name (abspath env p) (uuid4_hex env (uuid_calls w)) chs
          (fst (rendered env chs)))).
  split; [reflexivity|]. split; [reflexivity|]. split; [reflexivity|].
  split; [exact E|]. split; [exact F|]. split; [reflexivity|].
  split.
  - cbn [complete_world disk disk_read assoc fresh_manager EbookManager.output_name].
    rewrite String.eqb_refl. reflexivity.
  - split; [reflexivity|].
    rewrite <- book_page_ids_concat. apply book_files_names.
Qed.

Lemma X19_witness :
  exists w',
    start_book Sample.machine (Sample.book "manga" "/books/manga") Sample.world0
    = (w', Ok tt)
    /\ uuid_calls w' = 1
    /\ stdout w'
       = ["create_ebook: manga";
          "creating chapter: Chapter 1, with 2 images";
          "creating: Chapter 1 - Page 1"; "creating: Chapter 1 - Page 2";
          "creating chapter: Chapter 2, with 3 images";
          "creating: Chapter 2 - Page 1"; "creating: Chapter 2 - Page 2";
          "creating: Chapter 2 - Page 3";
          created_line "manga.epub"]
    /\ layout (disk_read "manga.epub" (disk w'))
       = Some [("mimetype", ZIP_STORED); ("META-INF/container.xml", ZIP_STORED);
               ("OEBPS/chapter_1_page_1.xhtml", ZIP_DEFLATED);
               ("OEBPS/static/chapter_1_page_1.png", ZIP_DEFLATED);
               ("OEBPS/chapter_1_page_2.xhtml", ZIP_DEFLATED);
               ("OEBPS/static/chapter_1_page_2.png", ZIP_DEFLATED);
               ("OEBPS/chapter_2_page_1.xhtml", ZIP_DEFLATED);
               ("OEBPS/static/chapter_2_page_1.png", ZIP_DEFLATED);
               ("OEBPS/chapter_2_page_2.xhtml", ZIP_DEFLATED);
               ("OEBPS/static/chapter_2_page_2.png", ZIP_DEFLATED);
               ("OEBPS/chapter_2_page_3.xhtml", ZIP_DEFLATED);
               ("OEBPS/static/chapter_2_page_3.png", ZIP_DEFLATED);
               ("OEBPS/content.opf", ZIP_DEFLATED); ("OEBPS/toc.ncx", ZIP_DEFLATED)].
Proof.
  destruct (X19_good_book_is_built Sample.machine "manga" [("path", YStr "/books/manga")]
              "/books/manga" ["Ch2.pdf"; "notes.txt"; "Ch1.pdf"] Sample.world0)
    as (w' & chs & done & xm & S & U & _);
    [reflexivity | discriminate | reflexivity | reflexivity | |].
  - intros f [<-|[<-|[<-|[]]]] P; try discriminate P;
      (split; [reflexivity | do 2 eexists; vm_compute; reflexivity]).
  - exists w'. split; [exact S|]. split; [exact U|].
    vm_compute in S. injection S as <-.
    split; vm_compute; reflexivity.
Defined.

(** ** Chapters with the same sort key *)

Lemma filter_insert_by_key {A : Type} (k : N) (kx : N * A) (kxs : list (N * A)) :
  filter (fun ky => (fst ky =? k)%N) (EbookManager.insert_by_key kx kxs)
  = filter (fun ky => (fst ky =? k)%N) (kx :: kxs).
Proof.
  induction kxs as [|ky kxs IH]; [reflexivity|].
  cbn [EbookManager.insert_by_key]. destruct (fst kx <=? fst ky)%N eqn:E; [reflexivity|].
  cbn [filter] in *. rewrite IH.
  destruct (fst ky =? k)%N eqn:Y; destruct (fst kx =? k)%N eqn:X; try reflexivity.
  apply N.eqb_eq in X, Y. apply N.leb_gt in E. lia.
Qed.

Lemma filter_sort_by_key {A : Type} (k : N) (kxs : list (N * A)) :
  filter (fun ky => (fst ky =? k)%N) (EbookManager.sort_by_key kxs)
  = filter (fun ky => (fst ky =? k)%N) kxs.
Proof.
  induction kxs as [|kx kxs IH]; [reflexivity|].
  cbn [EbookManager.sort_by_key fold_right].
  change (fold_right EbookManager.insert_by_key [] kxs) with (EbookManager.sort_by_key kxs).
  rewrite filter_insert_by_key. cbn [filter]. now rewrite IH.
Qed.

Lemma chapter_sorting_key_is (ch : ChapterData.t) (k0 k : N) :
  EbookManager.chapter_sorting ch = Ok k0 ->
  (k0 =? k)%N = key_is k (ChapterData.name ch).
Proof.
  unfold EbookManager.chapter_sorting, key_is.
  destruct (search_digits (ChapterData.name ch)); [|discriminate]. now intros [= <-].
Qed.

Lemma filter_decorated (k : N) (kxs : list (N * ChapterData.t)) :
  Forall (fun kx => EbookManager.chapter_sorting (snd kx) = Ok (fst kx)) kxs ->
  map snd (filter (fun ky => (fst ky =? k)%N) kxs)
  = filter (fun ch => key_is k (ChapterData.name ch)) (map snd kxs).
Proof.
  induction 1 as [|kx kxs H _ IH]; [reflexivity|].
  cbn [filter map]. rewrite <- (chapter_sorting_key_is _ _ k H).
  destruct (fst kx =? k)%N; cbn [map]; now rewrite IH.
Qed.

Lemma map_filter_name (p : string -> bool) (chs : list ChapterData.t) :
  map ChapterData.name (filter (fun ch => p (ChapterData.name ch)) chs)
  = filter p (map ChapterData.name chs).
Proof.
  induction chs as [|ch chs IH]; [reflexivity|]. cbn [filter map].
  destruct (p (ChapterData.name ch)); cbn [map]; now rewrite IH.
Qed.

Lemma filter_filter {A : Type} (p q : A -> bool) (l : list A) :
  filter p (filter q l) = filter (fun x => q x && p x) l.
Proof.
  induction l as [|x l IH]; [reflexivity|]. cbn [filter].
  destruct (q x); cbn [filter andb]; [destruct (p x)|]; now rewrite IH.
Qed.

(** X20.  Chapters with the same sort key stay in the order of the directory
    listing: for every key, the names of the chapters of the book that have
    this key are the chapter files of the listing that have it, in the order
    of the listing. *)
Theorem X20_equal_keys_keep_listing_order
    (env : Env) (pdfs_path : string) (files : list string) (chs : list ChapterData.t)
    (k : N) :
  listdir env pdfs_path = Ok files ->
  EbookManager.init_pdf_list env pdfs_path = Ok chs ->
  map ChapterData.name (filter (fun ch => key_is k (ChapterData.name ch)) chs)
  = filter (fun f => is_pdf f && key_is k f) files.
Proof.
  intros L I. unfold EbookManager.init_pdf_list in I. rewrite L in I.
  destruct (EbookManager.collect_pdf_files pdfs_path files []) as [found|] eqn:C;
    [|discriminate].
  apply collect_pdf_files_names in C as [N _].
  change (map ChapterData.name found = filter is_pdf files) in N.
  unfold EbookManager.sorted in I.
  destruct (EbookManager.decorate EbookManager.chapter_sorting found) as [kxs|] eqn:D;
    [|discriminate].
  injection I as <-. destruct (decorate_ok _ _ _ D) as [E F].
  assert (G : Forall (fun kx => EbookManager.chapter_sorting (snd kx) = Ok (fst kx))
                (EbookManager.sort_by_key kxs)).
  { rewrite Forall_forall in *. intros kx J. apply F.
    eapply Permutation_in; [apply sort_by_key_perm | exact J]. }
  rewrite <- (filter_decorated k _ G), filter_sort_by_key, (filter_decorated k _ F), E.
  now rewrite map_filter_name, N, filter_filter.
Qed.

Lemma X20_witness :
  exists chs,
    listdir Sample.machine "/books/volumes" = Ok ["Vol2Ch1.pdf"; "Vol1Ch10.pdf"]
    /\ EbookManager.init_pdf_list Sample.machine "/books/volumes" = Ok chs
    /\ map ChapterData.name (filter (fun ch => key_is 1 (ChapterData.name ch)) chs)
       = ["Vol1Ch10.pdf"].
Proof.
  eexists. split; [reflexivity|]. split; [vm_compute; reflexivity|].
  apply (X20_equal_keys_keep_listing_order Sample.machine "/books/volumes"
           ["Vol2Ch1.pdf"; "Vol1Ch10.pdf"] _ 1 eq_refl).
  vm_compute. reflexivity.
Defined.

(** ** The chapter list in the navigation and in the archive *)




